(** * Dashboard Malaysia: the client-side glue layer, embedded and verified

    The development follows the JavaScript sources:
    - [static/js/dashboard.js]            ([formatUtils], [apiClient],
                                           [performanceUtils], [themeManager],
                                           [responsiveManager]);
    - [modules/dashboard-core.js]         ([Dashboard], versions 1.0.0 and 1.1.0);
    - [modules/dashboard-maps.js]         ([DashboardMaps]);
    - [modules/dashboard-data.js]         ([DashboardData], [DashboardCharts]);
    - [modules/dashboard-ui.js]           ([DashboardUI], [DashboardChat]).

    JavaScript Numbers are IEEE binary64 values, so they are embedded as the
    kernel's primitive floats; strings are [string]; objects used as
    dictionaries are finite maps; asynchronous functions are embedded as
    functions of the outcomes of the awaited host calls, returning the final
    state together with what was logged, drawn or requested. *)

From Stdlib Require Import ZArith NArith Bool String Ascii List DecimalString.
From Stdlib Require Import Uint63 Floats.PrimFloat Floats.FloatOps Floats.SpecFloat.
From Stdlib Require Import Lia Floats.FloatAxioms.
From stdpp Require Import base option list strings gmap.
From Equations Require Import Equations.

Set Warnings "-register-all,-inexact-float".

Local Open Scope string_scope.
Local Open Scope list_scope.

(** ** Host-language values *)

Module JS.

(** Exceptions the embedded code can raise or observe. *)
Inductive JsError :=
| TypeError
| RangeError
| SyntaxError
| Error (message : string).

(** The result of running a statement list: a value, or a thrown error. *)
Inductive Completion (A : Type) :=
| Normal (a : A)
| Throw (e : JsError).
Arguments Normal {A} a.
Arguments Throw {A} e.

Definition bind {A B} (c : Completion A) (k : A -> Completion B) : Completion B :=
  match c with
  | Normal a => k a
  | Throw e => Throw e
  end.

Notation "'let*' x ':=' c 'in' k" := (bind c (fun x => k))
  (at level 10, x name, c at level 100, k at level 200).

(** Primitive values. *)
Inductive JsVal :=
| VUndefined
| VNull
| VBool (b : bool)
| VNum (x : float)
| VBigInt (z : Z)
| VStr (s : string)
| VSymbol (description : string).

Definition is_nan (x : float) : bool := negb (PrimFloat.eqb x x).

(** [ToBoolean]: the falsy values are [undefined], [null], [false], [+0],
    [-0], [NaN], [0n] and the empty string. *)
Definition truthy (v : JsVal) : bool :=
  match v with
  | VUndefined | VNull => false
  | VBool b => b
  | VNum x => negb (PrimFloat.eqb x 0%float || is_nan x)
  | VBigInt z => negb (z =? 0)%Z
  | VStr s => negb (String.eqb s "")
  | VSymbol _ => true
  end.

(** Parsed JSON documents. *)
Inductive Json :=
| JNull
| JBool (b : bool)
| JNum (x : float)
| JStr (s : string)
| JArr (items : list Json)
| JObj (fields : list (string * Json)).

(** Decimal digits of a natural number ([0] is ["0"]). *)
Definition digits_of_Z (n : Z) : string :=
  NilZero.string_of_uint (N.to_uint (Z.to_N n)).

Definition digits_of_nat (n : nat) : string := digits_of_Z (Z.of_nat n).

Fixpoint zeros (k : nat) : string :=
  match k with
  | O => ""
  | S k' => "0" +:+ zeros k'
  end.

(** [Number.prototype.toFixed], step 10 of the language definition: the
    digits of [n], padded to at least [f + 1] characters, with a point
    before the last [f]. *)
Definition fixed_digits (n : Z) (f : nat) : string :=
  let m := digits_of_Z n in
  if (f =? 0)%nat then m
  else
    let k := String.length m in
    let m' := if (k <=? f)%nat then zeros (f + 1 - k) +:+ m else m in
    let k' := String.length m' in
    substring 0 (k' - f) m' +:+ "." +:+ substring (k' - f) f m'.

(** The integer [n] for which [n / 10^f - m * 2^e] is closest to zero, the
    larger one when two are equally close. *)
Definition nearest_scaled (m : positive) (e f : Z) : Z :=
  if (0 <=? e)%Z then (Z.pos m * 2 ^ e * 10 ^ f)%Z
  else ((2 * Z.pos m * 10 ^ f + 2 ^ (- e)) / 2 ^ (- e + 1))%Z.

(** [m * 2^e >= 10^21]. *)
Definition at_least_1e21 (m : positive) (e : Z) : bool :=
  if (0 <=? e)%Z then (10 ^ 21 <=? Z.pos m * 2 ^ e)%Z
  else (10 ^ 21 * 2 ^ (- e) <=? Z.pos m)%Z.

(** [Math.floor]. *)
Definition float_of_Z (n : Z) : float :=
  if (n <? 0)%Z then PrimFloat.opp (PrimFloat.of_uint63 (Uint63.of_Z (- n)))
  else PrimFloat.of_uint63 (Uint63.of_Z n).

Definition Math_floor (x : float) : float :=
  match Prim2SF x with
  | S754_finite s m e =>
      if (0 <=? e)%Z then x
      else
        let q := (Z.pos m / 2 ^ (- e))%Z in
        let r := (Z.pos m mod 2 ^ (- e))%Z in
        if s then float_of_Z (- (if (r =? 0)%Z then q else q + 1))
        else float_of_Z q
  | _ => x
  end.

(** A Number used as an array index: [Some n] when it is the non-negative
    integer [n] (either zero counts as [0]). *)
Definition array_index (x : float) : option nat :=
  match Prim2SF x with
  | S754_zero _ => Some 0%nat
  | S754_finite false m e =>
      if (0 <=? e)%Z then Some (Z.to_nat (Z.pos m * 2 ^ e))
      else if (Z.pos m mod 2 ^ (- e) =? 0)%Z
           then Some (Z.to_nat (Z.pos m / 2 ^ (- e)))
           else None
  | _ => None
  end.

Section Host.

(** What the host provides: the shortest round-trip printing of a Number
    ([Number::toString]) and the parsing of a numeric string. *)
Variable Number_toString : float -> string.
Variable StringToNumber : string -> float.

(** [x.toFixed(f)] for a Number [x] and an integer [f]. *)
Definition toFixed (x : float) (f : Z) : Completion string :=
  if ((f <? 0) || (100 <? f))%Z then Throw RangeError
  else
    match Prim2SF x with
    | S754_nan => Normal "NaN"
    | S754_infinity false => Normal "Infinity"
    | S754_infinity true => Normal "-Infinity"
    | S754_zero _ => Normal (fixed_digits 0 (Z.to_nat f))
    | S754_finite s m e =>
        let sign := if s then "-" else "" in
        if at_least_1e21 m e
        then Normal (sign +:+ Number_toString (PrimFloat.abs x))
        else Normal (sign +:+ fixed_digits (nearest_scaled m e f) (Z.to_nat f))
    end.

(** [ToNumber] on primitives. *)
Definition ToNumber (v : JsVal) : Completion float :=
  match v with
  | VUndefined => Normal PrimFloat.nan
  | VNull => Normal 0%float
  | VBool b => Normal (if b then 1%float else 0%float)
  | VNum x => Normal x
  | VStr s => Normal (StringToNumber s)
  | VBigInt _ | VSymbol _ => Throw TypeError
  end.

End Host.

End JS.

(** ** Formatting helpers *)

Module Format.
Import JS.
Local Open Scope float_scope.

(** [const sizes = ['B', 'KB', 'MB', 'GB']]. *)
Definition sizes : list string := ["B"; "KB"; "MB"; "GB"]%string.

(** [`${sizes[i]}`]: the unit at index [i], or the text of [undefined]. *)
Definition size_unit (i : float) : string :=
  match array_index i with
  | Some n => match nth_error sizes n with
              | Some u => u
              | None => "undefined"
              end
  | None => "undefined"
  end.

Section Host.

(** [Math.log] and [Math.pow], which the language leaves to the
    implementation (implementation-approximated), besides the host
    functions of [JS]. *)
Variable Math_log : float -> float.
Variable Math_pow : float -> float -> float.
Variable Number_toString : float -> string.
Variable StringToNumber : string -> float.

Abbreviation toFixed := (JS.toFixed Number_toString).
Abbreviation ToNumber := (JS.ToNumber StringToNumber).

(** [`${c}suffix`] for a completion [c] of [toFixed]. *)
Definition with_suffix (c : Completion string) (suffix : string)
  : Completion string :=
  let* s := c in Normal (s +:+ suffix).

(** *** [formatUtils] of [static/js/dashboard.js]; arguments are Numbers. *)

(** [formatUtils.number(num, decimals = 1)]. *)
Definition formatUtils_number (num : float) (decimals : Z) : Completion string :=
  if 1000000 <=? num then with_suffix (toFixed (num / 1000000) decimals) "M"
  else if 1000 <=? num then with_suffix (toFixed (num / 1000) decimals) "k"
  else toFixed num decimals.

(** [formatUtils.percentage(value, decimals = 1)]. *)
Definition formatUtils_percentage (value : float) (decimals : Z)
  : Completion string :=
  let value := if (0 <=? value) && (value <=? 1) then value * 100 else value in
  with_suffix (toFixed value decimals) "%".

(** [formatUtils.fileSize(bytes)]; the second component lists the
    arguments [Math.log] was applied to, in evaluation order. *)
Definition formatUtils_fileSize (bytes : float)
  : Completion string * list float :=
  if bytes =? 0 then (Normal "0 B"%string, [])
  else
    let i := Math_floor (Math_log bytes / Math_log 1024) in
    (with_suffix (toFixed (bytes / Math_pow 1024 i) 1) (" " +:+ size_unit i),
     [bytes; 1024]).

(** *** [Dashboard] 1.0.0 (core): [formatNumber(num)].  The argument is a
    Number or a missing field ([None] stands for [null] and [undefined],
    which [num == null] does not tell apart); [parseFloat] of a Number
    prints and reads it back, which keeps every value but the sign of
    zero. *)
Definition parseFloat_number (x : float) : float :=
  if x =? 0 then 0 else x.

Definition formatNumber_v1 (num : option float) : Completion string :=
  match num with
  | None => Normal "0"%string
  | Some n =>
      if is_nan n then Normal "0"%string
      else
        let absNum := PrimFloat.abs n in
        if 1000000 <=? absNum then with_suffix (toFixed (n / 1000000) 1) "M"
        else if 1000 <=? absNum then with_suffix (toFixed (n / 1000) 1) "k"
        else toFixed (parseFloat_number n) 1
  end.

(** *** [Dashboard] 1.1.0 (core with real data). *)

Definition as_value (c : Completion string) : Completion JsVal :=
  let* s := c in Normal (VStr s).

(** [formatNumber(num, decimals = 1)]. *)
Definition formatNumber (num : JsVal) (decimals : Z) : Completion JsVal :=
  match num with
  | VNum n =>
      as_value
        (if 1000000000 <=? n then with_suffix (toFixed (n / 1000000000) decimals) "B"
         else if 1000000 <=? n then with_suffix (toFixed (n / 1000000) decimals) "M"
         else if 1000 <=? n then with_suffix (toFixed (n / 1000) decimals) "k"
         else toFixed n decimals)
  | _ => Normal num
  end.

(** [formatPercentage(value, decimals = 1)]. *)
Definition formatPercentage (value : JsVal) (decimals : Z) : Completion JsVal :=
  match value with
  | VNum v =>
      let v := if (0 <=? v) && (v <=? 1) then v * 100 else v in
      as_value (with_suffix (toFixed v decimals) "%")
  | _ => Normal value
  end.

(** [formatFileSize(bytes)], with the trace of [Math.log] arguments.
    [Math.log(bytes)] converts its argument first, and a conversion that
    throws leaves the logarithm unevaluated. *)
Definition formatFileSize (bytes : JsVal) : Completion string * list float :=
  if negb (truthy bytes) then (Normal "0 B"%string, [])
  else
    match ToNumber bytes with
    | Throw e => (Throw e, [])
    | Normal b =>
        let i := Math_floor (Math_log b / Math_log 1024) in
        (with_suffix (toFixed (b / Math_pow 1024 i) 1) (" " +:+ size_unit i),
         [b; 1024])
    end.

End Host.

End Format.

(** ** The retrying request helper of [static/js/dashboard.js] *)

Module ApiClient.
Import JS.

(** [DASHBOARD_CONFIG]. *)
Record Config := {
  apiBaseUrl : string;
  refreshInterval : Z;
  animationDuration : Z;
  maxRetries : nat
}.

Definition DASHBOARD_CONFIG : Config :=
  {| apiBaseUrl := ""; refreshInterval := 30000; animationDuration := 500;
     maxRetries := 3 |}.

(** What one call of [fetch] followed by [response.json()] can do. *)
Inductive JsonOutcome :=
| Parsed (data : Json)
| ParseError (message : string).

Record Response := {
  ok : bool;
  status : nat;
  statusText : string;
  json : JsonOutcome
}.

Inductive FetchOutcome :=
| Rejects (message : string)
| Responds (r : Response).

(** The body of the [try] block: the parsed data, or the message of the
    error that reaches the [catch] clause. *)
Definition attempt (o : FetchOutcome) : Json + string :=
  match o with
  | Rejects message => inr message
  | Responds r =>
      if negb (ok r)
      then inr ("HTTP " +:+ digits_of_nat (status r) +:+ ": " +:+ statusText r)
      else match json r with
           | Parsed data => inl data
           | ParseError message => inr message
           end
  end.

(** The observable state: [window.dashboardState.retryCount] and the
    delays (in milliseconds) of the timers awaited so far, oldest first. *)
Record State := {
  retryCount : nat;
  delays : list Z
}.

Inductive Settled :=
| Resolved (data : Json)
| ResolvedUndefined
| Rejected (e : JsError).

(** [Math.pow(2, retryCount) * 1000]; powers of two of small integers are
    exact Numbers. *)
Definition backoff (retryCount : nat) : Z := (2 ^ Z.of_nat retryCount * 1000)%Z.

(** An attempt fails when control reaches the [catch] clause. *)
Definition is_failure (o : FetchOutcome) : bool :=
  match attempt o with
  | inl _ => false
  | inr _ => true
  end.

(** [2^attempt * 1000] for the attempts [1 .. n]. *)
Definition backoff_schedule (n : nat) : list Z :=
  List.map (fun attempt => (2 ^ Z.of_nat attempt * 1000)%Z) (seq 1 n).

Section Request.

Variable config : Config.
(** [fetch_attempt k] is the outcome of the call of [fetch] made by the
    iteration that starts with the local [retryCount] equal to [k]. *)
Variable fetch_attempt : nat -> FetchOutcome.

(** The [while (retryCount <= maxRetries)] loop of [apiClient.request],
    from the local counter [retryCount]. *)
Equations? request_loop (retryCount : nat) (st : State) : Settled * State
  by wf (S (maxRetries config) - retryCount) lt :=
  request_loop retryCount st with le_dec retryCount (maxRetries config) => {
    | right _ := (ResolvedUndefined, st);
    | left _ with attempt (fetch_attempt retryCount) => {
        | inl data := (Resolved data, {| retryCount := 0; delays := delays st |});
        | inr message with le_dec (S retryCount) (maxRetries config) => {
            | right _ :=
                (Rejected (Error ("Échec après " +:+ digits_of_nat (maxRetries config)
                                  +:+ " tentatives: " +:+ message)),
                 {| retryCount := S retryCount; delays := delays st |});
            | left _ :=
                request_loop (S retryCount)
                  {| retryCount := S retryCount;
                     delays := delays st ++ [backoff (S retryCount)] |} } } }.
Proof. lia. Qed.

(** [apiClient.request(url, options)]. *)
Definition request (st : State) : Settled * State := request_loop 0 st.

End Request.

(** Two backends to run the helper against: one answers 500 twice and then
    200 with a document, the other always answers 500. *)
Definition server_error : FetchOutcome :=
  Responds {| ok := false; status := 500; statusText := "Internal Server Error";
              json := Parsed JNull |}.

Definition summary_document : Json :=
  JObj [("success", JBool true); ("total_buildings", JNum 1200%float)].

Definition recovers_on_third (k : nat) : FetchOutcome :=
  if (k <? 2)%nat then server_error
  else Responds {| ok := true; status := 200; statusText := "OK";
                   json := Parsed summary_document |}.

Definition initial_state : State := {| retryCount := 0; delays := [] |}.

End ApiClient.

(** ** The module registry of [Dashboard] (core, both versions) *)

Module Registry.

(** A module object ([DashboardMaps], [DashboardCharts], ...), identified by
    its address.  Module objects are object literals, so their prototype is
    [Object.prototype]. *)
Inductive Handle := ObjRef (address : nat).

(** What reading a property of [Dashboard.modules] can produce. *)
Inductive PropVal :=
| PUndefined
| PNull
| PModule (h : Handle)
| PBuiltin (name : string)          (* a member of [Object.prototype] *)
| PObjectPrototype                  (* [Object.prototype] itself *)
| PMember (h : Handle) (name : string). (* [h[name]], whatever [h] holds there *)

(** The prototype link of [Dashboard.modules]: [Object.prototype] for the
    literal, unless an assignment reached the [__proto__] setter. *)
Inductive Proto :=
| ObjectPrototype
| ModuleProto (h : Handle).

(** [Dashboard.modules] together with the console. *)
Record State := {
  own : gmap string PropVal;
  proto : Proto;
  console : list string
}.

(** The data properties of [Object.prototype]; [__proto__] is its one
    accessor property. *)
Definition object_prototype_methods : list string :=
  ["constructor"; "hasOwnProperty"; "isPrototypeOf"; "propertyIsEnumerable";
   "toLocaleString"; "toString"; "valueOf"; "__defineGetter__";
   "__defineSetter__"; "__lookupGetter__"; "__lookupSetter__"].

Definition is_object_prototype_method (name : string) : bool :=
  bool_decide (name ∈ object_prototype_methods).

(** A property found on the prototype chain rather than on the object. *)
Definition inherited (p : Proto) (name : string) : option PropVal :=
  if String.eqb name "__proto__" then
    Some (match p with
          | ObjectPrototype => PObjectPrototype
          | ModuleProto h => PModule h
          end)
  else
    match p with
    | ObjectPrototype =>
        if is_object_prototype_method name then Some (PBuiltin name) else None
    | ModuleProto h => Some (PMember h name)
    end.

(** [modules[name]]. *)
Definition get (st : State) (name : string) : PropVal :=
  match own st !! name with
  | Some v => v
  | None => match inherited (proto st) name with
            | Some v => v
            | None => PUndefined
            end
  end.

(** [modules[name] = module]: an own property is overwritten; the inherited
    accessor [__proto__] runs its setter; any other name becomes an own
    property. *)
Definition set (st : State) (name : string) (module : Handle) : State :=
  match own st !! name with
  | Some _ =>
      {| own := <[name := PModule module]> (own st); proto := proto st;
         console := console st |}
  | None =>
      if String.eqb name "__proto__"
      then {| own := own st; proto := ModuleProto module; console := console st |}
      else {| own := <[name := PModule module]> (own st); proto := proto st;
              console := console st |}
  end.

(** [modules: { charts: null, maps: null, chat: null, data: null, ui: null }]. *)
Definition initial : State :=
  {| own := <["charts" := PNull]> (<["maps" := PNull]> (<["chat" := PNull]>
              (<["data" := PNull]> (<["ui" := PNull]> ∅))));
     proto := ObjectPrototype;
     console := [] |}.

(** [registerModule(name, module)]. *)
Definition registerModule (name : string) (module : Handle) (st : State) : State :=
  let st' := set st name module in
  {| own := own st'; proto := proto st';
     console := console st' ++ ["📦 Module " +:+ name +:+ " enregistré"] |}.

(** [getModule(name)]. *)
Definition getModule (st : State) (name : string) : PropVal := get st name.

(** A value a caller sees as "no module": [undefined] or [null]. *)
Definition absent (v : PropVal) : Prop := v = PUndefined \/ v = PNull.

(** A run of registrations, oldest first. *)
Definition register_all (calls : list (string * Handle)) (st : State) : State :=
  fold_left (fun acc call => registerModule call.1 call.2 acc) calls st.

End Registry.

(** ** Tab activation in [Dashboard] 1.1.0 *)

Module Tabs.

(** The template literals injected by the loaders, by name. *)
Inductive Template :=
| OverviewTemplate       (* [Dashboard.loadOverviewContent] *)
| ConsumptionTemplate    (* [Dashboard.loadConsumptionContent] *)
| BuildingsTemplate      (* [Dashboard.loadBuildingsContent] *)
| AnalysisTemplate       (* [Dashboard.loadAnalysisContent] *)
| DataTemplate           (* [Dashboard.loadDataContent] *)
| SettingsTemplate       (* [Dashboard.loadSettingsContent] *)
| ModuleTemplate (module_name : string). (* a content module's own markup *)

Inductive Markup :=
| Served (html : string)   (* what the page came with *)
| Injected (t : Template).

(** A tab container: its [innerHTML] and its [data-loaded] attribute
    ([dataset.loaded]). *)
Record Container := {
  innerHTML : Markup;
  loaded : option string
}.

(** [dataset.loaded] as a condition: set and not the empty string. *)
Definition flag_set (c : Container) : bool :=
  match loaded c with
  | Some s => negb (String.eqb s "")
  | None => false
  end.

(** The document (containers by id), [Dashboard.state.currentTab], the ids
    whose markup a tab loader wrote (oldest first) and the URLs requested
    from the network. *)
Record State := {
  document : gmap string Container;
  currentTab : string;
  loads : list string;
  fetches : list string
}.

(** The common shape of the five loaders:
    [const c = document.getElementById(id);
     if (!c || c.dataset.loaded) return;
     c.innerHTML = `...`;  c.dataset.loaded = 'true';] *)
Definition load_once (id : string) (t : Template) (st : State) : State :=
  match document st !! id with
  | None => st
  | Some c =>
      if flag_set c then st
      else
        {| document := <[id := {| innerHTML := Injected t; loaded := Some "true" |}]>
                         (document st);
           currentTab := currentTab st;
           loads := loads st ++ [id];
           fetches := fetches st |}
  end.

Definition loadConsumptionContent := load_once "consumption" ConsumptionTemplate.
Definition loadBuildingsContent := load_once "buildings" BuildingsTemplate.
Definition loadAnalysisContent := load_once "analysis" AnalysisTemplate.
Definition loadDataContent := load_once "data" DataTemplate.
Definition loadSettingsContent := load_once "settings" SettingsTemplate.

(** [loadTabContent(tabId)]. *)
Definition loadTabContent (tabId : string) (st : State) : State :=
  if String.eqb tabId "overview" then st
  else if String.eqb tabId "consumption" then loadConsumptionContent st
  else if String.eqb tabId "buildings" then loadBuildingsContent st
  else if String.eqb tabId "analysis" then loadAnalysisContent st
  else if String.eqb tabId "data" then loadDataContent st
  else if String.eqb tabId "settings" then loadSettingsContent st
  else st.

(** The [shown.bs.tab] listener installed by [setupTabEvents]. *)
Definition activate (targetId : string) (st : State) : State :=
  loadTabContent targetId
    {| document := document st; currentTab := targetId;
       loads := loads st; fetches := fetches st |}.

(** Loaders that write a container without looking at the flag:
    [Dashboard.loadOverviewContent] at start-up and the content modules'
    own [load...Content] ([DashboardCharts], [DashboardMaps],
    [DashboardChat], [DashboardData]). *)
Definition inject (id : string) (t : Template) (st : State) : State :=
  match document st !! id with
  | None => st
  | Some c =>
      {| document := <[id := {| innerHTML := Injected t; loaded := loaded c |}]>
                       (document st);
         currentTab := currentTab st;
         loads := loads st;
         fetches := fetches st |}
  end.

(** [Dashboard.loadConsumptionData], [loadBuildingsData], [updateRAG]: one
    request, toasts and console lines, no write to a tab container. *)
Definition fetch_only (url : string) (st : State) : State :=
  {| document := document st; currentTab := currentTab st;
     loads := loads st; fetches := fetches st ++ [url] |}.

(** Every operation of the program that reads or writes a tab container,
    and the buttons of the injected markup, within the lifetime of one
    page (a reload builds a new document). *)
Inductive Op :=
| Activate (targetId : string)
| LoadOverviewContent
| ModuleLoad (id module_name : string)
| LoadConsumptionData
| LoadBuildingsData
| UpdateRAG.

Definition step (op : Op) (st : State) : State :=
  match op with
  | Activate targetId => activate targetId st
  | LoadOverviewContent => inject "overview" OverviewTemplate st
  | ModuleLoad id module_name => inject id (ModuleTemplate module_name) st
  | LoadConsumptionData => fetch_only "/api/charts/consumption" st
  | LoadBuildingsData => fetch_only "/api/map/buildings" st
  | UpdateRAG => fetch_only "/api/rag/update" st
  end.

Definition run (ops : list Op) (st : State) : State :=
  fold_left (fun acc op => step op acc) ops st.

(** The flag of the container [id], [false] when there is no such
    container. *)
Definition flag (st : State) (id : string) : bool :=
  match document st !! id with
  | Some c => flag_set c
  | None => false
  end.

Definition tabs : list string :=
  ["overview"; "consumption"; "buildings"; "analysis"; "data"; "settings"].

(** The tabs [loadTabContent] has a loader for. *)
Definition loaded_on_activation : list string :=
  ["consumption"; "buildings"; "analysis"; "data"; "settings"].

(** A page that has the overview container and nothing loaded. *)
Definition fresh_page : State :=
  {| document := {["overview" := {| innerHTML := Served ""; loaded := None |}]};
     currentTab := "overview";
     loads := [];
     fetches := [] |}.

(** A page that has the six containers as static HTML serves them. *)
Definition served_page : State :=
  {| document :=
       list_to_map
         (List.map (fun id => (id, {| innerHTML := Served ""; loaded := None |})) tabs);
     currentTab := "overview";
     loads := [];
     fetches := [] |}.

End Tabs.

(** ** What the backend answers to the content modules *)

Module Backend.
Import JS.

(** [await response.json()], read as the envelope [{ success, ...payload }]:
    text that is not JSON, the document [null], or any other document with
    the value of its [success] field ([None] when it has none) and the
    payload field the caller extracts ([None] when that is missing). *)
Inductive Body (P : Type) :=
| BodyInvalid (message : string)
| BodyNull
| BodyEnvelope (success : option Json) (payload : option P).
Arguments BodyInvalid {P} message.
Arguments BodyNull {P}.
Arguments BodyEnvelope {P} success payload.

Record Response (P : Type) := {
  ok : bool;
  status : nat;
  body : Body P
}.
Arguments ok {P} r.
Arguments status {P} r.
Arguments body {P} r.

(** [await fetch(url)]: a rejection (network failure) or a response, of
    whatever status. *)
Inductive FetchOutcome (P : Type) :=
| Rejects (message : string)
| Responds (r : Response P).
Arguments Rejects {P} message.
Arguments Responds {P} r.

(** [ToBoolean] of a JSON value. *)
Definition json_truthy (j : Json) : bool :=
  match j with
  | JNull => false
  | JBool b => b
  | JNum x => truthy (VNum x)
  | JStr s => truthy (VStr s)
  | JArr _ | JObj _ => true
  end.

(** [if (result.success)]. *)
Definition success_truthy (success : option Json) : bool :=
  match success with
  | Some j => json_truthy j
  | None => false
  end.

Inductive ConsoleLine :=
| ConsoleLog (text : string)
| ConsoleWarn (text : string)
| ConsoleError (label : string) (error : JsError).

(** [a || b] on the value of a control that may be missing ([?.value])
    and a default. *)
Definition value_or (control : option string) (default : string) : string :=
  match control with
  | Some v => if String.eqb v "" then default else v
  | None => default
  end.

End Backend.

(** ** [DashboardMaps] *)

Module Maps.
Import JS Backend.
Local Open Scope float_scope.

Record MarkerData := {
  lat : float;
  lng : float;
  color : string;
  popup : string
}.

Definition LatLng : Type := float * float.

(** [map_data]: [markers] is [None] when the field is missing or [null]. *)
Record MapData := {
  markers : option (list MarkerData);
  center : option LatLng;
  zoom : option float
}.

Record HeatPoint := {
  point_lat : float;
  point_lng : float;
  intensity : float
}.

Record HeatmapData := {
  heatmap_points : option (list HeatPoint);
  heat_center : option LatLng;
  heat_zoom : option float
}.

(** The layers of the Leaflet map (Leaflet 1.x), in the order [eachLayer]
    visits them, which is the order they were first added in: the tile
    layers ([L.tileLayer(url, {attribution, maxZoom: 18})], the one kind
    the module creates), the circle markers, the heat layers, and the
    renderer Leaflet draws every path with (an [L.SVG] or an [L.Canvas]),
    which is a layer of the map too: Leaflet adds it with the first path.
    A popup is a layer only while it is open; the map is taken with its
    popups closed. *)
Inductive Layer :=
| TileLayer (url : string)
| CircleMarker (at_lat at_lng : float) (fillColor : string) (bound_popup : string)
| HeatLayer (points : list (float * float * float))
| PathRenderer.

(** The map: its layers, and the view [setView] last sent it to. *)
Record MapWidget := {
  layers : list Layer;
  view_center : LatLng;
  view_zoom : float
}.

(** [layer instanceof L.CircleMarker] and [layer instanceof L.HeatLayer]. *)
Definition is_circle_marker (l : Layer) : bool :=
  match l with CircleMarker _ _ _ _ => true | _ => false end.

Definition is_heat_layer (l : Layer) : bool :=
  match l with HeatLayer _ => true | _ => false end.

Definition is_tile_layer (l : Layer) : bool :=
  match l with TileLayer _ => true | _ => false end.

Definition is_path_renderer (l : Layer) : bool :=
  match l with PathRenderer => true | _ => false end.

(** [layer.addTo(map)].  A circle marker is a path: before the map takes
    it, Leaflet asks the map for its renderer ([getRenderer]), and that
    adds the renderer to the map when it is not one of its layers yet. *)
Definition addTo (l : Layer) (ls : list Layer) : list Layer :=
  if is_circle_marker l && negb (existsb is_path_renderer ls)
  then ls ++ [l; PathRenderer]
  else ls ++ [l].

(** [Math.round]: the nearest integer, the larger one of two that are
    equally near; a result of zero keeps the sign of the argument. *)
Definition Math_round (x : float) : float :=
  match Prim2SF x with
  | S754_finite s m e =>
      if (0 <=? e)%Z then x
      else
        let n := ((2 * (if s then Z.neg m else Z.pos m) + 2 ^ (- e))
                  / 2 ^ (- e + 1))%Z in
        if (n =? 0)%Z then (if s then neg_zero else zero) else float_of_Z n
  | _ => x
  end.

(** [Math.min] and [Math.max] of two Numbers: [NaN] when either is, and
    [-0] below [+0]. *)
Definition Math_min (a b : float) : float :=
  if is_nan a || is_nan b then nan
  else if a <? b then a
  else if b <? a then b
  else match Prim2SF a with S754_zero false => b | _ => a end.

Definition Math_max (a b : float) : float :=
  if is_nan a || is_nan b then nan
  else if a <? b then b
  else if b <? a then a
  else match Prim2SF a with S754_zero true => b | _ => a end.

(** [map.getMinZoom()] and [map.getMaxZoom()].  [initializeMap] creates
    the map without [minZoom] and [maxZoom], so that the range is the one
    of the tile layers on the map: from 0 to 18 with a tile layer of the
    module, from 0 without an upper end with none. *)
Definition getMinZoom (m : MapWidget) : float := 0.

Definition getMaxZoom (m : MapWidget) : float :=
  if existsb is_tile_layer (layers m) then 18 else infinity.

(** [map.setView(center, zoom)] for a centre [[lat, lng]] and a Number
    [zoom]: the zoom is snapped to an integer (the default [zoomSnap] is
    1) and limited to the range of the map. *)
Definition limitZoom (m : MapWidget) (zoom : float) : float :=
  Math_max (getMinZoom m) (Math_min (getMaxZoom m) (Math_round zoom)).

Definition setView (center : LatLng) (zoom : float) (m : MapWidget) : MapWidget :=
  {| layers := layers m; view_center := center; view_zoom := limitZoom m zoom |}.

(** The part of the page [DashboardMaps] works on. *)
Record State := {
  map : option MapWidget;                 (* [Dashboard.state.map] *)
  map_density : option string;            (* value of [#map-density] *)
  map_type_filter : option string;        (* value of [#map-type-filter] *)
  density_display : option string;        (* text of [#density-display] *)
  console : list ConsoleLine;
  requests : list string
}.

Definition with_map (st : State) (m : MapWidget) : State :=
  {| map := Some m; map_density := map_density st;
     map_type_filter := map_type_filter st;
     density_display := density_display st;
     console := console st; requests := requests st |}.

Definition log (l : ConsoleLine) (st : State) : State :=
  {| map := map st; map_density := map_density st;
     map_type_filter := map_type_filter st;
     density_display := density_display st;
     console := console st ++ [l]; requests := requests st |}.

Definition request (url : string) (st : State) : State :=
  {| map := map st; map_density := map_density st;
     map_type_filter := map_type_filter st;
     density_display := density_display st;
     console := console st; requests := requests st ++ [url] |}.

(** [L.circleMarker([lat, lng], {...}).bindPopup(popup)]. *)
Definition circleMarker (d : MarkerData) : Layer :=
  CircleMarker (lat d) (lng d) (color d) (popup d).

Definition number_truthy (x : option float) : bool :=
  match x with
  | Some z => truthy (VNum z)
  | None => false
  end.

(** [mapData.markers.forEach(markerData => {...})]: each marker is
    created and added to the map in turn. *)
Definition add_markers (ms : list MarkerData) (ls : list Layer) : list Layer :=
  fold_left (fun ls d => addTo (circleMarker d) ls) ms ls.

(** [renderBuildingsOnMap(mapData)]; [None] is an [undefined] argument. *)
Definition renderBuildingsOnMap (mapData : option MapData) (st : State)
  : Completion State :=
  match map st with
  | None => Normal st
  | Some m =>
      match mapData with
      | None => Throw TypeError
      | Some d =>
          match markers d with
          | None => Normal st
          | Some ms =>
              let cleared := List.filter (fun l => negb (is_circle_marker l)) (layers m) in
              let drawn := {| layers := add_markers ms cleared;
                              view_center := view_center m;
                              view_zoom := view_zoom m |} in
              let m' :=
                match center d with
                | Some c =>
                    if number_truthy (zoom d)
                    then setView c (default 0 (zoom d)) drawn
                    else drawn
                | None => drawn
                end in
              Normal (log (ConsoleLog ("✅ " +:+ digits_of_nat (length ms)
                                       +:+ " bâtiments affichés"))
                        (with_map st m'))
          end
      end
  end.

Definition heat_triple (p : HeatPoint) : float * float * float :=
  (point_lat p, point_lng p, intensity p).

(** [renderConsumptionHeatmap(heatmapData)]. *)
Definition renderConsumptionHeatmap (heatmapData : option HeatmapData) (st : State)
  : Completion State :=
  match map st with
  | None => Normal st
  | Some m =>
      match heatmapData with
      | None => Throw TypeError
      | Some d =>
          match heatmap_points d with
          | None => Normal st
          | Some ps =>
              let cleared :=
                List.filter (fun l => negb (is_circle_marker l || is_heat_layer l))
                       (layers m) in
              match ps with
              | [] =>
                  Normal (with_map st {| layers := cleared;
                                         view_center := view_center m;
                                         view_zoom := view_zoom m |})
              | _ :: _ =>
                  let drawn :=
                    {| layers := addTo (HeatLayer (List.map heat_triple ps)) cleared;
                       view_center := view_center m;
                       view_zoom := view_zoom m |} in
                  let m' :=
                    match heat_center d with
                    | Some c =>
                        setView c (if number_truthy (heat_zoom d)
                                   then default 0 (heat_zoom d) else 7) drawn
                    | None => drawn
                    end in
                  Normal (log (ConsoleLog ("✅ Heatmap avec " +:+ digits_of_nat (length ps)
                                           +:+ " points"))
                            (with_map st m'))
              end
          end
      end
  end.

(** The URL of [showBuildingsView]. *)
Definition buildings_url (st : State) : string :=
  let density := value_or (map_density st) "100" in
  let typeFilter := value_or (map_type_filter st) "all" in
  "/api/map/buildings?density=" +:+ density +:+ "&type=" +:+ typeFilter.

(** The [try] block after [fetch] has answered: [Throw] is what reaches
    the [catch] clause. *)
Definition show_buildings_try (answer : FetchOutcome MapData) (st : State)
  : Completion State :=
  match answer with
  | Rejects message => Throw (Error message)
  | Responds r =>
      match body r with
      | BodyInvalid _ => Throw SyntaxError
      | BodyNull => Throw TypeError
      | BodyEnvelope success map_data =>
          if success_truthy success then renderBuildingsOnMap map_data st
          else Normal st
      end
  end.

(** [showBuildingsView()], given what the backend answers. *)
Definition showBuildingsView (answer : FetchOutcome MapData) (st : State) : State :=
  let st1 := request (buildings_url st) st in
  match show_buildings_try answer st1 with
  | Normal st2 => st2
  | Throw error => log (ConsoleError "Erreur affichage bâtiments:" error) st1
  end.

(** [updateMapDensity(value)]. *)
Definition updateMapDensity (value : string) (answer : FetchOutcome MapData)
    (st : State) : Completion State :=
  match density_display st with
  | None => Throw TypeError
  | Some _ =>
      Normal (showBuildingsView answer
                {| map := map st; map_density := map_density st;
                   map_type_filter := map_type_filter st;
                   density_display := Some value;
                   console := console st; requests := requests st |})
  end.

(** [updateMapTypeFilter(value)]. *)
Definition updateMapTypeFilter (value : string) (answer : FetchOutcome MapData)
    (st : State) : State :=
  showBuildingsView answer st.

(** The user moves the slider [#map-density] to [value]: the control
    takes the value, then its [onchange] attribute runs
    [DashboardMaps.updateMapDensity(this.value)]. *)
Definition slide_density (value : string) (answer : FetchOutcome MapData)
    (st : State) : Completion State :=
  updateMapDensity value answer
    {| map := map st; map_density := Some value;
       map_type_filter := map_type_filter st;
       density_display := density_display st;
       console := console st; requests := requests st |}.

(** A renderer called twice in succession. *)
Definition render_twice {P} (render : option P -> State -> Completion State)
    (first second : P) (st : State) : Completion State :=
  let* st1 := render (Some first) st in render (Some second) st1.

(** The map a run ends with. *)
Definition map_after (c : Completion State) : option MapWidget :=
  match c with
  | Normal st => map st
  | Throw _ => None
  end.

(** The layers a renderer manages, and the ones it leaves alone. *)
Definition circle_markers (m : MapWidget) : list Layer :=
  List.filter is_circle_marker (layers m).

Definition beside_circle_markers (m : MapWidget) : list Layer :=
  List.filter (fun l => negb (is_circle_marker l)) (layers m).

Definition overlays (m : MapWidget) : list Layer :=
  List.filter (fun l => is_circle_marker l || is_heat_layer l) (layers m).


Definition heat_maps (m : MapWidget) : list Layer :=
  List.filter is_heat_layer (layers m).

Definition tile_layers (m : MapWidget) : list Layer :=
  List.filter is_tile_layer (layers m).

(** What [renderConsumptionHeatmap] draws for a list of points. *)
Definition heat_layers (ps : list HeatPoint) : list Layer :=
  match ps with
  | [] => []
  | _ :: _ => [HeatLayer (List.map heat_triple ps)]
  end.

(** A page to run the module on: the map as [initializeMap] creates it, the
    controls as the module's markup declares them. *)
Definition tiles : Layer := TileLayer "https://{s}.tile.openstreetmap.org/{z}/{x}/{y}.png".

Definition initial_page : State :=
  {| map := Some {| layers := [tiles]; view_center := (4.2105, 101.9758);
                    view_zoom := 6 |};
     map_density := Some "100";
     map_type_filter := Some "all";
     density_display := Some "100";
     console := [];
     requests := [] |}.

Definition kuala_lumpur : MarkerData :=
  {| lat := 3.139; lng := 101.6869; color := "#28a745"; popup := "B001" |}.

Definition one_building : MapData :=
  {| markers := Some [kuala_lumpur]; center := Some (3.139, 101.6869); zoom := Some 10 |}.

Definition george_town : MarkerData :=
  {| lat := 5.4141; lng := 100.3288; color := "#007bff"; popup := "B002" |}.

Definition another_building : MapData :=
  {| markers := Some [george_town]; center := None; zoom := None |}.


End Maps.

(** ** [DashboardCharts] *)

Module Charts.
Import JS Backend.

(** A Plotly chart description [{ data, layout }]. *)
Record ChartData := {
  data : Json;
  layout : Json
}.

(** [{ ...chartData.layout, autosize: true, margin: { l: 50, r: 50, t: 50, b: 50 } }]. *)
Record Layout := {
  spread : Json;
  autosize : bool;
  margin : Z * Z * Z * Z
}.

(** [{ responsive: true, displayModeBar: false, locale: 'fr' }]. *)
Record PlotConfig := {
  responsive : bool;
  displayModeBar : bool;
  locale : string
}.

Record Plot := {
  plot_data : Json;
  plot_layout : Layout;
  plot_config : PlotConfig
}.

(** The [charts] payload of [/api/charts/consumption]. *)
Record ConsumptionCharts := {
  detailed_consumption : option ChartData;
  hourly_patterns : option ChartData;
  consumption_heatmap : option ChartData
}.

(** The part of the page [DashboardCharts] works on: the chart elements
    in the document, what Plotly has drawn in each, and
    [Dashboard.state.charts]. *)
Record State := {
  elements : gset string;
  drawn : gmap string Plot;
  charts : gmap string Plot;
  time_range_select : option string;
  building_type_select : option string;
  console : list ConsoleLine;
  requests : list string
}.

Definition log (l : ConsoleLine) (st : State) : State :=
  {| elements := elements st; drawn := drawn st; charts := charts st;
     time_range_select := time_range_select st;
     building_type_select := building_type_select st;
     console := console st ++ [l]; requests := requests st |}.

Definition request (url : string) (st : State) : State :=
  {| elements := elements st; drawn := drawn st; charts := charts st;
     time_range_select := time_range_select st;
     building_type_select := building_type_select st;
     console := console st; requests := requests st ++ [url] |}.

(** [renderPlotlyChart(elementId, chartData)]: [Plotly.newPlot] replaces
    whatever the element showed with [plot_of chartData]. *)
Definition plot_of (chartData : ChartData) : Plot :=
  {| plot_data := data chartData;
     plot_layout := {| spread := layout chartData; autosize := true;
                       margin := (50, 50, 50, 50)%Z |};
     plot_config := {| responsive := true; displayModeBar := false;
                       locale := "fr" |} |}.

Definition renderPlotlyChart (elementId : string) (chartData : ChartData)
    (st : State) : State :=
  if bool_decide (elementId ∈ elements st) then
    let plot := plot_of chartData in
    {| elements := elements st;
       drawn := <[elementId := plot]> (drawn st);
       charts := <[elementId := plot]> (charts st);
       time_range_select := time_range_select st;
       building_type_select := building_type_select st;
       console := console st; requests := requests st |}
  else st.

Definition render_if_present (elementId : string) (chartData : option ChartData)
    (st : State) : State :=
  match chartData with
  | Some c => renderPlotlyChart elementId c st
  | None => st
  end.

(** [renderConsumptionCharts(charts)]; [None] is an [undefined] argument. *)
Definition renderConsumptionCharts (payload : option ConsumptionCharts) (st : State)
  : Completion State :=
  match payload with
  | None => Throw TypeError
  | Some c =>
      Normal (render_if_present "consumption-heatmap" (consumption_heatmap c)
                (render_if_present "hourly-patterns-chart" (hourly_patterns c)
                   (render_if_present "detailed-consumption-chart"
                      (detailed_consumption c) st)))
  end.

Definition consumption_url (st : State) : string :=
  let timeRange := value_or (time_range_select st) "7d" in
  let buildingType := value_or (building_type_select st) "all" in
  "/api/charts/consumption?range=" +:+ timeRange +:+ "&type=" +:+ buildingType.

Definition update_consumption_try (answer : FetchOutcome ConsumptionCharts)
    (st : State) : Completion State :=
  match answer with
  | Rejects message => Throw (Error message)
  | Responds r =>
      match body r with
      | BodyInvalid _ => Throw SyntaxError
      | BodyNull => Throw TypeError
      | BodyEnvelope success payload =>
          if success_truthy success then renderConsumptionCharts payload st
          else Normal st
      end
  end.

(** [updateConsumptionCharts()], given what the backend answers. *)
Definition updateConsumptionCharts (answer : FetchOutcome ConsumptionCharts)
    (st : State) : State :=
  let st1 := request (consumption_url st) st in
  match update_consumption_try answer st1 with
  | Normal st2 => st2
  | Throw error => log (ConsoleError "Erreur mise à jour graphiques:" error) st1
  end.

(** The sibling [loadCharts()] of the same module, which does report an
    envelope whose [success] is false.  Its payload is the pair
    [consumption_timeline], [building_types]. *)
Definition renderCharts (payload : option (option ChartData * option ChartData))
    (st : State) : Completion State :=
  match payload with
  | None => Throw TypeError
  | Some (consumption_timeline, building_types) =>
      Normal (render_if_present "building-types-chart" building_types
                (render_if_present "consumption-chart" consumption_timeline st))
  end.

Definition loadCharts
    (answer : FetchOutcome (option ChartData * option ChartData)) (st : State)
  : State :=
  let st1 := request "/api/charts/overview" st in
  let attempt :=
    match answer with
    | Rejects message => Throw (Error message)
    | Responds r =>
        match body r with
        | BodyInvalid _ => Throw SyntaxError
        | BodyNull => Throw TypeError
        | BodyEnvelope success payload =>
            if success_truthy success then renderCharts payload st1
            else Normal (log (ConsoleWarn "Pas de graphiques disponibles") st1)
        end
    end in
  match attempt with
  | Normal st2 => st2
  | Throw error => log (ConsoleError "Erreur chargement graphiques:" error) st1
  end.

End Charts.

(** ** [DashboardData.applySettings] *)

Module Settings.
Import JS Backend.

(** A form control of the settings page (a select, a checkbox or an
    input of type range, url, number or text): its [type], and the
    [value] and [checked] properties as last assigned (the document keeps
    their conversions). *)
Record Control := {
  type : string;
  value : Json;
  checked : Json
}.

(** The part of the page [applySettings] works on: the controls by id,
    the [data-theme] attribute of the root element, and the radio button
    of the group [theme] that was last checked from here, by its
    [value]. *)
Record State := {
  controls : gmap string Control;
  data_theme : option Json;
  theme_radio : option string
}.

(** [const mappings = {...}], in insertion order. *)
Definition mappings : list (string * string) :=
  [("language-select", "language");
   ("animations-toggle", "animations");
   ("sounds-toggle", "sounds");
   ("chart-resolution", "chartResolution");
   ("max-points-range", "maxPoints");
   ("auto-refresh-toggle", "autoRefresh");
   ("ollama-url", "ollamaUrl");
   ("default-model", "defaultModel");
   ("ollama-timeout", "ollamaTimeout");
   ("cache-duration", "cacheDuration");
   ("export-folder", "exportFolder")].

(** The field [key] of an object built by [JSON.parse]: the last of the
    members with that name. *)
Definition field (fields : list (string * Json)) (key : string) : option Json :=
  fold_left (fun found member => if String.eqb member.1 key then Some member.2 else found)
            fields None.

(** [settings.key] and [settings[key]] for the keys used here (none is a
    member of a prototype): a [TypeError] on [null], the field on an
    object, [undefined] on anything else. *)
Definition get (settings : Json) (key : string) : Completion (option Json) :=
  match settings with
  | JNull => Throw TypeError
  | JObj fields => Normal (field fields key)
  | _ => Normal None
  end.

(** What [ToString] does to a value built by [JSON.parse], where the
    document takes a string (the [value] of a control, the value of an
    attribute, the text put into a template literal): it throws a
    [TypeError] for an object with a member named [toString], and for
    nothing else.  Such a member is never a function, so that the
    conversion falls back on [valueOf], which is a member (and no function
    either) or the inherited method, whose result is the object itself
    and no primitive; an object without the member prints as
    [[object Object]] through the inherited [toString].  An array is
    joined, and [join] converts its elements in turn, all but [null]. *)
Fixpoint to_string_throws (v : Json) : bool :=
  match v with
  | JObj fields =>
      match field fields "toString" with
      | Some _ => true
      | None => false
      end
  | JArr items => existsb to_string_throws items
  | _ => false
  end.

(** Statements here change the page and may then throw: a run ends in the
    page it reached, with the error when it was cut short. *)
Definition Run : Type := State * option JsError.

(** The body of the [forEach] callback.  [element.checked = v] converts
    [v] to a boolean, which never throws; [element.value = v] converts it
    to a string first, and changes nothing when that throws. *)
Definition apply_mapping (settings : Json) (mapping : string * string) (st : State)
  : Run :=
  let (elementId, settingKey) := mapping in
  match controls st !! elementId with
  | None => (st, None)
  | Some element =>
      match get settings settingKey with
      | Throw e => (st, Some e)
      | Normal None => (st, None)
      | Normal (Some v) =>
          let element' :=
            if String.eqb (type element) "checkbox"
            then {| type := type element; value := value element; checked := v |}
            else {| type := type element; value := v; checked := checked element |} in
          if negb (String.eqb (type element) "checkbox") && to_string_throws v
          then (st, Some TypeError)
          else ({| controls := <[elementId := element']> (controls st);
                   data_theme := data_theme st;
                   theme_radio := theme_radio st |}, None)
      end
  end.

(** [Object.entries(mappings).forEach(...)]. *)
Fixpoint apply_mappings (settings : Json) (ms : list (string * string)) (st : State)
  : Run :=
  match ms with
  | [] => (st, None)
  | m :: rest =>
      match apply_mapping settings m st with
      | (st', None) => apply_mappings settings rest st'
      | (st', Some e) => (st', Some e)
      end
  end.

Section Host.

(** [document.querySelector(`input[name="theme"][value="${theme}"]`)]:
    the [value] of the radio button found, [None] for [null]; the host
    throws (an exception named [SyntaxError]) when the text is not a
    selector. *)
Variable query_theme_radio : Json -> Completion (option string).

(** The [if (settings.theme) {...}] statement; [setAttribute] converts
    the theme to a string before it sets the attribute. *)
Definition apply_theme (settings : Json) (st : State) : Run :=
  match get settings "theme" with
  | Throw e => (st, Some e)
  | Normal None => (st, None)
  | Normal (Some t) =>
      if json_truthy t then
        if to_string_throws t then (st, Some TypeError)
        else
          let st1 := {| controls := controls st; data_theme := Some t;
                        theme_radio := theme_radio st |} in
          match query_theme_radio t with
          | Throw e => (st1, Some e)
          | Normal None => (st1, None)
          | Normal (Some radio) =>
              ({| controls := controls st1; data_theme := data_theme st1;
                  theme_radio := Some radio |}, None)
          end
      else (st, None)
  end.

(** [applySettings(settings)]. *)
Definition applySettings (settings : Json) (st : State) : Run :=
  match apply_theme settings st with
  | (st1, None) => apply_mappings settings mappings st1
  | (st1, Some e) => (st1, Some e)
  end.

End Host.

(** A settings page to run the import on: two of the mapped controls and
    the theme radio buttons [dark] and [light].  Its [querySelector] finds
    a radio button by its value and, as the Selectors grammar demands,
    refuses the selector text that the theme [unbalanced_theme] (an a, a
    double quote, a b) produces, where the quoted string ends before the
    closing bracket. *)
Definition double_quote : string := String (ascii_of_nat 34) "".

Definition unbalanced_theme : string := "a" +:+ double_quote +:+ "b".

Definition settings_page : State :=
  {| controls :=
       <["language-select" := {| type := "select-one"; value := JStr "fr";
                                 checked := JBool false |}]>
         (<["sounds-toggle" := {| type := "checkbox"; value := JStr "on";
                                  checked := JBool false |}]> ∅);
     data_theme := Some (JStr "dark");
     theme_radio := Some "dark" |}.

(** An object that cannot be converted to a string, and the import that
    brings it as the language. *)
Definition unprintable : Json := JObj [("toString", JNull)].

Definition page_query_theme_radio (theme : Json) : Completion (option string) :=
  match theme with
  | JStr s =>
      if String.eqb s unbalanced_theme then Throw SyntaxError
      else if bool_decide (s ∈ ["dark"; "light"]) then Normal (Some s)
           else Normal None
  | _ => Normal None
  end.

End Settings.

(** ** [responsiveManager] of [static/js/dashboard.js] *)

Module Responsive.

(** [breakpoints: { xs: 576, sm: 768, md: 992, lg: 1200, xl: 1400 }], in
    insertion order, which is the order of [Object.entries]. *)
Definition breakpoints : list (string * Z) :=
  [("xs", 576); ("sm", 768); ("md", 992); ("lg", 1200); ("xl", 1400)]%Z.

(** [getCurrentBreakpoint()]; [width] is [window.innerWidth], an integer
    number of pixels. *)
Definition getCurrentBreakpoint (width : Z) : string :=
  match List.find (fun entry => (entry.2 <=? width)%Z) (rev breakpoints) with
  | Some entry => entry.1
  | None => "xs"
  end.

(** The string-keyed members of [Array.prototype] (ECMAScript 2023). *)
Definition array_prototype_members : list string :=
  ["at"; "concat"; "constructor"; "copyWithin"; "entries"; "every"; "fill";
   "filter"; "find"; "findIndex"; "findLast"; "findLastIndex"; "flat";
   "flatMap"; "forEach"; "includes"; "indexOf"; "join"; "keys";
   "lastIndexOf"; "length"; "map"; "pop"; "push"; "reduce"; "reduceRight";
   "reverse"; "shift"; "slice"; "some"; "sort"; "splice"; "toLocaleString";
   "toReversed"; "toSorted"; "toSpliced"; "toString"; "unshift"; "values";
   "with"].

(** [key in array] for an array literal of [len] elements: the operator
    looks for a property with that name, which an array has for its
    indices and [length], and inherits from [Array.prototype] and
    [Object.prototype]. *)
Definition in_array (key : string) (len : nat) : bool :=
  existsb (fun i => String.eqb key (JS.digits_of_nat i)) (seq 0 len)
  || String.eqb key "length"
  || bool_decide (key ∈ array_prototype_members)
  || Registry.is_object_prototype_method key
  || String.eqb key "__proto__".

(** [isMobile()]: [getCurrentBreakpoint() in ['xs', 'sm']]. *)
Definition isMobile (width : Z) : bool :=
  in_array (getCurrentBreakpoint width) (length ["xs"; "sm"]).

End Responsive.

(** ** The theme switches: [themeManager] of [static/js/dashboard.js] and
    [initializeTheme], [toggleTheme] of [Dashboard] *)

Module Theme.
Import JS Backend.

(** The part of the page the theme switches work on. *)
Record State := {
  current : string;                (* [themeManager.current] *)
  data_theme : option string;      (* attribute [data-theme] of the root element *)
  storage : gmap string string;    (* [localStorage] *)
  theme_icon : option string;      (* [className] of [#theme-icon], when there is one *)
  toast_container : bool;          (* whether [.toast-container] is in the document *)
  toasts : list string             (* the toasts shown, oldest first *)
}.

Definition Run : Type := State * option JsError.

(** [themeManager.apply()]. *)
Definition themeManager_apply (st : State) : State :=
  {| current := current st;
     data_theme := Some (current st);
     storage := <["dashboard-theme" := current st]> (storage st);
     theme_icon := theme_icon st;
     toast_container := toast_container st;
     toasts := toasts st |}.

Definition with_current (theme : string) (st : State) : State :=
  {| current := theme; data_theme := data_theme st; storage := storage st;
     theme_icon := theme_icon st; toast_container := toast_container st;
     toasts := toasts st |}.

(** [themeManager.toggle()]. *)
Definition themeManager_toggle (st : State) : State :=
  themeManager_apply
    (with_current (if String.eqb (current st) "dark" then "light" else "dark") st).

(** [themeManager.init()]. *)
Definition themeManager_init (st : State) : State :=
  themeManager_apply
    match storage st !! "dashboard-theme" with
    | Some saved => if String.eqb saved "" then st else with_current saved st
    | None => st
    end.

(** The class of the icon for a theme. *)
Definition icon_class (theme : string) : string :=
  if String.eqb theme "dark" then "bi bi-moon" else "bi bi-sun".

(** [initializeTheme()] of [Dashboard] 1.0.0. *)
Definition initializeTheme_v1 (st : State) : State :=
  let savedTheme := value_or (storage st !! "dashboard-theme") "dark" in
  {| current := current st;
     data_theme := Some savedTheme;
     storage := storage st;
     theme_icon := match theme_icon st with
                   | Some _ => Some (icon_class savedTheme)
                   | None => None
                   end;
     toast_container := toast_container st;
     toasts := toasts st |}.

(** [initializeTheme()] of [Dashboard] 1.1.0. *)
Definition initializeTheme (st : State) : State :=
  let savedTheme := value_or (storage st !! "dashboard-theme") "dark" in
  {| current := current st;
     data_theme := Some savedTheme;
     storage := storage st;
     theme_icon := theme_icon st;
     toast_container := toast_container st;
     toasts := toasts st |}.

(** [html.setAttribute('data-theme', newTheme);
     localStorage.setItem('dashboard-theme', newTheme)]. *)
Definition switch_to (newTheme : string) (st : State) : State :=
  {| current := current st;
     data_theme := Some newTheme;
     storage := <["dashboard-theme" := newTheme]> (storage st);
     theme_icon := theme_icon st;
     toast_container := toast_container st;
     toasts := toasts st |}.

(** [currentTheme === 'dark' ? 'light' : 'dark'], on what [getAttribute]
    returns. *)
Definition other_theme (currentTheme : option string) : string :=
  match currentTheme with
  | Some t => if String.eqb t "dark" then "light" else "dark"
  | None => "dark"
  end.

Definition shown (message : string) (st : State) : State :=
  {| current := current st; data_theme := data_theme st; storage := storage st;
     theme_icon := theme_icon st; toast_container := toast_container st;
     toasts := toasts st ++ [message] |}.

(** [showToast(message)] of [Dashboard] 1.0.0: the toast is appended to
    the container the page is expected to have. *)
Definition showToast_v1 (message : string) (st : State) : Run :=
  if toast_container st then (shown message st, None) else (st, Some TypeError).

(** [showToast(message)] of [Dashboard] 1.1.0, which creates the
    container when it is missing. *)
Definition showToast (message : string) (st : State) : State :=
  shown message
    {| current := current st; data_theme := data_theme st; storage := storage st;
       theme_icon := theme_icon st; toast_container := true;
       toasts := toasts st |}.

(** [toggleTheme()] of [Dashboard] 1.0.0. *)
Definition toggleTheme_v1 (st : State) : Run :=
  let newTheme := other_theme (data_theme st) in
  let st1 := switch_to newTheme st in
  match theme_icon st1 with
  | None => (st1, Some TypeError)
  | Some _ =>
      showToast_v1
        ("🎨 Thème " +:+ (if String.eqb newTheme "dark" then "sombre" else "clair")
         +:+ " activé")
        {| current := current st1; data_theme := data_theme st1;
           storage := storage st1; theme_icon := Some (icon_class newTheme);
           toast_container := toast_container st1; toasts := toasts st1 |}
  end.

(** [toggleTheme()] of [Dashboard] 1.1.0. *)
Definition toggleTheme (st : State) : State :=
  let newTheme := other_theme (data_theme st) in
  showToast ("Thème changé: " +:+ newTheme) (switch_to newTheme st).

(** The page after a reload: the scripts start over ([themeManager.current]
    is ['dark'] again, the markup is the served one), [localStorage] is
    what it was. *)
Definition reloaded (served : State) (before : State) : State :=
  {| current := "dark"; data_theme := data_theme served; storage := storage before;
     theme_icon := theme_icon served; toast_container := toast_container served;
     toasts := [] |}.

End Theme.

(** ** [debounce] and [throttle] ([performanceUtils] of
    [static/js/dashboard.js], [Dashboard.debounce], [Dashboard.utils.throttle]) *)

Module Timers.

Section Closures.

(** The arguments of one call of the wrapped function. *)
Variable Args : Type.

(** What happens to the function that [debounce] or [throttle] returned:
    it is called, or the host runs the callback of one of the timers it
    has set. *)
Inductive Event :=
| Call (args : Args)
| Expire (handle : nat).

(** The closure of [debounce(func, wait)]: its variable [timeout], the
    timers it has set that the host still holds (with the arguments their
    callback closed over), the handle [setTimeout] returns next, and the
    calls of [func] so far, oldest first. *)
Record Debounced := {
  timeout : option nat;
  pending : list (nat * Args);
  next_handle : nat;
  invoked : list Args
}.

(** [clearTimeout(handle)]; [None] is [undefined]. *)
Definition clearTimeout (handle : option nat) (timers : list (nat * Args))
  : list (nat * Args) :=
  match handle with
  | Some h => List.filter (fun t => negb (t.1 =? h)%nat) timers
  | None => timers
  end.

(** The arguments held by the callback of a timer, if the host still
    holds that timer. *)
Definition callback (handle : nat) (timers : list (nat * Args)) : option Args :=
  match List.find (fun t => (t.1 =? handle)%nat) timers with
  | Some t => Some t.2
  | None => None
  end.

(** [performanceUtils.debounce] and [debounce] of [Dashboard] 1.0.0:
    a call clears [timeout] and sets a timer for [later]; [later] clears
    [timeout] and calls [func]. *)
Definition debounce_v1_step (st : Debounced) (ev : Event) : Debounced :=
  match ev with
  | Call args =>
      {| timeout := Some (next_handle st);
         pending := clearTimeout (timeout st) (pending st) ++ [(next_handle st, args)];
         next_handle := S (next_handle st);
         invoked := invoked st |}
  | Expire handle =>
      match callback handle (pending st) with
      | Some args =>
          {| timeout := timeout st;
             pending := clearTimeout (timeout st)
                          (clearTimeout (Some handle) (pending st));
             next_handle := next_handle st;
             invoked := invoked st ++ [args] |}
      | None => st
      end
  end.

(** [debounce] of [Dashboard] 1.1.0, whose timer callback calls [func]
    and nothing else. *)
Definition debounce_step (st : Debounced) (ev : Event) : Debounced :=
  match ev with
  | Call args =>
      {| timeout := Some (next_handle st);
         pending := clearTimeout (timeout st) (pending st) ++ [(next_handle st, args)];
         next_handle := S (next_handle st);
         invoked := invoked st |}
  | Expire handle =>
      match callback handle (pending st) with
      | Some args =>
          {| timeout := timeout st;
             pending := clearTimeout (Some handle) (pending st);
             next_handle := next_handle st;
             invoked := invoked st ++ [args] |}
      | None => st
      end
  end.

(** The closure as [debounce] returns it; [first] is the handle the host
    will give to its first timer. *)
Definition debounced (first : nat) : Debounced :=
  {| timeout := None; pending := []; next_handle := first; invoked := [] |}.

Definition debounce_v1_run (events : list Event) (st : Debounced) : Debounced :=
  fold_left debounce_v1_step events st.

(** The host holds at most one timer of a debounced function, the one
    [timeout] names. *)
Definition tidy (st : Debounced) : Prop :=
  pending st = []
  \/ exists h args, timeout st = Some h /\ pending st = [(h, args)].

Definition debounce_run (events : list Event) (st : Debounced) : Debounced :=
  fold_left debounce_step events st.

(** The closure of [throttle(func, limit)]: its variable [inThrottle], the
    timers that will reset it, and the calls of [func] so far. *)
Record Throttled := {
  inThrottle : bool;
  resets : list nat;
  next_reset : nat;
  passed : list Args
}.

(** Whether [func] throws on these arguments. *)
Variable throws : Args -> bool.

(** [throttle]: a call goes through to [func] when [inThrottle] is falsy,
    then sets it and a timer that resets it; a [func] that throws leaves
    both undone. *)
Definition throttle_step (st : Throttled) (ev : Event) : Throttled :=
  match ev with
  | Call args =>
      if inThrottle st then st
      else if throws args then
        {| inThrottle := false; resets := resets st; next_reset := next_reset st;
           passed := passed st ++ [args] |}
      else
        {| inThrottle := true; resets := resets st ++ [next_reset st];
           next_reset := S (next_reset st);
           passed := passed st ++ [args] |}
  | Expire handle =>
      if existsb (Nat.eqb handle) (resets st) then
        {| inThrottle := false;
           resets := List.filter (fun h => negb (h =? handle)%nat) (resets st);
           next_reset := next_reset st;
           passed := passed st |}
      else st
  end.

Definition throttled (first : nat) : Throttled :=
  {| inThrottle := false; resets := []; next_reset := first; passed := [] |}.

Definition throttle_run (events : list Event) (st : Throttled) : Throttled :=
  fold_left throttle_step events st.

(** A throttled function is in its pause exactly while the host holds the
    timer that ends it, and it holds at most one. *)
Definition paused (st : Throttled) : Prop :=
  (inThrottle st = false /\ resets st = [])
  \/ (inThrottle st = true /\ exists h, resets st = [h]).

End Closures.

Arguments Call {Args} args.
Arguments Expire {Args} handle.
Arguments timeout {Args} d.
Arguments pending {Args} d.
Arguments next_handle {Args} d.
Arguments invoked {Args} d.
Arguments clearTimeout {Args} handle timers.
Arguments callback {Args} handle timers.
Arguments debounce_v1_step {Args} st ev.
Arguments debounce_step {Args} st ev.
Arguments debounced {Args} first.
Arguments debounce_v1_run {Args} events st.
Arguments debounce_run {Args} events st.
Arguments inThrottle {Args} t.
Arguments resets {Args} t.
Arguments next_reset {Args} t.
Arguments passed {Args} t.
Arguments throttle_step {Args} throws st ev.
Arguments throttled {Args} first.
Arguments throttle_run {Args} throws events st.
Arguments tidy {Args} st.
Arguments paused {Args} st.

End Timers.

(** ** [checkConnectionQuality] of [Dashboard] 1.0.0 *)

Module Connection.
Local Open Scope float_scope.






End Connection.

(** ** The statistics panel of [DashboardMaps] *)

Module MapStats.
Import JS Backend.
Local Open Scope float_scope.

(** [statistics.geographic_coverage]; a bound is [None] when the field is
    missing or [null]. *)
Record Coverage := {
  north : option float;
  south : option float;
  east : option float;
  west : option float
}.

(** The [statistics] payload of [/api/map/statistics]. *)
Record Statistics := {
  total_buildings : option float;
  valid_coordinates : option float;
  geographic_coverage : option Coverage
}.

(** An element of [zones_data.zones]. *)
Record Zone := {
  name : string;
  building_count : float;
  total_surface : float;
  density_level : string
}.

(** What [colors[level] || 'secondary'] evaluates to: one of the badge
    colours, or the member of [Object.prototype] that the level names. *)
Inductive Badge :=
| BadgeColour (colour : string)
| BadgeInherited (member : string).

(** A card of the list [#top-zones]. *)
Record Card := {
  rank : nat;               (* the number after [#] *)
  zone : Zone;
  surface : string;
  badge : Badge
}.

(** The part of the page the panel works on: the page of the map, the
    text of the elements that are in the document, by id, and the cards
    of [#top-zones] when that element is in the document. *)
Record State := {
  page : Maps.State;
  texts : gmap string string;
  top_zones : option (list Card)
}.

Definition with_page (p : Maps.State) (st : State) : State :=
  {| page := p; texts := texts st; top_zones := top_zones st |}.

(** Statements here change the page and may then throw. *)
Definition Run : Type := State * option JsError.

Definition and_then (r : Run) (k : State -> Run) : Run :=
  match r with
  | (st, None) => k st
  | (st, Some e) => (st, Some e)
  end.

(** [document.getElementById(id).textContent = text]. *)
Definition set_text (id : string) (text : Completion string) (st : State) : Run :=
  match texts st !! id with
  | None => (st, Some TypeError)
  | Some _ =>
      match text with
      | Normal t => ({| page := page st; texts := <[id := t]> (texts st);
                        top_zones := top_zones st |}, None)
      | Throw e => (st, Some e)
      end
  end.

(** [x || 0] on a Number that may be missing. *)
Definition or_zero (x : option float) : float :=
  if Maps.number_truthy x then default 0 x else 0.

(** [const colors = {...}]. *)
Definition colors : list (string * string) :=
  [("high", "danger"); ("medium", "warning"); ("low", "info");
   ("very_low", "secondary")]%string.

(** [getDensityColor(level)]. *)
Definition getDensityColor (level : string) : Badge :=
  match List.find (fun entry => String.eqb entry.1 level) colors with
  | Some entry => BadgeColour entry.2
  | None =>
      if Registry.is_object_prototype_method level || String.eqb level "__proto__"
      then BadgeInherited level
      else BadgeColour "secondary"
  end.

Section Host.

Variable Number_toString : float -> string.

(** [Dashboard.formatNumber(x)] of the core that is loaded, on a Number
    and with its default precision. *)
Variable Dashboard_formatNumber : float -> string.

(** [bound?.toFixed(3) || '-']. *)
Definition bound_text (bound : option float) : Completion string :=
  match bound with
  | Some x =>
      let* s := JS.toFixed Number_toString x 3 in
      Normal (if String.eqb s "" then "-"%string else s)
  | None => Normal "-"%string
  end.

(** [updateMapStatsDisplay(stats)]; [None] is an [undefined] argument. *)
Definition updateMapStatsDisplay (stats : option Statistics) (st : State) : Run :=
  match stats with
  | None => (st, Some TypeError)
  | Some s =>
      and_then (set_text "map-total-buildings"
                  (Normal (Dashboard_formatNumber (or_zero (total_buildings s)))) st)
        (fun st1 =>
      and_then (set_text "map-displayed"
                  (Normal (Dashboard_formatNumber (or_zero (valid_coordinates s)))) st1)
        (fun st2 =>
      match geographic_coverage s with
      | None => (st2, None)
      | Some bounds =>
          and_then (set_text "geo-north" (bound_text (north bounds)) st2) (fun st3 =>
          and_then (set_text "geo-south" (bound_text (south bounds)) st3) (fun st4 =>
          and_then (set_text "geo-east" (bound_text (east bounds)) st4) (fun st5 =>
          set_text "geo-west" (bound_text (west bounds)) st5)))
      end))
  end.

(** The card built for the zone at [index] of the slice. *)
Definition card (index : nat) (z : Zone) : Card :=
  {| rank := index + 1;
     zone := z;
     surface := Dashboard_formatNumber (total_surface z / 1000) +:+ "k m²";
     badge := getDensityColor (density_level z) |}.

(** [updateTopZones(zones)]; [None] is a missing or [null] list. *)
Definition updateTopZones (zones : option (list Zone)) (st : State) : Run :=
  match top_zones st with
  | None => (st, Some TypeError)
  | Some _ =>
      ({| page := page st; texts := texts st;
          top_zones := Some match zones with
                            | Some zs => imap card (take 5 zs)
                            | None => []
                            end |}, None)
  end.

(** [await Promise.all([fetch(...), fetch(...)])]: both responses, or the
    rejection that came first. *)
Definition all_settled {P Q} (first : FetchOutcome P) (second : FetchOutcome Q)
    (second_settles_first : bool) : Completion (Response P * Response Q) :=
  match first, second with
  | Responds r1, Responds r2 => Normal (r1, r2)
  | Rejects message, Responds _ => Throw (Error message)
  | Responds _, Rejects message => Throw (Error message)
  | Rejects message1, Rejects message2 =>
      Throw (Error (if second_settles_first then message2 else message1))
  end.

(** [await response.json()]: [None] is the document [null]. *)
Definition json {P} (r : Response P) : Completion (option (option Json * option P)) :=
  match body r with
  | BodyInvalid _ => Throw SyntaxError
  | BodyNull => Normal None
  | BodyEnvelope success payload => Normal (Some (success, payload))
  end.

(** The [try] block of [updateMapStatistics] once both requests are out.
    The payload of the second answer is [zones_data], with its list
    [zones]. *)
Definition statistics_try (stats : FetchOutcome Statistics)
    (zones : FetchOutcome (option (list Zone))) (zones_settle_first : bool)
    (st : State) : Run :=
  match all_settled stats zones zones_settle_first with
  | Throw e => (st, Some e)
  | Normal (statsResponse, zonesResponse) =>
      match json statsResponse with
      | Throw e => (st, Some e)
      | Normal statsResult =>
          match json zonesResponse with
          | Throw e => (st, Some e)
          | Normal zonesResult =>
              and_then
                match statsResult with
                | None => (st, Some TypeError)
                | Some (success, statistics) =>
                    if success_truthy success
                    then updateMapStatsDisplay statistics st
                    else (st, None)
                end
                (fun st1 =>
                   match zonesResult with
                   | None => (st1, Some TypeError)
                   | Some (success, zones_data) =>
                       if success_truthy success then
                         match zones_data with
                         | None => (st1, Some TypeError)
                         | Some zs => updateTopZones zs st1
                         end
                       else (st1, None)
                   end)
          end
      end
  end.

(** [updateMapStatistics()], given what the backend answers. *)
Definition updateMapStatistics (stats : FetchOutcome Statistics)
    (zones : FetchOutcome (option (list Zone))) (zones_settle_first : bool)
    (st : State) : State :=
  let st1 :=
    with_page (Maps.request "/api/map/zones"
                 (Maps.request "/api/map/statistics" (page st))) st in
  match statistics_try stats zones zones_settle_first st1 with
  | (st2, None) => st2
  | (st2, Some error) =>
      with_page (Maps.log (ConsoleError "Erreur statistiques carte:" error) (page st2))
        st2
  end.

(** [loadMapData()]. *)
Definition loadMapData (buildings : FetchOutcome Maps.MapData)
    (stats : FetchOutcome Statistics) (zones : FetchOutcome (option (list Zone)))
    (zones_settle_first : bool) (st : State) : State :=
  match Maps.map (page st) with
  | None => st
  | Some _ =>
      updateMapStatistics stats zones zones_settle_first
        (with_page (Maps.showBuildingsView buildings (page st)) st)
  end.

End Host.

(** An answer that never becomes a document: the request was rejected,
    or the body is not JSON. *)
Definition no_document {P} (answer : FetchOutcome P) : Prop :=
  match answer with
  | Rejects _ => True
  | Responds r => match body r with
                  | BodyInvalid _ => True
                  | _ => False
                  end
  end.

(** A page with the panel in it, and answers to run it on. *)
Definition panel_page : State :=
  {| page := Maps.initial_page;
     texts := <["map-total-buildings" := "-"]> (<["map-displayed" := "-"]>
              (<["geo-north" := "-"]> (<["geo-south" := "-"]>
              (<["geo-east" := "-"]> (<["geo-west" := "-"]> ∅)))));
     top_zones := Some [] |}.

Definition answers {P} (payload : P) : FetchOutcome P :=
  Responds {| ok := true; status := 200;
              body := BodyEnvelope (Some (JBool true)) (Some payload) |}.

Definition some_statistics : Statistics :=
  {| total_buildings := Some 1247; valid_coordinates := Some 1200;
     geographic_coverage := None |}.

Definition selangor : Zone :=
  {| name := "Selangor"; building_count := 412; total_surface := 96000;
     density_level := "high" |}.

End MapStats.

(** ** [DashboardData.exportSettings] *)

Module SettingsExport.
Import JS Backend Settings.

(** What the callback of [applySettings] does to an element that gets the
    value [v]. *)
Definition assigned (element : Control) (v : Json) : Control :=
  if String.eqb (type element) "checkbox"
  then {| type := type element; value := value element; checked := v |}
  else {| type := type element; value := v; checked := checked element |}.

Section Host.

(** What the document reports of a control, [element.value] and
    [element.checked], and of the attribute [data-theme] once it was set
    to a value. *)
Variable control_value : Control -> string.
Variable control_checked : Control -> bool.
Variable attribute_text : Json -> string.

(** [new Date().toISOString()]. *)
Variable now : string.

(** [document.getElementById(id)?.value || fallback]. *)
Definition value_setting (st : State) (id fallback : string) : Json :=
  JStr (value_or (control_value <$> controls st !! id) fallback).

(** [document.getElementById(id)?.checked || fallback]. *)
Definition checked_setting (st : State) (id : string) (fallback : bool) : Json :=
  JBool match controls st !! id with
        | Some element => control_checked element || fallback
        | None => fallback
        end.

(** The object [settings] that [exportSettings()] writes to the file. *)
Definition exportSettings (st : State) : Json :=
  JObj
    [("theme", match data_theme st with
               | Some t => JStr (attribute_text t)
               | None => JNull
               end);
     ("language", value_setting st "language-select" "fr");
     ("animations", checked_setting st "animations-toggle" true);
     ("sounds", checked_setting st "sounds-toggle" false);
     ("chartResolution", value_setting st "chart-resolution" "high");
     ("maxPoints", value_setting st "max-points-range" "10000");
     ("autoRefresh", checked_setting st "auto-refresh-toggle" false);
     ("ollamaUrl", value_setting st "ollama-url" "http://localhost:11434");
     ("defaultModel", value_setting st "default-model" "mistral:latest");
     ("ollamaTimeout", value_setting st "ollama-timeout" "120");
     ("cacheDuration", value_setting st "cache-duration" "60");
     ("exportFolder", value_setting st "export-folder" "exports");
     ("timestamp", JStr now)].

End Host.

(** A settings page with the animations switched off, and what it reports
    of its controls. *)
Definition quiet_page : State :=
  {| controls :=
       <["animations-toggle" := {| type := "checkbox"; value := JStr "on";
                                   checked := JBool false |}]>
         (<["language-select" := {| type := "select-one"; value := JStr "en";
                                    checked := JBool false |}]> ∅);
     data_theme := Some (JStr "light");
     theme_radio := Some "light" |}.

Definition reported_value (element : Control) : string :=
  match value element with
  | JStr s => s
  | _ => ""
  end.

Definition reported_checked (element : Control) : bool := json_truthy (checked element).

Definition reported_attribute (v : Json) : string :=
  match v with
  | JStr s => s
  | _ => ""
  end.

End SettingsExport.

(** ** [DashboardChat]: the transcript *)

Module Chat.
Import JS Backend.

Definition newline : string := String (ascii_of_nat 10) "".

Fixpoint spaces (n : nat) : string :=
  match n with
  | O => ""
  | S k => " " +:+ spaces k
  end.

(** A line break of a template literal, with the indentation of the next
    line. *)
Definition break (indent : nat) : string := newline +:+ spaces indent.

Definition quote : string := String (ascii_of_nat 34) "".

(** [<name class="classes">]. *)
Definition open_tag (name classes : string) : string :=
  "<" +:+ name +:+ " class=" +:+ quote +:+ classes +:+ quote +:+ ">".

(** An element of the transcript: its [className] and its [textContent]. *)
Record Element := {
  className : string;
  textContent : string
}.

(** The tokens of a class attribute, which ASCII whitespace separates. *)
Definition is_space (c : ascii) : bool :=
  bool_decide (nat_of_ascii c ∈ [9; 10; 12; 13; 32]).

Fixpoint tokens_from (token : string) (s : string) : list string :=
  match s with
  | EmptyString => if String.eqb token "" then [] else [token]
  | String c rest =>
      if is_space c
      then if String.eqb token "" then tokens_from "" rest
           else token :: tokens_from "" rest
      else tokens_from (token +:+ String c "") rest
  end.

(** [element.classList.contains(token)]. *)
Definition classList_contains (token : string) (element : Element) : bool :=
  existsb (String.eqb token) (tokens_from "" (className element)).

(** The part of the page the chat works on. *)
Record State := {
  input : option string;             (* [value] of [#chat-input] *)
  messages : option (list Element);  (* the children of [#chat-messages] *)
  isConnected : bool;                (* [Dashboard.state.isConnected] *)
  socket : bool;                     (* whether [Dashboard.state.socket] is set *)
  emitted : list string              (* the questions sent as [request_analysis] *)
}.

Definition Run : Type := State * option JsError.

Definition and_then (r : Run) (k : State -> Run) : Run :=
  match r with
  | (st, None) => k st
  | (st, Some e) => (st, Some e)
  end.

Definition with_messages (ms : option (list Element)) (st : State) : State :=
  {| input := input st; messages := ms; isConnected := isConnected st;
     socket := socket st; emitted := emitted st |}.

(** [data.analysis] of an [analysis_complete] event. *)
Inductive Analysis :=
| AnalysisMissing
| AnalysisText (text : string)
| AnalysisObject (full_response : option string).

(** [data.analysis?.full_response || data.analysis || 'Analyse terminée'],
    as the template prints it. *)
Definition response_of (analysis : Analysis) : string :=
  match analysis with
  | AnalysisMissing => "Analyse terminée"
  | AnalysisText text => if String.eqb text "" then "Analyse terminée" else text
  | AnalysisObject (Some text) => if String.eqb text "" then "[object Object]" else text
  | AnalysisObject None => "[object Object]"
  end.

(** [/^(Vous:|Assistant IA Malaysia:)/] replaced by the empty string. *)
Definition strip_speaker (text : string) : string :=
  if String.prefix "Vous:" text
  then substring 5 (String.length text - 5) text
  else if String.prefix "Assistant IA Malaysia:" text
       then substring 22 (String.length text - 22) text
       else text.

Section Host.

(** [String.prototype.trim], and the text of the nodes that the parser
    builds from a piece of markup. *)
Variable trim : string -> string.
Variable parsed_text : string -> string.

(** The markup of a message after the first line break of the template. *)
Definition message_markup (type content : string) : string :=
  let icon := if String.eqb type "user" then "bi-person-circle" else "bi-robot" in
  let prefix := if String.eqb type "user" then "Vous" else "Assistant IA Malaysia" in
  open_tag "div" "d-flex align-items-start" +:+ break 16
  +:+ open_tag "i" ("bi " +:+ icon +:+ " text-"
                    +:+ (if String.eqb type "user" then "primary" else "success")
                    +:+ " me-2 mt-1") +:+ "</i>" +:+ break 16
  +:+ open_tag "div" "flex-grow-1" +:+ break 20
  +:+ "<strong>" +:+ prefix +:+ ":</strong>" +:+ break 20
  +:+ open_tag "div" "mt-1" +:+ content +:+ "</div>" +:+ break 16
  +:+ "</div>" +:+ break 12
  +:+ "</div>" +:+ break 8.

(** The element [addMessage(type, content, isThinking)] creates: the
    template starts with a line break, which the parser keeps as text. *)
Definition message_element (type content : string) (isThinking : bool) : Element :=
  {| className := "chat-message message-" +:+ type
                  +:+ (if isThinking then " message-thinking" else "");
     textContent := break 12 +:+ parsed_text (message_markup type content) |}.

(** [addMessage(type, content, isThinking = false)]. *)
Definition addMessage (type content : string) (isThinking : bool) (st : State) : Run :=
  match messages st with
  | None => (st, Some TypeError)
  | Some ms =>
      (with_messages (Some (ms ++ [message_element type content isThinking])) st, None)
  end.

(** [removeThinkingMessages()]. *)
Definition removeThinkingMessages (st : State) : State :=
  with_messages
    (List.filter (fun m => negb (classList_contains "message-thinking" m))
       <$> messages st) st.

(** The message [clearChat()] leaves in the transcript. *)
Definition cleared_element : Element :=
  {| className := "chat-message message-assistant fade-in";
     textContent :=
       break 16
       +:+ parsed_text
             (open_tag "div" "d-flex align-items-start" +:+ break 20
              +:+ open_tag "i" "bi bi-robot text-success me-2 mt-1" +:+ "</i>"
              +:+ break 20 +:+ "<div>" +:+ break 24
              +:+ "<strong>Assistant IA Malaysia:</strong>" +:+ break 24
              +:+ open_tag "p" "mb-0 mt-1"
              +:+ "Chat réinitialisé. Comment puis-je vous aider avec l'analyse des données Malaysia ?"
              +:+ "</p>" +:+ break 20 +:+ "</div>" +:+ break 16 +:+ "</div>"
              +:+ break 12) |}.

(** [clearChat()]. *)
Definition clearChat (st : State) : Run :=
  match messages st with
  | None => (st, Some TypeError)
  | Some _ => (with_messages (Some [cleared_element]) st, None)
  end.

(** [sendMessage()]. *)
Definition sendMessage (st : State) : Run :=
  match input st with
  | None => (st, Some TypeError)
  | Some text =>
      let question := trim text in
      if String.eqb question "" then (st, None)
      else
        and_then (addMessage "user" question false st) (fun st1 =>
          let st2 := {| input := Some ""; messages := messages st1;
                        isConnected := isConnected st1; socket := socket st1;
                        emitted := emitted st1 |} in
          if isConnected st2 && socket st2 then
            ({| input := input st2; messages := messages st2;
                isConnected := isConnected st2; socket := socket st2;
                emitted := emitted st2 ++ [question] |}, None)
          else
            addMessage "assistant"
              "Connexion WebSocket non disponible. Vérifiez la connexion au serveur."
              false st2)
  end.

(** [handleKeyPress(event)], for the [key] and [shiftKey] of the event. *)
Definition handleKeyPress (key : string) (shiftKey : bool) (st : State) : Run :=
  if String.eqb key "Enter" && negb shiftKey then sendMessage st else (st, None).

(** [askSuggestedQuestion(question)]. *)
Definition askSuggestedQuestion (question : string) (st : State) : Run :=
  match input st with
  | None => (st, Some TypeError)
  | Some _ =>
      sendMessage {| input := Some question; messages := messages st;
                     isConnected := isConnected st; socket := socket st;
                     emitted := emitted st |}
  end.

(** The handlers [Dashboard] 1.0.0 installs on its socket for the events
    of an analysis; [chat] tells whether [DashboardChat] has registered
    itself, [Dashboard.modules.chat] being [null] until then. *)
Definition on_analysis_started (chat : bool) (st : State) : Run :=
  if chat then addMessage "thinking" "Analyse en cours avec l'IA..." true st
  else (st, None).

Definition on_analysis_complete (chat : bool) (analysis : Analysis) (st : State) : Run :=
  if chat then addMessage "assistant" (response_of analysis) false
                 (removeThinkingMessages st)
  else (st, None).

(** [error] is [data.error], [None] when the event has none. *)
Definition on_analysis_error (chat : bool) (error : option string) (st : State) : Run :=
  if chat then
    addMessage "assistant"
      ("❌ Erreur d'analyse: " +:+ default "undefined" error) false
      (removeThinkingMessages st)
  else (st, None).

(** [new Date().toLocaleString('fr-FR')]. *)
Variable locale_now : string.

(** The section [exportChat()] writes for one element. *)
Definition exported_section (message : Element) : string :=
  if classList_contains "message-thinking" message then ""
  else
    "## " +:+ (if classList_contains "message-user" message
               then "Utilisateur" else "Assistant IA")
    +:+ newline +:+ newline
    +:+ trim (strip_speaker (textContent message)) +:+ newline +:+ newline.

(** The text [exportChat()] offers for download, for the elements of the
    document that have the class [chat-message]. *)
Definition exportChat (elements : list Element) : string :=
  fold_left (fun chatContent message => chatContent +:+ exported_section message)
    (List.filter (classList_contains "chat-message") elements)
    ("# Conversation Dashboard Malaysia" +:+ newline +:+ newline
     +:+ "Date: " +:+ locale_now +:+ newline +:+ newline).

(** What the module puts into the transcript. *)
Definition written_by_the_module (message : Element) : Prop :=
  message = cleared_element
  \/ exists type content isThinking, message = message_element type content isThinking.

End Host.

(** A chat page with an empty transcript, connected, and a question
    typed into its input. *)
Definition chat_page : State :=
  {| input := Some "Quelle est la consommation ?";
     messages := Some [];
     isConnected := true;
     socket := true;
     emitted := [] |}.

End Chat.

(** ** [DashboardChat]: the stored configuration *)

Module ChatConfig.
Import JS Backend.

(** The part of the page the configuration works on: what [element.value]
    reads for the controls that are in the document, by id; the text of
    [#temp-value] when it is there; [localStorage]; the warnings logged,
    each with the error it reports. *)
Record State := {
  values : gmap string string;
  temp_value : option string;
  storage : gmap string string;
  warnings : list (string * JsError)
}.

Section Host.

Variable JSON_stringify : Json -> string.
Variable JSON_parse : string -> Completion Json.

(** [new Date().toISOString()]. *)
Variable now : string.

(** What the control [id] reports once [element.value = v] has run, and
    the text an element shows once [element.textContent = v] has run. *)
Variable value_after : string -> Json -> string.
Variable text_after : Json -> string.

(** The object [config] of [saveConfiguration()]. *)
Definition config_of (st : State) : Json :=
  JObj [("model", JStr (value_or (values st !! "model-select") "mistral:latest"));
        ("temperature", JStr (value_or (values st !! "temperature-range") "0.1"));
        ("ollamaUrl", JStr (value_or (values st !! "ollama-url") "http://localhost:11434"));
        ("timestamp", JStr now)].

(** The controls the configuration covers, each with the value saved
    when it is missing or empty. *)
Definition fallbacks : list (string * string) :=
  [("model-select", "mistral:latest"); ("temperature-range", "0.1");
   ("ollama-url", "http://localhost:11434")].

(** [saveConfiguration()], up to its toast. *)
Definition saveConfiguration (st : State) : State :=
  {| values := values st; temp_value := temp_value st;
     storage := <["dashboard-chat-config" := JSON_stringify (config_of st)]> (storage st);
     warnings := warnings st |}.

(** [if (element) element.value = v]. *)
Definition set_value (id : string) (v : Json) (st : State) : State :=
  match values st !! id with
  | Some _ => {| values := <[id := value_after id v]> (values st);
                 temp_value := temp_value st; storage := storage st;
                 warnings := warnings st |}
  | None => st
  end.

(** [if (tempValue) tempValue.textContent = v]. *)
Definition set_temp_value (v : Json) (st : State) : State :=
  match temp_value st with
  | Some _ => {| values := values st; temp_value := Some (text_after v);
                 storage := storage st; warnings := warnings st |}
  | None => st
  end.

(** [if (config.key) {...}]. *)
Definition when_truthy (config : Json) (key : string) (k : Json -> State -> State)
    (st : State) : Completion State :=
  let* v := Settings.get config key in
  match v with
  | Some j => Normal (if json_truthy j then k j st else st)
  | None => Normal st
  end.

(** The [try] block of [loadConfiguration()]. *)
Definition load_try (st : State) : Completion State :=
  let* config := JSON_parse (value_or (storage st !! "dashboard-chat-config") "{}") in
  let* st1 := when_truthy config "model" (set_value "model-select") st in
  let* st2 := when_truthy config "temperature"
                (fun v s => set_temp_value v (set_value "temperature-range" v s)) st1 in
  when_truthy config "ollamaUrl" (set_value "ollama-url") st2.

(** [loadConfiguration()]. *)
Definition loadConfiguration (st : State) : State :=
  match load_try st with
  | Normal st' => st'
  | Throw error =>
      {| values := values st; temp_value := temp_value st; storage := storage st;
         warnings := warnings st
                     ++ [("Erreur chargement configuration chat:", error)] |}
  end.

End Host.

(** What [loadConfiguration] never touches: the store, the controls
    outside the configuration, and which controls there are. *)
Definition framed (st st' : State) : Prop :=
  storage st' = storage st
  /\ warnings st' = warnings st
  /\ (forall id, id ∉ fallbacks.*1 -> values st' !! id = values st !! id)
  /\ (forall id, is_Some (values st' !! id) <-> is_Some (values st !! id)).

(** A page with the three controls and the temperature display. *)
Definition config_page : State :=
  {| values := <["model-select" := "llama2"]> (<["temperature-range" := "0.7"]>
               (<["ollama-url" := "http://localhost:11434"]> ∅));
     temp_value := Some "0.1";
     storage := ∅;
     warnings := [] |}.

(** A host for that page: the text [JSON.stringify] gives for the object
    saved from it parses back to the object, anything else is not JSON;
    controls and elements take strings as they are. *)
Definition page_stringify (j : Json) : string := "config".

Definition page_parse (config : Json) (text : string) : Completion Json :=
  if String.eqb text "config" then Normal config
  else if String.eqb text "{}" then Normal (JObj [])
  else Throw SyntaxError.

Definition page_value_after (id : string) (v : Json) : string :=
  match v with
  | JStr s => s
  | _ => ""
  end.

Definition page_text_after (v : Json) : string :=
  match v with
  | JStr s => s
  | _ => ""
  end.

End ChatConfig.

(** ** [DashboardUI.validateForm] *)

Module Forms.

(** A required field of the form: its [value] and its class list. *)
Record Field := {
  value : string;
  classList : list string
}.

(** [classList.add(token)] and [classList.remove(token)]. *)
Definition classList_add (token : string) (tokens : list string) : list string :=
  if existsb (String.eqb token) tokens then tokens else tokens ++ [token].

Definition classList_remove (token : string) (tokens : list string) : list string :=
  List.filter (fun t => negb (String.eqb t token)) tokens.

Section Host.

(** [String.prototype.trim]. *)
Variable trim : string -> string.

(** [!field.value.trim()]. *)
Definition blank (field : Field) : bool := String.eqb (trim (value field)) "".

(** [validateForm(formElement)], for the required fields of the form in
    document order: the value of [isValid] and the fields afterwards. *)
Definition validateForm (requiredFields : list Field) : bool * list Field :=
  fold_left
    (fun state field =>
       if blank field
       then (false, state.2 ++ [{| value := value field;
                                   classList := classList_add "is-invalid"
                                                  (classList field) |}])
       else (state.1, state.2 ++ [{| value := value field;
                                     classList := classList_remove "is-invalid"
                                                    (classList field) |}]))
    requiredFields (true, []).

(** A field once the callback has run on it. *)
Definition marked (field : Field) : Field :=
  {| value := value field;
     classList := if blank field
                  then classList_add "is-invalid" (classList field)
                  else classList_remove "is-invalid" (classList field) |}.

End Host.

End Forms.

(** ** What drawing a chart leaves alone *)

Module ChartsPage.
Import Charts.

(** Drawing changes what is drawn and nothing else. *)
Definition same_page (st st' : State) : Prop :=
  elements st' = elements st
  /\ time_range_select st' = time_range_select st
  /\ building_type_select st' = building_type_select st
  /\ console st' = console st
  /\ requests st' = requests st.

End ChartsPage.

(** ** Loading the real data in [Dashboard] 1.1.0 *)

Module RealData.
Import JS Backend.
Local Open Scope float_scope.

(** A toast: its message and type; for ['Erreur: ' + error.message] the
    error is kept as it is. *)
Inductive Toast :=
| Shown (message type : string)
| ShownError (error : JsError).

(** A line of the console: [console.log], [console.warn], and
    [console.error] with the error it reports, if it reports one. *)
Inductive Line :=
| Log (text : string)
| Warn (text : string)
| Failure (text : string) (error : option JsError).

(** What [Plotly.newPlot] has drawn in an element: a chart of the
    backend, with its [data] and [layout] ([None] for [undefined]), or
    one of the two sample charts. *)
Inductive Plot :=
| RealTimeline (data layout : option Json)
| RealPie (data layout : option Json)
| SampleTimeline
| SamplePie.

(** [charts.timeline] and [charts.pie]. *)
Record Chart := {
  chart_data : option Json;
  chart_layout : option Json
}.

(** The [charts] payload of [/api/charts/overview]. *)
Record ChartsPayload := {
  timeline : option Chart;
  pie : option Chart
}.

(** The [summary] payload of [/api/data/summary]; a field is [None] when
    it is missing or [null]. *)
Record Summary := {
  total_buildings : option float;
  buildings_count : option float;
  total_consumption : option float;
  electricity_total : option float;
  total_water : option float;
  water_total : option float;
  avg_temperature : option float;
  temperature_avg : option float
}.

(** The document of [/api/data/load]. *)
Record LoadResult := {
  success : option Json;
  error : option string;
  data_info : option Json
}.

Inductive LoadBody :=
| LoadInvalid
| LoadNull
| LoadDocument (result : LoadResult).

Record LoadResponse := {
  ok : bool;
  status : nat;
  statusText : string;
  body : LoadBody
}.

Inductive LoadOutcome :=
| LoadRejects (message : string)
| LoadResponds (r : LoadResponse).

(** The part of the page the loading works on. *)
Record State := {
  texts : gmap string string;          (* text of the elements in the document, by id *)
  plotly : bool;                       (* whether [Plotly] is defined *)
  plots : gmap string (option Plot);   (* the chart elements in the document, with what is drawn *)
  status_indicator : option string;    (* [className] of [.status-indicator] *)
  status_text : option string;         (* text of [#status-text] *)
  toasts : list Toast;
  console : list Line;
  requests : list string;
  dataLoaded : bool;                   (* [state.dataLoaded] *)
  realData : option Json               (* [state.realData] *)
}.

Definition Run : Type := State * option JsError.

Definition and_then (r : Run) (k : State -> Run) : Run :=
  match r with
  | (st, None) => k st
  | (st, Some e) => (st, Some e)
  end.

Definition log (l : Line) (st : State) : State :=
  {| texts := texts st; plotly := plotly st; plots := plots st;
     status_indicator := status_indicator st; status_text := status_text st;
     toasts := toasts st; console := console st ++ [l]; requests := requests st;
     dataLoaded := dataLoaded st; realData := realData st |}.

Definition request (url : string) (st : State) : State :=
  {| texts := texts st; plotly := plotly st; plots := plots st;
     status_indicator := status_indicator st; status_text := status_text st;
     toasts := toasts st; console := console st; requests := requests st ++ [url];
     dataLoaded := dataLoaded st; realData := realData st |}.

(** [showToast(message, type)] of 1.1.0. *)
Definition showToast (t : Toast) (st : State) : State :=
  {| texts := texts st; plotly := plotly st; plots := plots st;
     status_indicator := status_indicator st; status_text := status_text st;
     toasts := toasts st ++ [t]; console := console st; requests := requests st;
     dataLoaded := dataLoaded st; realData := realData st |}.

(** [updateConnectionStatus(status, text)]. *)
Definition updateConnectionStatus (status text : string) (st : State) : State :=
  match status_indicator st, status_text st with
  | Some _, Some _ =>
      {| texts := texts st; plotly := plotly st; plots := plots st;
         status_indicator := Some ("status-indicator status-" +:+ status);
         status_text := Some text;
         toasts := toasts st; console := console st; requests := requests st;
         dataLoaded := dataLoaded st; realData := realData st |}
  | _, _ => st
  end.

(** [document.getElementById(id).textContent = text]. *)
Definition set_text (id : string) (text : Completion string) (st : State) : Run :=
  match texts st !! id with
  | None => (st, Some TypeError)
  | Some _ =>
      match text with
      | Normal t =>
          ({| texts := <[id := t]> (texts st); plotly := plotly st; plots := plots st;
              status_indicator := status_indicator st; status_text := status_text st;
              toasts := toasts st; console := console st; requests := requests st;
              dataLoaded := dataLoaded st; realData := realData st |}, None)
      | Throw e => (st, Some e)
      end
  end.

(** [if (div) Plotly.newPlot(div, ...)]. *)
Definition draw (id : string) (p : Plot) (st : State) : State :=
  match plots st !! id with
  | Some _ =>
      {| texts := texts st; plotly := plotly st;
         plots := <[id := Some p]> (plots st);
         status_indicator := status_indicator st; status_text := status_text st;
         toasts := toasts st; console := console st; requests := requests st;
         dataLoaded := dataLoaded st; realData := realData st |}
  | None => st
  end.

(** [a || b || 0] on Numbers that may be missing. *)
Definition first_truthy (a b : option float) : float :=
  if Maps.number_truthy a then default 0 a
  else if Maps.number_truthy b then default 0 b
  else 0.

(** [createFallbackCharts()]. *)
Definition createFallbackCharts (st : State) : State :=
  if plotly st then
    log (Log "📊 Graphiques de secours créés")
      (draw "building-types-pie" SamplePie (draw "consumption-timeline" SampleTimeline st))
  else log (Warn "⚠️ Plotly non disponible pour les graphiques de secours") st.

(** [renderRealCharts(charts)]. *)
Definition renderRealCharts (charts : ChartsPayload) (st : State) : State :=
  if plotly st then
    let st1 :=
      match plots st !! "consumption-timeline", timeline charts with
      | Some _, Some c =>
          log (Log "✅ Graphique timeline rendu")
            (draw "consumption-timeline"
               (RealTimeline (chart_data c) (chart_layout c)) st)
      | _, _ => st
      end in
    match plots st1 !! "building-types-pie", pie charts with
    | Some _, Some c =>
        log (Log "✅ Graphique pie rendu")
          (draw "building-types-pie" (RealPie (chart_data c) (chart_layout c)) st1)
    | _, _ => st1
    end
  else log (Failure "❌ Plotly non disponible" None) st.

(** [loadRealCharts()], given what the backend answers. *)
Definition loadRealCharts (answer : FetchOutcome ChartsPayload) (st : State) : State :=
  let st1 := request "/api/charts/overview"
               (log (Log "📊 Chargement des graphiques Malaysia...") st) in
  match answer with
  | Rejects message =>
      createFallbackCharts
        (log (Failure "❌ Erreur chargement graphiques:" (Some (Error message))) st1)
  | Responds r =>
      if Backend.ok r then
        match Backend.body r with
        | BodyInvalid _ =>
            createFallbackCharts
              (log (Failure "❌ Erreur chargement graphiques:" (Some SyntaxError)) st1)
        | BodyNull =>
            createFallbackCharts
              (log (Failure "❌ Erreur chargement graphiques:" (Some TypeError))
                 (log (Log "📈 Données graphiques reçues:") st1))
        | BodyEnvelope success charts =>
            let st2 := log (Log "📈 Données graphiques reçues:") st1 in
            match charts with
            | Some c =>
                if success_truthy success then renderRealCharts c st2
                else createFallbackCharts
                       (log (Warn "⚠️ Pas de données graphiques disponibles") st2)
            | None =>
                createFallbackCharts
                  (log (Warn "⚠️ Pas de données graphiques disponibles") st2)
            end
        end
      else createFallbackCharts (log (Warn "⚠️ API graphiques non disponible") st1)
  end.

Section Host.

Variable Number_toString : float -> string.

(** [this.formatNumber(x, decimals)] on a Number, which is a string. *)
Definition number_text (x : float) (decimals : Z) : Completion string :=
  let* v := Format.formatNumber Number_toString (VNum x) decimals in
  match v with
  | VStr s => Normal s
  | _ => Normal ""%string
  end.

(** [updateStatistics(summary)]. *)
Definition updateStatistics (summary : Summary) (st : State) : Run :=
  let buildings := first_truthy (total_buildings summary) (buildings_count summary) in
  let consumption := first_truthy (total_consumption summary) (electricity_total summary) in
  let water := first_truthy (total_water summary) (water_total summary) in
  let temperature := first_truthy (avg_temperature summary) (temperature_avg summary) in
  and_then (set_text "total-buildings" (number_text buildings 0) st) (fun st1 =>
  and_then (set_text "total-consumption"
              (Format.with_suffix (number_text consumption 1) " kWh") st1) (fun st2 =>
  and_then (set_text "total-water"
              (Format.with_suffix (number_text water 1) " L") st2) (fun st3 =>
  and_then (set_text "avg-temperature"
              (Format.with_suffix (JS.toFixed Number_toString temperature 1) "°C") st3)
    (fun st4 => (log (Log "📈 Statistiques mises à jour:") st4, None))))).

(** [loadDataSummary()], given what the backend answers. *)
Definition loadDataSummary (answer : FetchOutcome Summary) (st : State) : State :=
  let st1 := request "/api/data/summary" st in
  let caught (run : Run) : State :=
    match run with
    | (st2, None) => st2
    | (st2, Some e) => log (Failure "❌ Erreur résumé données:" (Some e)) st2
    end in
  match answer with
  | Rejects message => caught (st1, Some (Error message))
  | Responds r =>
      if Backend.ok r then
        match Backend.body r with
        | BodyInvalid _ => caught (st1, Some SyntaxError)
        | BodyNull =>
            caught (log (Log "📊 Résumé des données Malaysia:") st1, Some TypeError)
        | BodyEnvelope success summary =>
            let st2 := log (Log "📊 Résumé des données Malaysia:") st1 in
            match summary with
            | Some s => if success_truthy success then caught (updateStatistics s st2)
                        else st2
            | None => st2
            end
        end
      else log (Warn "⚠️ Impossible de récupérer le résumé des données") st1
  end.

(** [loadFallbackData()]. *)
Definition loadFallbackData (st : State) : Run :=
  let st0 := log (Log "🔄 Chargement des données de secours...") st in
  and_then (set_text "total-buildings" (Normal "1,247"%string) st0) (fun st1 =>
  and_then (set_text "total-consumption" (Normal "2.4M kWh"%string) st1) (fun st2 =>
  and_then (set_text "total-water" (Normal "356K L"%string) st2) (fun st3 =>
  and_then (set_text "avg-temperature" (Normal "28.5°C"%string) st3) (fun st4 =>
  (updateConnectionStatus "connected" "Mode démo" (createFallbackCharts st4), None))))).

(** The first part of the [try] block of [loadRealData()]: the load
    request and its checks.  It yields [data_info]. *)
Definition load_try (load : LoadOutcome) (st : State)
  : State * Completion (option Json) :=
  let st1 :=
    request "/api/data/load"
      (showToast (Shown "Chargement des données Malaysia..." "info")
         (log (Log "🔄 Chargement des vraies données Malaysia depuis CSV...") st)) in
  match load with
  | LoadRejects message => (st1, Throw (Error message))
  | LoadResponds r =>
      if negb (ok r)
      then (st1, Throw (Error ("Erreur " +:+ digits_of_nat (status r) +:+ ": "
                               +:+ statusText r)))
      else
        match body r with
        | LoadInvalid => (st1, Throw SyntaxError)
        | LoadNull =>
            (log (Log "✅ Réponse chargement données:") st1, Throw TypeError)
        | LoadDocument result =>
            let st2 := log (Log "✅ Réponse chargement données:") st1 in
            if success_truthy (success result) then (st2, Normal (data_info result))
            else (st2, Throw (Error (value_or (error result)
                                       "Erreur chargement données")))
        end
  end.

(** [loadRealData()], given what the backend answers to the three
    requests. *)
Definition loadRealData (load : LoadOutcome) (summary : FetchOutcome Summary)
    (charts : FetchOutcome ChartsPayload) (st : State) : Run :=
  match load_try load st with
  | (st1, Normal info) =>
      let st2 := loadRealCharts charts (loadDataSummary summary st1) in
      let st3 :=
        {| texts := texts st2; plotly := plotly st2; plots := plots st2;
           status_indicator := status_indicator st2; status_text := status_text st2;
           toasts := toasts st2; console := console st2; requests := requests st2;
           dataLoaded := true; realData := info |} in
      (showToast (Shown "✅ Données Malaysia chargées avec succès" "success")
         (updateConnectionStatus "connected" "Données Malaysia chargées" st3), None)
  | (st1, Throw e) =>
      loadFallbackData
        (showToast (ShownError e)
           (log (Failure "❌ Erreur chargement données Malaysia:" (Some e)) st1))
  end.

End Host.

(** Whether the load request is answered with a usable document. *)
Definition load_succeeds (load : LoadOutcome) : bool :=
  match load with
  | LoadRejects _ => false
  | LoadResponds r =>
      ok r && match body r with
              | LoadDocument result => success_truthy (success result)
              | _ => false
              end
  end.

(** What the summary and the charts leave alone. *)
Definition steady (st st' : State) : Prop :=
  dataLoaded st' = dataLoaded st
  /\ realData st' = realData st
  /\ status_indicator st' = status_indicator st
  /\ status_text st' = status_text st
  /\ toasts st' = toasts st
  /\ requests st' = requests st.

(** The four statistics of the overview. *)
Definition statistics : list string :=
  ["total-buildings"; "total-consumption"; "total-water"; "avg-temperature"].

(** The overview as [loadOverviewContent] writes it, with the status bar
    of the page. *)
Definition overview_page : State :=
  {| texts := <["total-buildings" := ""]> (<["total-consumption" := ""]>
              (<["total-water" := ""]> (<["avg-temperature" := ""]> ∅)));
     plotly := true;
     plots := <["consumption-timeline" := None]> (<["building-types-pie" := None]> ∅);
     status_indicator := Some "status-indicator";
     status_text := Some "Initialisation";
     toasts := []; console := []; requests := [];
     dataLoaded := false; realData := None |}.

Definition unavailable : LoadOutcome :=
  LoadResponds {| ok := false; status := 503; statusText := "Service Unavailable";
                  body := LoadInvalid |}.

Definition loaded : LoadOutcome :=
  LoadResponds {| ok := true; status := 200; statusText := "OK";
                  body := LoadDocument {| success := Some (JBool true); error := None;
                                          data_info := Some (JObj []) |} |}.

End RealData.

(** ** [setupAutoRefresh] of [Dashboard] 1.0.0 *)

Module AutoRefresh.

(** What happens once the listener is installed: the switch fires
    [change] with its [checked] state, or the host runs the callback of
    an interval, at the time it prints as [time]. *)
Inductive Event :=
| Change (checked : bool)
| Tick (handle : nat) (time : string).

(** [this.autoRefreshInterval], the intervals the host holds, the handle
    [setInterval] returns next, [state.dataLoaded], the text of
    [#quick-update] when it is in the document, and the toasts shown when
    the page has its toast container. *)
Record State := {
  autoRefreshInterval : option nat;
  live : list nat;
  next_handle : nat;
  dataLoaded : bool;
  quick_update : option string;
  toast_container : bool;
  toasts : list string
}.

(** [this.showToast(message, 'info')] at the end of a branch of the
    listener: without the container it throws, which ends the listener
    and changes nothing. *)
Definition showToast (message : string) (st : State) : State :=
  if toast_container st then
    {| autoRefreshInterval := autoRefreshInterval st; live := live st;
       next_handle := next_handle st; dataLoaded := dataLoaded st;
       quick_update := quick_update st; toast_container := true;
       toasts := toasts st ++ [message] |}
  else st.

(** The listener of [change], and the callback of the interval.  The
    listener clears the interval when [this.autoRefreshInterval] is
    truthy: a handle that is not [0] (those of a browser are positive). *)
Definition step (st : State) (ev : Event) : State :=
  match ev with
  | Change true =>
      showToast "🔄 Actualisation automatique activée"
        {| autoRefreshInterval := Some (next_handle st);
           live := live st ++ [next_handle st];
           next_handle := S (next_handle st); dataLoaded := dataLoaded st;
           quick_update := quick_update st; toast_container := toast_container st;
           toasts := toasts st |}
  | Change false =>
      showToast "⏹️ Actualisation automatique désactivée"
        match autoRefreshInterval st with
        | Some (S _ as handle) =>
            {| autoRefreshInterval := None;
               live := List.filter (fun h => negb (h =? handle)%nat) (live st);
               next_handle := next_handle st; dataLoaded := dataLoaded st;
               quick_update := quick_update st; toast_container := toast_container st;
               toasts := toasts st |}
        | Some O | None => st
        end
  | Tick handle time =>
      if existsb (Nat.eqb handle) (live st) && dataLoaded st then
        match quick_update st with
        | Some _ =>
            {| autoRefreshInterval := autoRefreshInterval st; live := live st;
               next_handle := next_handle st; dataLoaded := dataLoaded st;
               quick_update := Some time; toast_container := toast_container st;
               toasts := toasts st |}
        | None => st
        end
      else st
  end.

Definition run (events : list Event) (st : State) : State := fold_left step events st.

(** The handles the host has given out are below the next one. *)
Definition fresh (st : State) : Prop :=
  Forall (fun h => h < next_handle st) (live st).

(** The page before the switch is touched. *)
Definition idle (first : nat) (loaded : bool) (clock : option string)
    (container : bool) : State :=
  {| autoRefreshInterval := None; live := []; next_handle := first;
     dataLoaded := loaded; quick_update := clock; toast_container := container;
     toasts := [] |}.

End AutoRefresh.

(** * Verification *)

(** ** The order on Numbers *)

Module NumberOrder.
Local Open Scope float_scope.

Ltac sf_order :=
  unfold SFltb, SFleb, SFcompare;
  change (Pos.compare_cont Eq) with Pos.compare;
  repeat match goal with
    | |- context [Z.compare ?a ?b] => destruct (Z.compare_spec a b)
    | |- context [Pos.compare ?a ?b] => destruct (Pos.compare_spec a b)
    end;
  simpl; intros; try discriminate; try reflexivity; try lia.

(** [x < c1 <= c2] excludes [c2 <= x], on the specification of binary64. *)
Lemma SF_lt_le_trans x c1 c2 :
  SFltb x c1 = true -> SFleb c1 c2 = true -> SFleb c2 x = false.
Proof.
  destruct x as [[]|[]| |[] mx ex], c1 as [[]|[]| |[] m1 e1],
           c2 as [[]|[]| |[] m2 e2];
    try (simpl; intros; (discriminate || reflexivity)); sf_order.
Qed.

Lemma ltb_leb_trans x c1 c2 :
  (x <? c1) = true -> (c1 <=? c2) = true -> (c2 <=? x) = false.
Proof. rewrite ltb_spec, !leb_spec. apply SF_lt_le_trans. Qed.

(** A truthy Number is not a zero. *)
Lemma eqb_zero_false_of_truthy x : JS.truthy (JS.VNum x) = true -> (x =? 0) = false.
Proof.
  simpl. intros H. apply negb_true_iff in H.
  apply orb_false_iff in H. exact (proj1 H).
Qed.

End NumberOrder.

(** ** The formatting helpers *)

Module FormatFacts.
Import JS Format NumberOrder.
Local Open Scope float_scope.

Section Host.

Variable Math_log : float -> float.
Variable Math_pow : float -> float -> float.
Variable Number_toString : float -> string.
Variable StringToNumber : string -> float.

Abbreviation toFixed := (JS.toFixed Number_toString).
Abbreviation formatUtils_number := (Format.formatUtils_number Number_toString).
Abbreviation formatUtils_percentage := (Format.formatUtils_percentage Number_toString).
Abbreviation formatUtils_fileSize :=
  (Format.formatUtils_fileSize Math_log Math_pow Number_toString).
Abbreviation formatNumber_v1 := (Format.formatNumber_v1 Number_toString).
Abbreviation formatNumber := (Format.formatNumber Number_toString).
Abbreviation formatPercentage := (Format.formatPercentage Number_toString).
Abbreviation formatFileSize :=
  (Format.formatFileSize Math_log Math_pow Number_toString StringToNumber).

(** *** Where [formatUtils.number] changes unit *)

Lemma formatUtils_number_plain x d :
  (x <? 1000) = true -> formatUtils_number x d = toFixed x d.
Proof.
  intros H. unfold Format.formatUtils_number.
  rewrite (ltb_leb_trans x 1000 1000000 H eq_refl).
  rewrite (ltb_leb_trans x 1000 1000 H eq_refl). reflexivity.
Qed.

Lemma formatUtils_number_kilo x d :
  (1000 <=? x) = true -> (x <? 1000000) = true ->
  formatUtils_number x d = with_suffix (toFixed (x / 1000) d) "k".
Proof.
  intros Hk Hm. unfold Format.formatUtils_number.
  rewrite (ltb_leb_trans x 1000000 1000000 Hm eq_refl), Hk. reflexivity.
Qed.

Lemma formatUtils_number_mega x d :
  (1000000 <=? x) = true ->
  formatUtils_number x d = with_suffix (toFixed (x / 1000000) d) "M".
Proof. intros H. unfold Format.formatUtils_number. rewrite H. reflexivity. Qed.

(** *** Where [Dashboard.formatNumber] (1.1.0) changes unit *)

Lemma formatNumber_plain x d :
  (x <? 1000) = true -> formatNumber (VNum x) d = as_value (toFixed x d).
Proof.
  intros H. unfold Format.formatNumber.
  rewrite (ltb_leb_trans x 1000 1000000000 H eq_refl).
  rewrite (ltb_leb_trans x 1000 1000000 H eq_refl).
  rewrite (ltb_leb_trans x 1000 1000 H eq_refl). reflexivity.
Qed.

Lemma formatNumber_kilo x d :
  (1000 <=? x) = true -> (x <? 1000000) = true ->
  formatNumber (VNum x) d = as_value (with_suffix (toFixed (x / 1000) d) "k").
Proof.
  intros Hk Hm. unfold Format.formatNumber.
  rewrite (ltb_leb_trans x 1000000 1000000000 Hm eq_refl).
  rewrite (ltb_leb_trans x 1000000 1000000 Hm eq_refl), Hk. reflexivity.
Qed.

Lemma formatNumber_mega x d :
  (1000000 <=? x) = true -> (x <? 1000000000) = true ->
  formatNumber (VNum x) d = as_value (with_suffix (toFixed (x / 1000000) d) "M").
Proof.
  intros Hm Hb. unfold Format.formatNumber.
  rewrite (ltb_leb_trans x 1000000000 1000000000 Hb eq_refl), Hm. reflexivity.
Qed.

Lemma formatNumber_giga x d :
  (1000000000 <=? x) = true ->
  formatNumber (VNum x) d = as_value (with_suffix (toFixed (x / 1000000000) d) "B").
Proof. intros H. unfold Format.formatNumber. rewrite H. reflexivity. Qed.

(** *** Where [Dashboard.formatNumber] (1.0.0) changes unit *)

Lemma formatNumber_v1_plain x :
  is_nan x = false -> (PrimFloat.abs x <? 1000) = true ->
  formatNumber_v1 (Some x) = toFixed (parseFloat_number x) 1.
Proof.
  intros Hn H. unfold Format.formatNumber_v1. rewrite Hn.
  rewrite (ltb_leb_trans _ 1000 1000000 H eq_refl).
  rewrite (ltb_leb_trans _ 1000 1000 H eq_refl). reflexivity.
Qed.

Lemma formatNumber_v1_kilo x :
  is_nan x = false ->
  (1000 <=? PrimFloat.abs x) = true -> (PrimFloat.abs x <? 1000000) = true ->
  formatNumber_v1 (Some x) = with_suffix (toFixed (x / 1000) 1) "k".
Proof.
  intros Hn Hk Hm. unfold Format.formatNumber_v1. rewrite Hn.
  rewrite (ltb_leb_trans _ 1000000 1000000 Hm eq_refl), Hk. reflexivity.
Qed.

Lemma formatNumber_v1_mega x :
  is_nan x = false -> (1000000 <=? PrimFloat.abs x) = true ->
  formatNumber_v1 (Some x) = with_suffix (toFixed (x / 1000000) 1) "M".
Proof.
  intros Hn H. unfold Format.formatNumber_v1. rewrite Hn, H. reflexivity.
Qed.

(** C7 (amended). With the one-decimal default, each of the three number
    formatters ([Dashboard.formatNumber] 1.1.0 and 1.0.0,
    [formatUtils.number]) prints 999 as "999.0", 1500 as "1.5k" and
    2500000 as "2.5M"; a Number below 1000 is printed unscaled, and a
    Number from 1000 up to (excluding) 1000000 is divided by 1000 and
    given the suffix k.  From 1000000 on, [Dashboard.formatNumber] 1.0.0
    and [formatUtils.number] divide by 1000000 and give the suffix M
    without an upper end; [Dashboard.formatNumber] 1.1.0 does so up to
    (excluding) 1000000000 only, and from this third boundary on divides
    by 1000000000 and gives the suffix B. *)
Theorem formatNumber_examples_and_boundaries :
  (formatNumber (VNum 999) 1 = Normal (VStr "999.0")
   /\ formatNumber (VNum 1500) 1 = Normal (VStr "1.5k")
   /\ formatNumber (VNum 2500000) 1 = Normal (VStr "2.5M"))
  /\ (formatNumber_v1 (Some 999) = Normal "999.0"%string
      /\ formatNumber_v1 (Some 1500) = Normal "1.5k"%string
      /\ formatNumber_v1 (Some 2500000) = Normal "2.5M"%string)
  /\ (formatUtils_number 999 1 = Normal "999.0"%string
      /\ formatUtils_number 1500 1 = Normal "1.5k"%string
      /\ formatUtils_number 2500000 1 = Normal "2.5M"%string)
  /\ (forall x d,
        ((x <? 1000) = true ->
         formatNumber (VNum x) d = as_value (toFixed x d)
         /\ formatUtils_number x d = toFixed x d)
        /\ ((1000 <=? x) = true -> (x <? 1000000) = true ->
            formatNumber (VNum x) d
            = as_value (with_suffix (toFixed (x / 1000) d) "k")
            /\ formatUtils_number x d = with_suffix (toFixed (x / 1000) d) "k")
        /\ ((1000000 <=? x) = true ->
            formatUtils_number x d = with_suffix (toFixed (x / 1000000) d) "M"
            /\ ((x <? 1000000000) = true ->
                formatNumber (VNum x) d
                = as_value (with_suffix (toFixed (x / 1000000) d) "M"))
            /\ ((1000000000 <=? x) = true ->
                formatNumber (VNum x) d
                = as_value (with_suffix (toFixed (x / 1000000000) d) "B"))))
  /\ (forall x, is_nan x = false ->
        ((PrimFloat.abs x <? 1000) = true ->
         formatNumber_v1 (Some x) = toFixed (parseFloat_number x) 1)
        /\ ((1000 <=? PrimFloat.abs x) = true -> (PrimFloat.abs x <? 1000000) = true ->
            formatNumber_v1 (Some x) = with_suffix (toFixed (x / 1000) 1) "k")
        /\ ((1000000 <=? PrimFloat.abs x) = true ->
            formatNumber_v1 (Some x) = with_suffix (toFixed (x / 1000000) 1) "M")).
Proof.
  split; [repeat split; vm_compute; reflexivity |].
  split; [repeat split; vm_compute; reflexivity |].
  split; [repeat split; vm_compute; reflexivity |].
  split.
  - intros x d. split; [| split].
    + intros H. split;
        [apply formatNumber_plain | apply formatUtils_number_plain]; exact H.
    + intros Hk Hm. split;
        [apply formatNumber_kilo | apply formatUtils_number_kilo]; assumption.
    + intros Hm. split; [apply formatUtils_number_mega; exact Hm |]. split.
      * intros Hb. apply formatNumber_mega; assumption.
      * intros Hb. apply formatNumber_giga; assumption.
  - intros x Hn. split; [| split].
    + apply formatNumber_v1_plain; exact Hn.
    + apply formatNumber_v1_kilo; exact Hn.
    + apply formatNumber_v1_mega; exact Hn.
Qed.

(** The values on either side of each boundary. *)
Example formatNumber_at_the_boundaries :
  formatNumber (VNum 999.5) 1 = Normal (VStr "999.5")
  /\ formatNumber (VNum 1000) 1 = Normal (VStr "1.0k")
  /\ formatNumber (VNum 999999) 1 = Normal (VStr "1000.0k")
  /\ formatNumber (VNum 1000000) 1 = Normal (VStr "1.0M")
  /\ formatNumber (VNum 1000000000) 1 = Normal (VStr "1.0B")
  /\ formatNumber_v1 (Some (-1500)) = Normal "-1.5k"%string
  /\ formatNumber_v1 None = Normal "0"%string
  /\ formatNumber (VStr "n/a") 1 = Normal (VStr "n/a").
Proof. repeat split; vm_compute; reflexivity. Qed.

(** C9. [formatPercentage(v, d)] (and [formatUtils.percentage]) scales
    only fractions: for a Number [v] with [0 <= v <= 1] the result is
    [v * 100] printed with [d] decimals and a percent sign, for any other
    Number it is [v] itself printed with [d] decimals and a percent sign;
    so [formatPercentage(1)] is "100.0%" and [formatPercentage(1.5)] is
    "1.5%". *)
Theorem formatPercentage_scales_fractions_only (v : float) (d : Z) :
  (((0 <=? v) && (v <=? 1) = true ->
    formatPercentage (VNum v) d = as_value (with_suffix (toFixed (v * 100) d) "%")
    /\ formatUtils_percentage v d = with_suffix (toFixed (v * 100) d) "%")
   /\ ((0 <=? v) && (v <=? 1) = false ->
       formatPercentage (VNum v) d = as_value (with_suffix (toFixed v d) "%")
       /\ formatUtils_percentage v d = with_suffix (toFixed v d) "%"))
  /\ (formatPercentage (VNum 1) 1 = Normal (VStr "100.0%")
      /\ formatPercentage (VNum 1.5) 1 = Normal (VStr "1.5%")
      /\ formatUtils_percentage 1 1 = Normal "100.0%"%string
      /\ formatUtils_percentage 1.5 1 = Normal "1.5%"%string).
Proof.
  split; [split |].
  - intros H. unfold Format.formatPercentage, Format.formatUtils_percentage.
    rewrite H. split; reflexivity.
  - intros H. unfold Format.formatPercentage, Format.formatUtils_percentage.
    rewrite H. split; reflexivity.
  - repeat split; vm_compute; reflexivity.
Qed.

(** C10. The file-size formatters are total at zero: [formatUtils.fileSize]
    returns "0 B" for either zero, [Dashboard.formatFileSize] returns
    "0 B" for every falsy argument, in both cases without evaluating a
    logarithm; and whenever the argument is a Number, every argument
    [Math.log] is applied to is different from zero. *)
Theorem formatFileSize_guards_zero :
  (formatUtils_fileSize 0 = (Normal "0 B"%string, [])
   /\ formatUtils_fileSize (-0) = (Normal "0 B"%string, []))
  /\ (forall v, truthy v = false -> formatFileSize v = (Normal "0 B"%string, []))
  /\ (forall bytes x, In x (formatUtils_fileSize bytes).2 -> (x =? 0) = false)
  /\ (forall bytes x, In x (formatFileSize (VNum bytes)).2 -> (x =? 0) = false).
Proof.
  split; [split; reflexivity |].
  split.
  - intros v H. unfold Format.formatFileSize. rewrite H. reflexivity.
  - split.
    + intros bytes x. unfold Format.formatUtils_fileSize.
      destruct (bytes =? 0) eqn:Hz; simpl; [tauto |].
      intros [<- | [<- | []]]; [exact Hz | reflexivity].
    + intros bytes x. unfold Format.formatFileSize.
      destruct (truthy (VNum bytes)) eqn:Ht; simpl negb; cbv iota; [| simpl; tauto].
      simpl. intros [<- | [<- | []]];
        [apply eqb_zero_false_of_truthy; exact Ht | reflexivity].
Qed.

End Host.

(** C7, as stated, fails for [Dashboard.formatNumber] 1.1.0: the Number
    2500000000 is past the boundary of 1000000, and it is not divided by
    1000000 and given the suffix M, as the two other formatters print it,
    but divided by 1000000000 and given the suffix B. *)
Lemma billions_are_printed_with_B :
  (1000000 <=? 2500000000) = true
  /\ Format.formatNumber (fun _ => "") (VNum 2500000000) 1 = Normal (VStr "2.5B")
  /\ Format.formatNumber_v1 (fun _ => "") (Some 2500000000) = Normal "2500.0M"%string
  /\ Format.formatUtils_number (fun _ => "") 2500000000 1 = Normal "2500.0M"%string.
Proof. repeat split; vm_compute; reflexivity. Qed.

End FormatFacts.

(** ** The retrying request helper *)

Module ApiClientFacts.
Import JS ApiClient.

Section Request.

Variable config : Config.
Variable fetch_attempt : nat -> FetchOutcome.

Abbreviation request_loop := (ApiClient.request_loop config fetch_attempt).
Abbreviation request := (ApiClient.request config fetch_attempt).

(** One turn of the loop, by what the attempt does. *)
Lemma request_loop_success k st data :
  k <= maxRetries config -> attempt (fetch_attempt k) = inl data ->
  request_loop k st = (Resolved data, {| retryCount := 0; delays := delays st |}).
Proof.
  intros Hk Ha. simp request_loop.
  destruct (le_dec k (maxRetries config)); [| lia].
  simpl. rewrite Ha. reflexivity.
Qed.

Lemma request_loop_retry k st message :
  S k <= maxRetries config -> attempt (fetch_attempt k) = inr message ->
  request_loop k st
  = request_loop (S k) {| retryCount := S k;
                          delays := delays st ++ [backoff (S k)] |}.
Proof.
  intros Hk Ha. rewrite request_loop_equation_1.
  destruct (le_dec k (maxRetries config)); [| lia].
  simpl. rewrite Ha. simpl.
  destruct (le_dec (S k) (maxRetries config)); [| lia]. reflexivity.
Qed.

Lemma request_loop_give_up st message :
  attempt (fetch_attempt (maxRetries config)) = inr message ->
  request_loop (maxRetries config) st
  = (Rejected (Error ("Échec après " +:+ digits_of_nat (maxRetries config)
                      +:+ " tentatives: " +:+ message)),
     {| retryCount := S (maxRetries config); delays := delays st |}).
Proof.
  intros Ha. rewrite request_loop_equation_1.
  destruct (le_dec (maxRetries config) (maxRetries config)); [| lia].
  simpl. rewrite Ha. simpl.
  destruct (le_dec (S (maxRetries config)) (maxRetries config)); [lia |].
  reflexivity.
Qed.

(** After [n] failed attempts the loop is at its turn [k + n], having
    waited [2^(k+1) * 1000], ..., [2^(k+n) * 1000] milliseconds. *)
Lemma request_loop_after_failures n :
  forall k st,
    (forall j, k <= j < k + n -> is_failure (fetch_attempt j) = true) ->
    k + n <= maxRetries config ->
    exists count,
      request_loop k st
      = request_loop (k + n)
          {| retryCount := count;
             delays := delays st
                       ++ List.map (fun attempt => (2 ^ Z.of_nat attempt * 1000)%Z)
                                   (seq (S k) n) |}.
Proof.
  induction n as [| n IH]; intros k st Hfail Hle.
  - exists (retryCount st). rewrite Nat.add_0_r, app_nil_r.
    destruct st; reflexivity.
  - assert (Hk : is_failure (fetch_attempt k) = true) by (apply Hfail; lia).
    unfold is_failure in Hk.
    destruct (attempt (fetch_attempt k)) as [data | message] eqn:Ha;
      [discriminate |].
    rewrite (request_loop_retry k st message) by (lia || exact Ha).
    destruct (IH (S k) {| retryCount := S k;
                          delays := delays st ++ [backoff (S k)] |})
      as [count Hcount].
    + intros j Hj. apply Hfail. lia.
    + lia.
    + exists count. rewrite Hcount. cbn [delays seq List.map].
      rewrite <- app_assoc. replace (S k + n) with (k + S n) by lia.
      reflexivity.
Qed.

(** C1. When the first [n] attempts of a request fail: if [n] is at most
    [maxRetries] and attempt [n + 1] succeeds, the request resolves with
    the parsed response and the shared retry counter is 0; if [n] is
    [maxRetries + 1], the request rejects with one error that carries
    the last failure's message, and the counter is [maxRetries + 1]; in
    both cases the delays waited are [2^attempt * 1000] ms for
    [attempt = 1, 2, ...], the number of failures so far.  With
    [maxRetries = 3] this is: 2 failures then success resolves, 4
    failures reject. *)
Theorem request_retries_then_settles (n : nat) (st : State) :
  (forall k, k < n -> is_failure (fetch_attempt k) = true) ->
  (forall data,
      n <= maxRetries config -> attempt (fetch_attempt n) = inl data ->
      request st = (Resolved data,
                    {| retryCount := 0;
                       delays := delays st ++ backoff_schedule n |}))
  /\ (n = S (maxRetries config) ->
      exists message,
        attempt (fetch_attempt (maxRetries config)) = inr message
        /\ request st
           = (Rejected (Error ("Échec après " +:+ digits_of_nat (maxRetries config)
                               +:+ " tentatives: " +:+ message)),
              {| retryCount := S (maxRetries config);
                 delays := delays st ++ backoff_schedule (maxRetries config) |})).
Proof.
  intros Hfail. split.
  - intros data Hle Ha. unfold ApiClient.request.
    destruct (request_loop_after_failures n 0 st) as [count Hcount];
      [intros j Hj; apply Hfail; lia | lia |].
    rewrite Hcount. simpl Nat.add.
    rewrite (request_loop_success n _ data Hle Ha). reflexivity.
  - intros ->. unfold ApiClient.request.
    assert (Hlast : is_failure (fetch_attempt (maxRetries config)) = true)
      by (apply Hfail; lia).
    unfold is_failure in Hlast.
    destruct (attempt (fetch_attempt (maxRetries config))) as [data | message] eqn:Ha;
      [discriminate |].
    exists message. split; [reflexivity |].
    destruct (request_loop_after_failures (maxRetries config) 0 st)
      as [count Hcount]; [intros j Hj; apply Hfail; lia | lia |].
    rewrite Hcount. simpl Nat.add.
    rewrite (request_loop_give_up _ message Ha). reflexivity.
Qed.

End Request.

Lemma request_retries_then_settles_witness :
  request DASHBOARD_CONFIG recovers_on_third initial_state
  = (Resolved summary_document, {| retryCount := 0; delays := [2000; 4000]%Z |})
  /\ request DASHBOARD_CONFIG (fun _ => server_error) initial_state
     = (Rejected (Error "Échec après 3 tentatives: HTTP 500: Internal Server Error"),
        {| retryCount := 4; delays := [2000; 4000; 8000]%Z |}).
Proof.
  split.
  - assert (Hfail : forall k, k < 2 -> is_failure (recovers_on_third k) = true).
    { intros [| [| k]] Hk; [reflexivity | reflexivity | exfalso; lia]. }
    apply (proj1 (request_retries_then_settles DASHBOARD_CONFIG recovers_on_third
                    2 initial_state Hfail)).
    + simpl. lia.
    + reflexivity.
  - destruct (proj2 (request_retries_then_settles DASHBOARD_CONFIG
                       (fun _ => server_error) 4 initial_state
                       (fun _ _ => eq_refl)) eq_refl)
      as [message [Hmessage Hrequest]].
    injection Hmessage as <-. exact Hrequest.
Defined.

End ApiClientFacts.

(** ** The module registry *)

Module RegistryFacts.
Import Registry.

Lemma get_set_same st name module : get (set st name module) name = PModule module.
Proof.
  unfold get, set.
  destruct (own st !! name) as [v |] eqn:Hown.
  - simpl. rewrite lookup_insert_eq. reflexivity.
  - destruct (String.eqb name "__proto__") eqn:Hname.
    + simpl. rewrite Hown. unfold inherited. rewrite Hname. reflexivity.
    + simpl. rewrite lookup_insert_eq. reflexivity.
Qed.

Lemma getModule_registerModule st name module :
  getModule (registerModule name module st) name = PModule module.
Proof. unfold getModule, registerModule, get. simpl. apply get_set_same. Qed.

(** Registering under another name leaves the own property [name] and,
    unless that other name is [__proto__], the prototype link as they
    were. *)
Lemma registerModule_other st name other module :
  other <> name -> other <> "__proto__" ->
  own (registerModule other module st) !! name = own st !! name
  /\ proto (registerModule other module st) = proto st.
Proof.
  intros Hne Hproto. unfold registerModule, set.
  apply String.eqb_neq in Hproto. rewrite Hproto.
  destruct (own st !! other); simpl; rewrite lookup_insert_ne by exact Hne;
    split; reflexivity.
Qed.

Lemma register_all_other calls :
  forall st name,
    name ∉ calls.*1 -> "__proto__" ∉ calls.*1 ->
    own (register_all calls st) !! name = own st !! name
    /\ proto (register_all calls st) = proto st.
Proof.
  induction calls as [| [other module] calls IH]; intros st name Hname Hproto.
  - split; reflexivity.
  - rewrite fmap_cons in Hname, Hproto. simpl in Hname, Hproto.
    apply not_elem_of_cons in Hname as [Hne Hname].
    apply not_elem_of_cons in Hproto as [Hne' Hproto].
    unfold register_all. simpl. fold (register_all calls (registerModule other module st)).
    destruct (IH (registerModule other module st) name Hname Hproto) as [Hown Hlink].
    destruct (registerModule_other st name other module) as [Hown' Hlink'];
      [congruence | congruence |].
    split; congruence.
Qed.

(** C6 (amended). Registering twice under one name raises nothing and the
    later handle wins: [getModule(name)] then returns the second handle,
    for every name.  [getModule(name)] returns [undefined] or [null] for a
    name that was never registered, provided the name is not one that
    [Dashboard.modules] inherits from [Object.prototype] ([constructor],
    [toString], [__proto__], ...) and no module was registered as
    [__proto__]. *)
Theorem last_registration_wins_and_unknown_is_absent
    (st : State) (name : string) (m1 m2 : Handle)
    (calls : list (string * Handle)) (unknown : string) :
  getModule (registerModule name m2 (registerModule name m1 st)) name = PModule m2
  /\ (unknown ∉ calls.*1 -> "__proto__" ∉ calls.*1 ->
      unknown ∉ "__proto__" :: object_prototype_methods ->
      absent (getModule (register_all calls initial) unknown)).
Proof.
  split; [apply getModule_registerModule |].
  intros Hname Hproto Hinherited.
  destruct (register_all_other calls initial unknown Hname Hproto) as [Hown Hlink].
  apply not_elem_of_cons in Hinherited as [Hne Hmethod].
  unfold getModule, get. rewrite Hown, Hlink.
  unfold inherited, is_object_prototype_method.
  apply String.eqb_neq in Hne. rewrite Hne.
  rewrite bool_decide_eq_false_2 by exact Hmethod.
  unfold initial. simpl own.
  repeat (rewrite lookup_insert; case_decide;
          [right; reflexivity |]).
  rewrite lookup_empty. left; reflexivity.
Qed.

(** The modules of the page register and are found; a name nobody used is
    [undefined], a slot of the literal that nobody filled is [null]. *)
Example registry_in_use :
  let maps := ObjRef 1 in
  let charts := ObjRef 2 in
  let replacement := ObjRef 3 in
  let st := register_all [("maps", maps); ("charts", charts); ("maps", replacement)]
                         initial in
  getModule st "maps" = PModule replacement
  /\ getModule st "charts" = PModule charts
  /\ getModule st "chat" = PNull
  /\ getModule st "reports" = PUndefined
  /\ length (console st) = 3.
Proof. vm_compute. repeat split. Qed.

(** C6, as stated, fails: [constructor] was never registered, and
    [getModule("constructor")] is the function [Dashboard.modules] inherits
    from [Object.prototype], neither [undefined] nor [null]. *)
Lemma getModule_of_inherited_name_is_not_absent :
  getModule (register_all [] initial) "constructor" = PBuiltin "constructor"
  /\ ~ absent (getModule (register_all [] initial) "constructor").
Proof.
  split; [vm_compute; reflexivity |].
  intros [H | H]; vm_compute in H; discriminate H.
Qed.

Lemma last_registration_wins_and_unknown_is_absent_witness :
  getModule (registerModule "maps" (ObjRef 3) (registerModule "maps" (ObjRef 1) initial))
            "maps" = PModule (ObjRef 3)
  /\ absent (getModule (register_all [("maps", ObjRef 1); ("charts", ObjRef 2)] initial)
                       "reports").
Proof.
  pose proof (last_registration_wins_and_unknown_is_absent
                initial "maps" (ObjRef 1) (ObjRef 3)
                [("maps", ObjRef 1); ("charts", ObjRef 2)] "reports") as [Hwins Habsent].
  split; [exact Hwins |].
  apply Habsent; unfold object_prototype_methods; simpl;
    rewrite ?not_elem_of_cons;
    repeat split; (discriminate || apply not_elem_of_nil).
Defined.

End RegistryFacts.

(** ** Tab activation *)

Module TabsFacts.
Import Tabs.

Lemma flag_load_once id t st other :
  flag st other = true -> flag (load_once id t st) other = true.
Proof.
  unfold load_once, flag. intros H.
  destruct (document st !! id) as [c |] eqn:Hc; [| exact H].
  destruct (flag_set c) eqn:Hf; [exact H |].
  simpl. destruct (decide (id = other)) as [-> | Hne].
  - rewrite lookup_insert_eq. reflexivity.
  - rewrite lookup_insert_ne by exact Hne. exact H.
Qed.

Lemma flag_inject id t st other : flag (inject id t st) other = flag st other.
Proof.
  unfold inject, flag.
  destruct (document st !! id) as [c |] eqn:Hc; [| reflexivity].
  simpl. destruct (decide (id = other)) as [-> | Hne].
  - rewrite lookup_insert_eq, Hc. reflexivity.
  - rewrite lookup_insert_ne by exact Hne. reflexivity.
Qed.

Lemma flag_loadTabContent tabId st other :
  flag st other = true -> flag (loadTabContent tabId st) other = true.
Proof.
  intros H. unfold loadTabContent, loadConsumptionContent, loadBuildingsContent,
    loadAnalysisContent, loadDataContent, loadSettingsContent.
  repeat match goal with
         | |- context [if ?b then _ else _] => destruct b
         end;
    (exact H || (apply flag_load_once; exact H)).
Qed.

(** No operation clears a flag. *)
Lemma flag_step op st id : flag st id = true -> flag (step op st) id = true.
Proof.
  intros H. destruct op; simpl.
  - unfold activate. apply flag_loadTabContent. exact H.
  - rewrite flag_inject. exact H.
  - rewrite flag_inject. exact H.
  - exact H.
  - exact H.
  - exact H.
Qed.

Lemma flag_run ops : forall st id, flag st id = true -> flag (run ops st) id = true.
Proof.
  induction ops as [| op ops IH]; intros st id H; [exact H |].
  unfold run. simpl. apply IH. apply flag_step. exact H.
Qed.

(** The first load of a container that is there and not flagged. *)
Lemma load_once_first id t st :
  is_Some (document st !! id) -> flag st id = false ->
  loads (load_once id t st) = loads st ++ [id]
  /\ fetches (load_once id t st) = fetches st
  /\ flag (load_once id t st) id = true
  /\ (innerHTML <$> document (load_once id t st) !! id) = Some (Injected t).
Proof.
  intros [c Hc] Hf. unfold flag in Hf. rewrite Hc in Hf.
  unfold load_once, flag. rewrite Hc, Hf. simpl.
  rewrite lookup_insert_eq. repeat split.
Qed.

(** A load of a flagged container does nothing. *)
Lemma load_once_again id t st : flag st id = true -> load_once id t st = st.
Proof.
  unfold flag, load_once. destruct (document st !! id) as [c |]; [| discriminate].
  intros ->. reflexivity.
Qed.

(** Activation is the tab's loader, after [currentTab] is set. *)
Lemma activate_loaded_tab tab st :
  tab ∈ loaded_on_activation ->
  exists t,
    activate tab st
    = load_once tab t {| document := document st; currentTab := tab;
                         loads := loads st; fetches := fetches st |}.
Proof.
  unfold loaded_on_activation. rewrite !elem_of_cons, elem_of_nil.
  intros [-> | [-> | [-> | [-> | [-> | []]]]]]; eexists; reflexivity.
Qed.

(** C2 (amended). For each of the tabs consumption, buildings, analysis,
    data and settings: activating the tab while its container is in the
    document and carries no loaded-flag performs exactly one content load,
    the injection of the tab's static markup, without any network request,
    and sets the flag; activating it while the flag is set loads nothing,
    requests nothing and leaves the document as it is.  Activating overview
    never loads anything and sets no flag.  No operation of the program
    clears a flag once it is set. *)
Theorem tab_content_is_loaded_once (tab : string) (st : State) :
  tab ∈ loaded_on_activation ->
  (is_Some (document st !! tab) -> flag st tab = false ->
   loads (activate tab st) = loads st ++ [tab]
   /\ fetches (activate tab st) = fetches st
   /\ flag (activate tab st) tab = true)
  /\ (flag st tab = true ->
      loads (activate tab st) = loads st
      /\ fetches (activate tab st) = fetches st
      /\ document (activate tab st) = document st)
  /\ (loads (activate "overview" st) = loads st
      /\ fetches (activate "overview" st) = fetches st
      /\ document (activate "overview" st) = document st)
  /\ (forall ops id, flag st id = true -> flag (run ops st) id = true).
Proof.
  intros Htab. destruct (activate_loaded_tab tab st Htab) as [t Hact].
  rewrite Hact. split; [| split; [| split]].
  - intros Hthere Hflag.
    destruct (load_once_first tab t
                {| document := document st; currentTab := tab;
                   loads := loads st; fetches := fetches st |} Hthere Hflag)
      as [Hloads [Hfetches [Hset _]]].
    repeat split; assumption.
  - intros Hflag. rewrite load_once_again by exact Hflag. repeat split.
  - repeat split.
  - intros ops id. apply flag_run.
Qed.

Lemma tab_content_is_loaded_once_witness :
  loads (activate "consumption" served_page) = ["consumption"]
  /\ fetches (activate "consumption" served_page) = []
  /\ flag (activate "consumption" served_page) "consumption" = true
  /\ loads (activate "consumption" (activate "consumption" served_page)) = ["consumption"]
  /\ flag (run [Activate "data"; ModuleLoad "consumption" "charts"; LoadConsumptionData;
                Activate "consumption"]
               (activate "consumption" served_page)) "consumption" = true.
Proof.
  assert (Htab : "consumption" ∈ loaded_on_activation)
    by (unfold loaded_on_activation; rewrite elem_of_cons; left; reflexivity).
  pose proof (tab_content_is_loaded_once "consumption" served_page Htab)
    as [Hfirst _].
  pose proof (tab_content_is_loaded_once "consumption"
                (activate "consumption" served_page) Htab)
    as [_ [Hagain [_ Hkeeps]]].
  destruct Hfirst as [Hloads [Hfetches Hflag]];
    [vm_compute; eauto | vm_compute; reflexivity |].
  destruct (Hagain Hflag) as [Hloads' _].
  split; [exact Hloads |].
  split; [exact Hfetches |].
  split; [exact Hflag |].
  split; [rewrite Hloads'; exact Hloads |].
  apply Hkeeps. exact Hflag.
Defined.

(** C2, as stated, fails for the overview tab: its container is in the
    document with no loaded-flag, and activating it performs no content
    load (and no request) and leaves the flag unset. *)
Lemma overview_activation_loads_nothing :
  "overview" ∈ tabs
  /\ is_Some (document fresh_page !! "overview")
  /\ flag fresh_page "overview" = false
  /\ loads (activate "overview" fresh_page) = []
  /\ fetches (activate "overview" fresh_page) = []
  /\ flag (activate "overview" fresh_page) "overview" = false.
Proof.
  split; [unfold tabs; rewrite elem_of_cons; left; reflexivity |].
  split; [vm_compute; eauto |].
  repeat split.
Qed.

End TabsFacts.

(** ** The map renderers and the buildings request *)

Module MapsFacts.
Import JS Backend Maps.

Lemma filter_idempotent {A} (keep : A -> bool) ls :
  List.filter keep (List.filter keep ls) = List.filter keep ls.
Proof.
  induction ls as [| l ls IH]; [reflexivity |].
  simpl. destruct (keep l) eqn:Hl; simpl; [rewrite Hl, IH; reflexivity | exact IH].
Qed.

Lemma filter_complement {A} (keep : A -> bool) ls :
  List.filter keep (List.filter (fun l => negb (keep l)) ls) = [].
Proof.
  induction ls as [| l ls IH]; [reflexivity |].
  simpl. destruct (keep l) eqn:Hl; simpl; [exact IH |].
  rewrite Hl. exact IH.
Qed.

(** Taking one kind of layer off the map leaves the layers of a kind
    apart from it. *)
Lemma filter_beside {A} (keep gone : A -> bool) ls :
  (forall l, keep l = true -> gone l = false) ->
  List.filter keep (List.filter (fun l => negb (gone l)) ls) = List.filter keep ls.
Proof.
  intros Hapart. induction ls as [| l ls IH]; [reflexivity |].
  cbn [List.filter]. destruct (gone l) eqn:Hgone; cbn [negb List.filter].
  - destruct (keep l) eqn:Hkeep; [| exact IH].
    rewrite (Hapart l Hkeep) in Hgone. discriminate.
  - destruct (keep l); rewrite IH; reflexivity.
Qed.

Lemma filter_markers_all ms :
  List.filter is_circle_marker (List.map circleMarker ms) = List.map circleMarker ms.
Proof. induction ms as [| d ms IH]; [reflexivity |]. simpl. rewrite IH. reflexivity. Qed.

Lemma filter_markers_none keep ms :
  (forall d, keep (circleMarker d) = false) ->
  List.filter keep (List.map circleMarker ms) = [].
Proof.
  intros Hnone. induction ms as [| d ms IH]; [reflexivity |].
  cbn [List.map List.filter]. rewrite Hnone. exact IH.
Qed.

(** A layer added to the map joins the layers of its kind; the path
    renderer that may come with it is of no kind but its own. *)
Lemma filter_addTo keep l ls :
  keep PathRenderer = false ->
  List.filter keep (addTo l ls) = List.filter keep ls ++ List.filter keep [l].
Proof.
  intros Hrenderer. unfold addTo.
  destruct (is_circle_marker l && negb (existsb is_path_renderer ls));
    rewrite List.filter_app; [| reflexivity].
  cbn [List.filter]. rewrite Hrenderer. reflexivity.
Qed.

Lemma filter_add_markers keep ms :
  keep PathRenderer = false ->
  forall ls,
    List.filter keep (add_markers ms ls)
    = List.filter keep ls ++ List.filter keep (List.map circleMarker ms).
Proof.
  intros Hrenderer. unfold add_markers.
  induction ms as [| d ms IH]; intros ls; cbn [fold_left List.map].
  - rewrite app_nil_r. reflexivity.
  - rewrite IH, (filter_addTo keep _ ls Hrenderer), <- app_assoc. f_equal.
    cbn [List.filter]. destruct (keep (circleMarker d)); reflexivity.
Qed.

(** One call of [renderBuildingsOnMap] with a payload that carries markers. *)
Lemma renderBuildingsOnMap_draws st m d ms :
  map st = Some m -> markers d = Some ms ->
  exists st' m',
    renderBuildingsOnMap (Some d) st = Normal st'
    /\ map st' = Some m'
    /\ layers m' = add_markers ms (beside_circle_markers m).
Proof.
  intros Hm Hms. unfold renderBuildingsOnMap. rewrite Hm, Hms.
  destruct (center d) as [c |]; [destruct (number_truthy (zoom d)) |];
    eexists; eexists; (split; [reflexivity | split; reflexivity]).
Qed.

Lemma renderBuildingsOnMap_layers m' m ms :
  layers m' = add_markers ms (beside_circle_markers m) ->
  circle_markers m' = List.map circleMarker ms
  /\ heat_maps m' = heat_maps m
  /\ tile_layers m' = tile_layers m.
Proof.
  intros H. unfold circle_markers, heat_maps, tile_layers, beside_circle_markers in *.
  rewrite H, !filter_add_markers by reflexivity. split; [| split].
  - rewrite filter_complement, filter_markers_all. reflexivity.
  - rewrite filter_beside, filter_markers_none, app_nil_r; try reflexivity.
    intros [] Hl; (discriminate || reflexivity).
  - rewrite filter_beside, filter_markers_none, app_nil_r; try reflexivity.
    intros [] Hl; (discriminate || reflexivity).
Qed.








(** A defect beside C3: [renderBuildingsOnMap] clears circle markers only,
    where its sibling [renderConsumptionHeatmap] clears circle markers and
    heat layers; a heat map drawn earlier stays under the buildings. *)
Example heat_layer_stays_under_the_buildings :
  let heat := {| heatmap_points :=
                   Some [{| point_lat := 3.1; point_lng := 101.7; intensity := 0.8 |}];
                 heat_center := None; heat_zoom := None |} in
  option_map overlays
    (map_after (let* st1 := renderConsumptionHeatmap (Some heat) initial_page in
                renderBuildingsOnMap (Some one_building) st1))
  = Some [HeatLayer [(3.1, 101.7, 0.8)%float]; circleMarker kuala_lumpur].
Proof. vm_compute. reflexivity. Qed.

(** The map of [initializeMap] after two renders of buildings: the tile
    layer, the marker of the second payload, and between them the path
    renderer that came with the first marker; the view is the one the
    first payload asked for, its zoom within the range of the tiles. *)
Example layers_after_two_renders :
  map_after (render_twice renderBuildingsOnMap one_building another_building
               initial_page)
  = Some {| layers := [tiles; PathRenderer; circleMarker george_town];
            view_center := (3.139, 101.6869)%float; view_zoom := 10%float |}
  /\ limitZoom {| layers := [tiles]; view_center := (0, 0)%float; view_zoom := 0%float |}
       25.4%float = 18%float
  /\ limitZoom {| layers := []; view_center := (0, 0)%float; view_zoom := 0%float |}
       9.5%float = 10%float.
Proof. repeat split; vm_compute; reflexivity. Qed.

(** The renderer leaves the requests and the controls alone. *)
Lemma renderBuildingsOnMap_page mapData st st' :
  renderBuildingsOnMap mapData st = Normal st' ->
  requests st' = requests st /\ map_type_filter st' = map_type_filter st.
Proof.
  unfold renderBuildingsOnMap.
  destruct (map st) as [m |]; [| intros [= <-]; split; reflexivity].
  destruct mapData as [d |]; [| discriminate].
  destruct (markers d) as [ms |]; [| intros [= <-]; split; reflexivity].
  destruct (center d) as [c |]; [destruct (number_truthy (zoom d)) |];
    intros [= <-]; split; reflexivity.
Qed.

(** [showBuildingsView] issues exactly one request, to the URL built from
    the controls, whatever the backend answers, and leaves the type filter
    as it is. *)
Lemma showBuildingsView_page answer st :
  requests (showBuildingsView answer st) = requests st ++ [buildings_url st]
  /\ map_type_filter (showBuildingsView answer st) = map_type_filter st.
Proof.
  unfold showBuildingsView.
  destruct (show_buildings_try answer (request (buildings_url st) st))
    as [st2 | error] eqn:Htry; [| split; reflexivity].
  unfold show_buildings_try in Htry.
  destruct answer as [message | r]; [discriminate |].
  destruct (body r) as [message | | success map_data]; try discriminate.
  destruct (success_truthy success).
  - destruct (renderBuildingsOnMap_page _ _ _ Htry) as [-> ->]. split; reflexivity.
  - injection Htry as <-. split; reflexivity.
Qed.

Lemma value_or_nonempty v default : v <> "" -> value_or (Some v) default = v.
Proof.
  intros H. unfold value_or. apply String.eqb_neq in H. rewrite H. reflexivity.
Qed.

(** C5. The buildings request is built from the controls as they are when
    it is issued: after the density slider is moved to a value (50, say)
    while the type filter keeps its selection, the next request goes to
    [/api/map/buildings?density=<that value>&type=<the selection>]; a
    control that is missing (or empty) contributes its default, density 100
    and type [all]. *)
Theorem buildings_request_follows_the_controls
    (st : State) (answer : FetchOutcome MapData) (density selection : string) :
  density <> "" -> map_type_filter st = Some selection -> selection <> "" ->
  is_Some (density_display st) ->
  (exists st',
      slide_density density answer st = Normal st'
      /\ requests st'
         = requests st
           ++ ["/api/map/buildings?density=" +:+ density +:+ "&type=" +:+ selection]
      /\ map_type_filter st' = Some selection)
  /\ (forall page,
        (map_density page = None -> map_type_filter page = None ->
         buildings_url page = "/api/map/buildings?density=100&type=all")
        /\ (map_density page = None -> map_type_filter page = Some selection ->
            buildings_url page = "/api/map/buildings?density=100&type=" +:+ selection)
        /\ (map_density page = Some density -> map_type_filter page = None ->
            buildings_url page
            = "/api/map/buildings?density=" +:+ density +:+ "&type=all")).
Proof.
  intros Hdensity Hfilter Hselection [shown Hshown]. split.
  - unfold slide_density, updateMapDensity. simpl. rewrite Hshown.
    eexists. split; [reflexivity |].
    match goal with
    | |- context [showBuildingsView answer ?page] =>
        destruct (showBuildingsView_page answer page) as [-> ->]
    end.
    unfold buildings_url, value_or. simpl. rewrite Hfilter.
    rewrite (proj2 (String.eqb_neq _ _) Hdensity),
            (proj2 (String.eqb_neq _ _) Hselection).
    split; reflexivity.
  - intros page. unfold buildings_url. split; [| split].
    + intros -> ->. reflexivity.
    + intros -> ->. rewrite value_or_nonempty by assumption. reflexivity.
    + intros -> ->. rewrite value_or_nonempty by assumption. reflexivity.
Qed.

Lemma buildings_request_follows_the_controls_witness :
  exists st',
    slide_density "50" (Rejects "Failed to fetch")
      {| map := map initial_page; map_density := Some "100";
         map_type_filter := Some "commercial"; density_display := Some "100";
         console := []; requests := [] |}
    = Normal st'
    /\ requests st' = ["/api/map/buildings?density=50&type=commercial"]
    /\ map_type_filter st' = Some "commercial".
Proof.
  refine (proj1 (buildings_request_follows_the_controls
                   {| map := map initial_page; map_density := Some "100";
                      map_type_filter := Some "commercial";
                      density_display := Some "100";
                      console := []; requests := [] |}
                   (Rejects "Failed to fetch") "50" "commercial" _ eq_refl _ _)).
  - discriminate.
  - discriminate.
  - eexists. reflexivity.
Defined.

End MapsFacts.

(** ** The data-fetching routines *)

Module FetchFacts.
Import JS Backend.

(** The part of the contract the routines keep: a network failure, a body
    that is not JSON and the body [null] are caught and logged, and the map
    and the charts stay as they were. *)
Lemma caught_failures_are_logged
    (st : Maps.State) (cst : Charts.State) (message : string)
    (http_ok : bool) (code : nat) :
  Maps.showBuildingsView (Rejects message) st
  = Maps.log (ConsoleError "Erreur affichage bâtiments:" (Error message))
             (Maps.request (Maps.buildings_url st) st)
  /\ Maps.showBuildingsView
       (Responds {| ok := http_ok; status := code; body := BodyInvalid message |}) st
     = Maps.log (ConsoleError "Erreur affichage bâtiments:" SyntaxError)
                (Maps.request (Maps.buildings_url st) st)
  /\ Charts.updateConsumptionCharts (Rejects message) cst
     = Charts.log (ConsoleError "Erreur mise à jour graphiques:" (Error message))
                  (Charts.request (Charts.consumption_url cst) cst)
  /\ Charts.updateConsumptionCharts
       (Responds {| ok := http_ok; status := code; body := BodyInvalid message |}) cst
     = Charts.log (ConsoleError "Erreur mise à jour graphiques:" SyntaxError)
                  (Charts.request (Charts.consumption_url cst) cst).
Proof. repeat split. Qed.

(** C4 (the code falls short of it).  With the envelope
    [{ "success": false }] both [showBuildingsView] and
    [updateConsumptionCharts] keep the stale view but log nothing: the
    console is left as it was, where a network failure adds an error line
    and the sibling [loadCharts] adds a warning for the same envelope.  And
    the HTTP status is never looked at: an answer with a non-success status
    whose body is a successful envelope is handed to the renderer. *)
Theorem unsuccessful_envelope_is_not_logged
    (st : Maps.State) (cst : Charts.State) (http_ok : bool) (code : nat)
    (map_data : option Maps.MapData) (charts : option Charts.ConsumptionCharts)
    (overview : option (option Charts.ChartData * option Charts.ChartData))
    (message : string) :
  let refused {P} (payload : option P) : FetchOutcome P :=
    Responds {| ok := http_ok; status := code;
                body := BodyEnvelope (Some (JBool false)) payload |} in
  (Maps.showBuildingsView (refused map_data) st
   = Maps.request (Maps.buildings_url st) st
   /\ Maps.console (Maps.showBuildingsView (refused map_data) st) = Maps.console st
   /\ Maps.map (Maps.showBuildingsView (refused map_data) st) = Maps.map st)
  /\ (Charts.updateConsumptionCharts (refused charts) cst
      = Charts.request (Charts.consumption_url cst) cst
      /\ Charts.console (Charts.updateConsumptionCharts (refused charts) cst)
         = Charts.console cst
      /\ Charts.drawn (Charts.updateConsumptionCharts (refused charts) cst)
         = Charts.drawn cst)
  /\ (Maps.console (Maps.showBuildingsView (Rejects message) st)
      = Maps.console st
        ++ [ConsoleError "Erreur affichage bâtiments:" (Error message)]
      /\ Charts.console (Charts.loadCharts (refused overview) cst)
         = Charts.console cst ++ [ConsoleWarn "Pas de graphiques disponibles"])
  /\ option_map Maps.circle_markers
       (Maps.map (Maps.showBuildingsView
                    (Responds {| ok := false; status := 500;
                                 body := BodyEnvelope (Some (JBool true))
                                                      (Some Maps.one_building) |})
                    Maps.initial_page))
     = Some [Maps.circleMarker Maps.kuala_lumpur].
Proof.
  intros refused. split; [| split; [| split]].
  - repeat split.
  - repeat split.
  - repeat split.
  - vm_compute. reflexivity.
Qed.

End FetchFacts.

(** ** Importing settings *)

Module SettingsFacts.
Import JS Backend Settings.

(** A field of an object is the value of one of its members. *)
Lemma field_member fields key v :
  field fields key = Some v -> In v (List.map snd fields).
Proof.
  unfold field.
  assert (H : forall found,
             fold_left (fun found member =>
                          if String.eqb member.1 key then Some member.2 else found)
                       fields found = Some v ->
             found = Some v \/ In v (List.map snd fields)).
  { induction fields as [| member fields IH]; intros found Hfound; [left; exact Hfound |].
    cbn [fold_left] in Hfound. destruct (IH _ Hfound) as [Hhere | Hlater].
    - destruct (String.eqb member.1 key).
      + right. left. injection Hhere as ->. reflexivity.
      + left. exact Hhere.
    - right. right. exact Hlater. }
  intros Hv. destruct (H None Hv) as [Hnone | Hin]; [discriminate | exact Hin].
Qed.

(** One mapping throws only at the conversion of a value for a control
    that is not a checkbox. *)
Lemma apply_mapping_throws fields elementId settingKey st e :
  (apply_mapping (JObj fields) (elementId, settingKey) st).2 = Some e ->
  exists v element,
    field fields settingKey = Some v /\ controls st !! elementId = Some element
    /\ type element <> "checkbox" /\ to_string_throws v = true /\ e = TypeError.
Proof.
  unfold apply_mapping.
  destruct (controls st !! elementId) as [element |]; [| discriminate].
  cbn [get]. destruct (field fields settingKey) as [v |]; [| discriminate].
  destruct (String.eqb (type element) "checkbox") eqn:Htype; cbn [negb andb];
    [discriminate |].
  destruct (to_string_throws v) eqn:Hthrows; [| discriminate].
  intros [= <-]. exists v, element. apply String.eqb_neq in Htype.
  repeat split; assumption || reflexivity.
Qed.

Lemma apply_mapping_converts fields elementId settingKey st :
  (forall v, field fields settingKey = Some v -> to_string_throws v = false) ->
  (apply_mapping (JObj fields) (elementId, settingKey) st).2 = None.
Proof.
  intros Hconverts.
  destruct (apply_mapping (JObj fields) (elementId, settingKey) st).2 as [e |] eqn:He;
    [| reflexivity].
  destruct (apply_mapping_throws _ _ _ _ _ He) as (v & element & Hv & _ & _ & Hthrows & _).
  rewrite (Hconverts v Hv) in Hthrows. discriminate.
Qed.

(** One mapping leaves every other control alone, and its own control too
    when its key is missing. *)
Lemma apply_mapping_frame fields elementId settingKey st id :
  (id <> elementId \/ field fields settingKey = None) ->
  controls (apply_mapping (JObj fields) (elementId, settingKey) st).1 !! id
  = controls st !! id.
Proof.
  intros H. unfold apply_mapping.
  destruct (controls st !! elementId) as [element |]; [| reflexivity].
  cbn [get]. destruct (field fields settingKey) as [v |] eqn:Hv; [| reflexivity].
  destruct (negb (String.eqb (type element) "checkbox") && to_string_throws v);
    [reflexivity |].
  destruct H as [Hne | Hnone]; [| discriminate].
  cbn [fst controls]. rewrite lookup_insert_ne by congruence. reflexivity.
Qed.

Lemma apply_mapping_page fields mapping st :
  data_theme (apply_mapping (JObj fields) mapping st).1 = data_theme st
  /\ theme_radio (apply_mapping (JObj fields) mapping st).1 = theme_radio st.
Proof.
  unfold apply_mapping. destruct mapping as [elementId settingKey].
  destruct (controls st !! elementId) as [element |]; [| split; reflexivity].
  cbn [get]. destruct (field fields settingKey) as [v |]; [| split; reflexivity].
  destruct (negb (String.eqb (type element) "checkbox") && to_string_throws v);
    split; reflexivity.
Qed.

(** A mapping changes no [type], and neither adds nor removes a control. *)
Lemma apply_mapping_type fields mapping st id :
  type <$> controls (apply_mapping (JObj fields) mapping st).1 !! id
  = type <$> controls st !! id.
Proof.
  unfold apply_mapping. destruct mapping as [elementId settingKey].
  destruct (controls st !! elementId) as [element |] eqn:Helement; [| reflexivity].
  cbn [get]. destruct (field fields settingKey) as [v |]; [| reflexivity].
  destruct (negb (String.eqb (type element) "checkbox") && to_string_throws v);
    [reflexivity |].
  cbn [fst controls]. destruct (decide (id = elementId)) as [-> | Hne].
  - rewrite lookup_insert_eq, Helement. cbn [fmap option_fmap option_map].
    destruct (String.eqb (type element) "checkbox"); reflexivity.
  - rewrite lookup_insert_ne by congruence. reflexivity.
Qed.

(** The loop changes a control only through a mapping whose key is
    present, also when it is cut short. *)
Lemma apply_mappings_frame fields ms :
  forall st id,
    (forall key, (id, key) ∈ ms -> field fields key = None) ->
    controls (apply_mappings (JObj fields) ms st).1 !! id = controls st !! id.
Proof.
  induction ms as [| [elementId settingKey] ms IH]; intros st id Hmissing;
    [reflexivity |].
  cbn [apply_mappings].
  assert (Hhere : id <> elementId \/ field fields settingKey = None).
  { destruct (decide (id = elementId)) as [-> | Hne];
      [right; apply Hmissing; left | left; exact Hne]. }
  pose proof (apply_mapping_frame fields elementId settingKey st id Hhere) as Hframe.
  destruct (apply_mapping (JObj fields) (elementId, settingKey) st)
    as [st' [e |]]; cbn [fst] in *; [exact Hframe |].
  rewrite IH; [exact Hframe |].
  intros key Hkey. apply Hmissing. right. exact Hkey.
Qed.

Lemma apply_mappings_changed fields ms :
  forall st id,
    controls (apply_mappings (JObj fields) ms st).1 !! id <> controls st !! id ->
    exists key, (id, key) ∈ ms /\ is_Some (field fields key).
Proof.
  induction ms as [| [elementId settingKey] ms IH]; intros st id Hchanged;
    [exfalso; apply Hchanged; reflexivity |].
  cbn [apply_mappings] in Hchanged.
  destruct (decide (id = elementId /\ is_Some (field fields settingKey)))
    as [[-> Hsome] | Hnot].
  - exists settingKey. split; [left | exact Hsome].
  - assert (Hhere : id <> elementId \/ field fields settingKey = None).
    { destruct (decide (id = elementId)) as [-> | Hne]; [right | left; exact Hne].
      destruct (field fields settingKey) as [v |]; [| reflexivity].
      exfalso. apply Hnot. split; [reflexivity | eauto]. }
    pose proof (apply_mapping_frame fields elementId settingKey st id Hhere) as Hframe.
    destruct (apply_mapping (JObj fields) (elementId, settingKey) st)
      as [st' [e |]]; cbn [fst] in *.
    + exfalso. apply Hchanged. exact Hframe.
    + destruct (IH st' id) as [key [Hkey Hsome]].
      * rewrite Hframe. exact Hchanged.
      * exists key. split; [right; exact Hkey | exact Hsome].
Qed.

Lemma apply_mappings_page fields ms :
  forall st,
    data_theme (apply_mappings (JObj fields) ms st).1 = data_theme st
    /\ theme_radio (apply_mappings (JObj fields) ms st).1 = theme_radio st.
Proof.
  induction ms as [| m ms IH]; intros st; [split; reflexivity |].
  cbn [apply_mappings].
  pose proof (apply_mapping_page fields m st) as [Htheme Hradio].
  destruct (apply_mapping (JObj fields) m st) as [st' [e |]]; cbn [fst] in *;
    [split; assumption |].
  destruct (IH st') as [Htheme' Hradio']. split; congruence.
Qed.

(** The loop throws only at the conversion of a value that is present,
    for a control of the page that is not a checkbox. *)
Lemma apply_mappings_throws fields ms :
  forall st e,
    (apply_mappings (JObj fields) ms st).2 = Some e ->
    exists id key v element,
      (id, key) ∈ ms /\ field fields key = Some v
      /\ controls st !! id = Some element /\ type element <> "checkbox"
      /\ to_string_throws v = true /\ e = TypeError.
Proof.
  induction ms as [| [elementId settingKey] ms IH]; intros st e He; [discriminate |].
  cbn [apply_mappings] in He.
  pose proof (apply_mapping_throws fields elementId settingKey st) as Hthrows.
  pose proof (apply_mapping_type fields (elementId, settingKey) st) as Htype.
  destruct (apply_mapping (JObj fields) (elementId, settingKey) st)
    as [st' [e' |]]; cbn [fst snd] in *.
  - injection He as ->.
    destruct (Hthrows e eq_refl) as (v & element & Hv & Helement & Hbox & Hv' & ->).
    exists elementId, settingKey, v, element.
    split; [left |]. repeat split; assumption.
  - destruct (IH st' e He) as (id & key & v & element' & Hin & Hv & Helement & Hbox & Hv' & ->).
    specialize (Htype id). rewrite Helement in Htype.
    destruct (controls st !! id) as [element |] eqn:Hst; [| discriminate].
    injection Htype as Htype.
    exists id, key, v, element. split; [right; exact Hin |].
    repeat split; try assumption. rewrite <- Htype. exact Hbox.
Qed.

Lemma apply_mappings_converts fields ms :
  (forall id key v, (id, key) ∈ ms -> field fields key = Some v ->
                    to_string_throws v = false) ->
  forall st, (apply_mappings (JObj fields) ms st).2 = None.
Proof.
  intros Hconverts st.
  destruct (apply_mappings (JObj fields) ms st).2 as [e |] eqn:He; [| reflexivity].
  destruct (apply_mappings_throws _ _ _ _ He)
    as (id & key & v & element & Hin & Hv & _ & _ & Hthrows & _).
  rewrite (Hconverts id key v Hin Hv) in Hthrows. discriminate.
Qed.

Section Host.

Variable query_theme_radio : Json -> Completion (option string).

Abbreviation apply_theme := (Settings.apply_theme query_theme_radio).
Abbreviation applySettings := (Settings.applySettings query_theme_radio).

Lemma apply_theme_controls settings st :
  controls (apply_theme settings st).1 = controls st.
Proof.
  unfold Settings.apply_theme.
  destruct (get settings "theme") as [[t |] | e]; try reflexivity.
  destruct (json_truthy t); [| reflexivity].
  destruct (to_string_throws t); [reflexivity |].
  destruct (query_theme_radio t) as [[radio |] | e]; reflexivity.
Qed.

(** The theme statement throws only for a theme that is present and
    truthy: at its conversion to a string, or at the lookup of its radio
    button. *)
Lemma apply_theme_throws fields st e :
  (apply_theme (JObj fields) st).2 = Some e ->
  exists theme,
    field fields "theme" = Some theme /\ json_truthy theme = true
    /\ ((to_string_throws theme = true /\ e = TypeError)
        \/ (to_string_throws theme = false /\ query_theme_radio theme = Throw e)).
Proof.
  unfold Settings.apply_theme. cbn [get].
  destruct (field fields "theme") as [theme |]; [| discriminate].
  destruct (json_truthy theme) eqn:Htruthy; [| discriminate].
  destruct (to_string_throws theme) eqn:Hthrows.
  - intros [= <-]. exists theme. split; [reflexivity |]. split; [exact Htruthy |].
    left. split; [exact Hthrows | reflexivity].
  - destruct (query_theme_radio theme) as [[radio |] | e'] eqn:Hquery; try discriminate.
    intros [= <-]. exists theme. split; [reflexivity |]. split; [exact Htruthy |].
    right. split; [exact Hthrows | exact Hquery].
Qed.

(** C8 (amended). Applying an imported settings object leaves every
    control whose key is missing from the object exactly as it was, whether
    or not the operation completes, and leaves the theme alone when the
    theme key is missing; a control changes only when its key is present.
    The operation can throw, but never because a key is missing: it throws
    only at a theme that is present and truthy (when the theme cannot be
    converted to a string, or when the lookup of its radio button throws)
    or at a value that is present, meant for a control of the page that is
    not a checkbox, and cannot be converted to a string.  So it completes
    when the theme key is missing and every value present converts to a
    string, as every string, number, boolean and [null] does. *)
Theorem missing_keys_leave_controls_alone
    (fields : list (string * Json)) (st : State) :
  (forall id key, (id, key) ∈ mappings -> field fields key = None ->
                  controls (applySettings (JObj fields) st).1 !! id = controls st !! id)
  /\ (field fields "theme" = None ->
      data_theme (applySettings (JObj fields) st).1 = data_theme st
      /\ theme_radio (applySettings (JObj fields) st).1 = theme_radio st)
  /\ (forall id,
        controls (applySettings (JObj fields) st).1 !! id <> controls st !! id ->
        exists key, (id, key) ∈ mappings /\ is_Some (field fields key))
  /\ (forall e,
        (applySettings (JObj fields) st).2 = Some e ->
        (exists theme,
            field fields "theme" = Some theme /\ json_truthy theme = true
            /\ ((to_string_throws theme = true /\ e = TypeError)
                \/ (to_string_throws theme = false
                    /\ query_theme_radio theme = Throw e)))
        \/ (exists id key v element,
               (id, key) ∈ mappings /\ field fields key = Some v
               /\ controls st !! id = Some element /\ type element <> "checkbox"
               /\ to_string_throws v = true /\ e = TypeError))
  /\ (field fields "theme" = None ->
      (forall id key v, (id, key) ∈ mappings -> field fields key = Some v ->
                        to_string_throws v = false) ->
      (applySettings (JObj fields) st).2 = None).
Proof.
  assert (Hthrows : forall e,
             (applySettings (JObj fields) st).2 = Some e ->
             (exists theme,
                 field fields "theme" = Some theme /\ json_truthy theme = true
                 /\ ((to_string_throws theme = true /\ e = TypeError)
                     \/ (to_string_throws theme = false
                         /\ query_theme_radio theme = Throw e)))
             \/ (exists id key v element,
                    (id, key) ∈ mappings /\ field fields key = Some v
                    /\ controls st !! id = Some element /\ type element <> "checkbox"
                    /\ to_string_throws v = true /\ e = TypeError)).
  { intros e He. unfold Settings.applySettings in He.
    pose proof (apply_theme_throws fields st) as Htheme.
    pose proof (apply_theme_controls (JObj fields) st) as Hcontrols.
    destruct (apply_theme (JObj fields) st) as [st1 [e1 |]]; cbn [fst snd] in *.
    - injection He as ->. left. apply Htheme. reflexivity.
    - right. destruct (apply_mappings_throws _ _ _ _ He)
        as (id & key & v & element & Hin & Hv & Helement & Hrest).
      exists id, key, v, element. rewrite <- Hcontrols.
      repeat split; try assumption; apply Hrest. }
  split; [| split; [| split; [| split]]].
  - intros id key Hin Hmissing. unfold Settings.applySettings.
    pose proof (apply_theme_controls (JObj fields) st) as Hcontrols.
    destruct (apply_theme (JObj fields) st) as [st1 [e |]]; cbn [fst snd] in *;
      [rewrite Hcontrols; reflexivity |].
    rewrite apply_mappings_frame, Hcontrols; [reflexivity |].
    intros key' Hin'.
    assert (key' = key) as ->; [| exact Hmissing].
    clear -Hin Hin'. unfold mappings in *.
    rewrite !elem_of_cons, elem_of_nil in Hin, Hin'.
    repeat (destruct Hin as [Hin | Hin]; [injection Hin as -> -> |]);
      try contradiction;
      repeat (destruct Hin' as [Hin' | Hin']; [congruence |]); contradiction.
  - intros Htheme. unfold Settings.applySettings, Settings.apply_theme.
    cbn [get]. rewrite Htheme.
    exact (apply_mappings_page fields mappings st).
  - intros id Hchanged. unfold Settings.applySettings in Hchanged.
    pose proof (apply_theme_controls (JObj fields) st) as Hcontrols.
    destruct (apply_theme (JObj fields) st) as [st1 [e |]]; cbn [fst snd] in *;
      [exfalso; apply Hchanged; rewrite Hcontrols; reflexivity |].
    apply (apply_mappings_changed fields mappings st1 id).
    rewrite Hcontrols. exact Hchanged.
  - exact Hthrows.
  - intros Htheme Hconverts.
    destruct (applySettings (JObj fields) st).2 as [e |]; [| reflexivity].
    destruct (Hthrows e eq_refl) as [(theme & Hpresent & _) | Hvalue].
    + rewrite Htheme in Hpresent. discriminate.
    + destruct Hvalue as (id & key & v & element & Hin & Hv & _ & _ & Hv' & _).
      rewrite (Hconverts id key v Hin Hv) in Hv'. discriminate.
Qed.

End Host.

(** An import that only brings the language: the language control takes it,
    the sounds control, the theme attribute and the checked radio button
    stay, nothing is thrown. *)
Example import_of_the_language_only :
  Settings.applySettings page_query_theme_radio (JObj [("language", JStr "en")])
                         settings_page
  = ({| controls :=
          <["language-select" := {| type := "select-one"; value := JStr "en";
                                    checked := JBool false |}]>
            (controls settings_page);
        data_theme := Some (JStr "dark");
        theme_radio := Some "dark" |}, None).
Proof. vm_compute. reflexivity. Qed.

(** An import whose language is an object with a member [toString]: the
    select cannot take it, the import throws and changes nothing; the
    same object for the sounds, a checkbox, is taken as [true]. *)
Example import_of_an_unprintable_value :
  Settings.applySettings page_query_theme_radio (JObj [("language", unprintable)])
                         settings_page
  = (settings_page, Some TypeError)
  /\ Settings.applySettings page_query_theme_radio (JObj [("sounds", unprintable)])
                            settings_page
     = ({| controls :=
             <["sounds-toggle" := {| type := "checkbox"; value := JStr "on";
                                     checked := unprintable |}]>
               (controls settings_page);
           data_theme := Some (JStr "dark");
           theme_radio := Some "dark" |}, None).
Proof. split; vm_compute; reflexivity. Qed.

Lemma missing_keys_leave_controls_alone_witness :
  controls (Settings.applySettings page_query_theme_radio
              (JObj [("language", JStr "en")]) settings_page).1 !! "sounds-toggle"
  = controls settings_page !! "sounds-toggle"
  /\ (Settings.applySettings page_query_theme_radio
        (JObj [("language", JStr "en")]) settings_page).2 = None.
Proof.
  destruct (missing_keys_leave_controls_alone page_query_theme_radio
              [("language", JStr "en")] settings_page)
    as [Hframe [_ [_ [_ Hcompletes]]]].
  split.
  - apply (Hframe "sounds-toggle" "sounds"); [| reflexivity].
    unfold mappings. rewrite !elem_of_cons. right; right; left; reflexivity.
  - apply Hcompletes; [reflexivity |].
    intros id key v _ Hv. apply field_member in Hv.
    destruct Hv as [<- | []]. reflexivity.
Defined.

(** C8, as stated, fails: the object whose only member is the theme
    [unbalanced_theme] misses every mapped key, and the import throws, at
    the lookup of the theme radio button, after it has set the theme
    attribute. *)
Lemma import_with_unbalanced_theme_throws :
  (forall id key, (id, key) ∈ mappings ->
                  field [("theme", JStr unbalanced_theme)] key = None)
  /\ Settings.applySettings page_query_theme_radio
       (JObj [("theme", JStr unbalanced_theme)]) settings_page
     = ({| controls := controls settings_page;
           data_theme := Some (JStr unbalanced_theme);
           theme_radio := Some "dark" |}, Some SyntaxError).
Proof.
  split; [| vm_compute; reflexivity].
  intros id key. unfold mappings. rewrite !elem_of_cons, elem_of_nil.
  intros H. repeat (destruct H as [H | H]; [injection H as -> ->; reflexivity |]).
  contradiction.
Qed.

End SettingsFacts.

(** ** The responsive helpers *)

Module ResponsiveFacts.
Import Responsive.

Lemma getCurrentBreakpoint_cases (width : Z) :
  (width < 768 /\ getCurrentBreakpoint width = "xs")%Z
  \/ (768 <= width < 992 /\ getCurrentBreakpoint width = "sm")%Z
  \/ (992 <= width < 1200 /\ getCurrentBreakpoint width = "md")%Z
  \/ (1200 <= width < 1400 /\ getCurrentBreakpoint width = "lg")%Z
  \/ (1400 <= width /\ getCurrentBreakpoint width = "xl")%Z.
Proof.
  unfold getCurrentBreakpoint, breakpoints. cbn [rev app List.find fst snd].
  destruct (Z.leb_spec 1400 width); [right; right; right; right; split; [lia | reflexivity] |].
  destruct (Z.leb_spec 1200 width); [right; right; right; left; split; [lia | reflexivity] |].
  destruct (Z.leb_spec 992 width); [right; right; left; split; [lia | reflexivity] |].
  destruct (Z.leb_spec 768 width); [right; left; split; [lia | reflexivity] |].
  left. split; [lia |]. destruct (Z.leb_spec 576 width); reflexivity.
Qed.

(** X1. [getCurrentBreakpoint] names the largest breakpoint whose minimum
    width the window has reached; a window narrower than every minimum is
    [xs] as well, so that [xs] is the answer exactly below 768 pixels. *)
Theorem getCurrentBreakpoint_is_the_largest_reached (width : Z) :
  exists minWidth : Z,
    (getCurrentBreakpoint width, minWidth) ∈ breakpoints
    /\ (576 <= width -> minWidth <= width)%Z
    /\ (forall name' min',
          (name', min') ∈ breakpoints -> (min' <= width)%Z -> (min' <= minWidth)%Z)
    /\ (getCurrentBreakpoint width = "xs" <-> (width < 768)%Z).
Proof.
  unfold breakpoints.
  destruct (getCurrentBreakpoint_cases width)
    as [[Hw ->] | [[Hw ->] | [[Hw ->] | [[Hw ->] | [Hw ->]]]]];
    [exists 576%Z | exists 768%Z | exists 992%Z | exists 1200%Z | exists 1400%Z];
    (split; [repeat (first [left | right]) |
     split; [lia |
     split; [intros name' min'; rewrite !elem_of_cons, elem_of_nil;
             intros [H | [H | [H | [H | [H | []]]]]]; injection H as _ ->; lia |
             split; [intros H; first [lia | discriminate H] |
                     intros H; first [reflexivity | lia]]]]]).
Qed.

(** X2. [isMobile] answers [false] at every window width: the operator
    [in] looks the breakpoint name up among the property names of the
    array ['xs', 'sm'], which are its indices, not its elements. *)
Theorem isMobile_is_never_true (width : Z) : isMobile width = false.
Proof.
  unfold isMobile.
  destruct (getCurrentBreakpoint_cases width)
    as [[_ ->] | [[_ ->] | [[_ ->] | [[_ ->] | [_ ->]]]]]; vm_compute; reflexivity.
Qed.

End ResponsiveFacts.

(** ** The theme switches *)

Module ThemeFacts.
Import JS Backend Theme.

Lemma other_theme_cases (t : option string) :
  other_theme t = "dark" \/ other_theme t = "light".
Proof.
  destruct t as [t |]; [| left; reflexivity].
  simpl. destruct (String.eqb t "dark"); [right | left]; reflexivity.
Qed.

Lemma toggleTheme_v1_switched (st : State) :
  data_theme (toggleTheme_v1 st).1 = Some (other_theme (data_theme st))
  /\ storage (toggleTheme_v1 st).1 !! "dashboard-theme"
     = Some (other_theme (data_theme st)).
Proof.
  unfold toggleTheme_v1, showToast_v1, switch_to.
  cbn [theme_icon toast_container].
  destruct (theme_icon st), (toast_container st); cbn;
    (split; [reflexivity | apply lookup_insert_eq]).
Qed.

(** X3. [themeManager.toggle] always ends on [dark] or [light], with the
    attribute and the stored item equal to [themeManager.current]; started
    on one of the two themes, a second toggle is back where [apply] leaves
    the first state. *)
Theorem themeManager_toggle_alternates (st : State) :
  let st1 := themeManager_toggle st in
  (current st1 = "dark" \/ current st1 = "light")
  /\ data_theme st1 = Some (current st1)
  /\ storage st1 !! "dashboard-theme" = Some (current st1)
  /\ (current st = "dark" \/ current st = "light" ->
      themeManager_toggle st1 = themeManager_apply st).
Proof.
  cbn zeta. unfold themeManager_toggle, themeManager_apply, with_current.
  cbn [current data_theme storage theme_icon toast_container toasts].
  split; [destruct (String.eqb (current st) "dark"); [right | left]; reflexivity |].
  split; [reflexivity |].
  split; [apply lookup_insert_eq |].
  intros [H | H]; rewrite H; cbn; rewrite insert_insert_eq; reflexivity.
Qed.

(** X4. The theme a switch leaves is the one every start-up routine
    restores after a reload: [themeManager.toggle] and [toggleTheme] store
    it under the key that [themeManager.init] and both [initializeTheme]
    read; with nothing stored they all apply [dark]. *)
Theorem stored_theme_is_restored (served st : State) :
  (forall after,
      after = themeManager_toggle st \/ after = toggleTheme st
      \/ after = (toggleTheme_v1 st).1 ->
      data_theme (themeManager_init (reloaded served after)) = data_theme after
      /\ data_theme (initializeTheme_v1 (reloaded served after)) = data_theme after
      /\ data_theme (initializeTheme (reloaded served after)) = data_theme after)
  /\ (storage st !! "dashboard-theme" = None ->
      data_theme (themeManager_init (reloaded served st)) = Some "dark"
      /\ data_theme (initializeTheme_v1 (reloaded served st)) = Some "dark"
      /\ data_theme (initializeTheme (reloaded served st)) = Some "dark").
Proof.
  split.
  - assert (Hread : forall after theme,
               (theme = "dark" \/ theme = "light") ->
               data_theme after = Some theme ->
               storage after !! "dashboard-theme" = Some theme ->
               data_theme (themeManager_init (reloaded served after)) = data_theme after
               /\ data_theme (initializeTheme_v1 (reloaded served after)) = data_theme after
               /\ data_theme (initializeTheme (reloaded served after)) = data_theme after).
    { intros after theme Htheme Hattr Hstored.
      unfold themeManager_init, initializeTheme_v1, initializeTheme, reloaded.
      cbn [current data_theme storage theme_icon toast_container toasts].
      rewrite Hstored, Hattr. cbn [value_or].
      destruct Htheme as [-> | ->]; cbn; repeat split; reflexivity. }
    intros after [-> | [-> | ->]].
    + apply (Hread _ (if String.eqb (current st) "dark" then "light" else "dark")).
      * destruct (String.eqb (current st) "dark"); [right | left]; reflexivity.
      * reflexivity.
      * apply lookup_insert_eq.
    + apply (Hread _ (other_theme (data_theme st))).
      * apply other_theme_cases.
      * reflexivity.
      * apply lookup_insert_eq.
    + apply (Hread _ (other_theme (data_theme st))).
      * apply other_theme_cases.
      * apply toggleTheme_v1_switched.
      * apply toggleTheme_v1_switched.
  - intros Hnone.
    unfold themeManager_init, initializeTheme_v1, initializeTheme, reloaded.
    cbn [current data_theme storage theme_icon toast_container toasts].
    rewrite Hnone. repeat split; reflexivity.
Qed.

(** X5. [toggleTheme] of 1.0.0 switches the attribute and stores the new
    theme whether or not it completes; it completes exactly when the page
    has the theme icon and the toast container, and then the icon shows
    the new theme and one toast was added.  Without the icon it throws
    before its toast. *)
Theorem toggleTheme_v1_switches_then_may_throw (st : State) :
  let newTheme := other_theme (data_theme st) in
  let run := toggleTheme_v1 st in
  data_theme run.1 = Some newTheme
  /\ storage run.1 !! "dashboard-theme" = Some newTheme
  /\ (run.2 = None <-> is_Some (theme_icon st) /\ toast_container st = true)
  /\ (run.2 = None ->
      theme_icon run.1 = Some (icon_class newTheme)
      /\ exists message, toasts run.1 = toasts st ++ [message])
  /\ (theme_icon st = None -> run.2 = Some TypeError /\ toasts run.1 = toasts st).
Proof.
  cbn zeta. unfold toggleTheme_v1, showToast_v1, switch_to.
  cbn [theme_icon toast_container].
  destruct (theme_icon st) as [icon |], (toast_container st); cbn;
    (split; [reflexivity |]); (split; [apply lookup_insert_eq |]);
    (split; [split; [intros H; first [discriminate H | split; [eauto | reflexivity]]
                    | intros [[? H] H']; first [reflexivity | discriminate]] |]);
    (split; [intros H; first [discriminate H | split; [reflexivity | eauto]] |]);
    intros H; first [discriminate H | split; reflexivity].
Qed.

End ThemeFacts.

(** ** [debounce] and [throttle] *)

Module TimersFacts.
Import Timers.

Section Closures.

Variable Args : Type.

Lemma clearTimeout_tidy (st : Debounced Args) :
  tidy st -> clearTimeout (timeout st) (pending st) = [].
Proof.
  intros [Hnone | [h [args [Ht Hp]]]].
  - rewrite Hnone. destruct (timeout st); reflexivity.
  - rewrite Ht, Hp. simpl. rewrite Nat.eqb_refl. reflexivity.
Qed.

Lemma debounce_v1_step_tidy (st : Debounced Args) ev :
  tidy st -> tidy (debounce_v1_step st ev).
Proof.
  intros Htidy. destruct ev as [args | handle]; simpl.
  - right. exists (next_handle st), args.
    rewrite (clearTimeout_tidy st Htidy). split; reflexivity.
  - destruct (callback handle (pending st)) as [args |] eqn:Hcb; [| exact Htidy].
    left. simpl. destruct Htidy as [Hnone | [h [args' [Ht Hp]]]].
    + rewrite Hnone. destruct (timeout st); reflexivity.
    + rewrite Ht, Hp. simpl.
      destruct (Nat.eqb_spec h handle); simpl; [reflexivity |].
      rewrite Nat.eqb_refl. reflexivity.
Qed.

Lemma debounce_v1_run_tidy events :
  forall st : Debounced Args, tidy st -> tidy (debounce_v1_run events st).
Proof.
  induction events as [| ev events IH]; intros st Htidy; [exact Htidy |].
  apply IH, debounce_v1_step_tidy, Htidy.
Qed.

Lemma debounced_tidy first : tidy (debounced (Args := Args) first).
Proof. left. reflexivity. Qed.

(** On a tidy closure the two versions take the same step. *)
Lemma debounce_steps_agree (st : Debounced Args) ev :
  tidy st -> debounce_step st ev = debounce_v1_step st ev.
Proof.
  intros Htidy. destruct ev as [args | handle]; [reflexivity |]. simpl.
  destruct (callback handle (pending st)) as [args |] eqn:Hcb; [| reflexivity].
  f_equal. destruct Htidy as [Hnone | [h [args' [Ht Hp]]]].
  - rewrite Hnone. destruct (timeout st); reflexivity.
  - rewrite Ht, Hp. unfold callback in Hcb. rewrite Hp in Hcb. simpl in *.
    destruct (Nat.eqb_spec h handle) as [-> | Hne]; [| discriminate].
    simpl. reflexivity.
Qed.

(** A burst of calls leaves one timer, for the last call. *)
Lemma debounce_v1_burst burst :
  forall (st : Debounced Args) last,
    tidy st ->
    let st' := debounce_v1_run (List.map Call (burst ++ [last])) st in
    invoked st' = invoked st
    /\ timeout st' = Some (next_handle st + length burst)
    /\ pending st' = [(next_handle st + length burst, last)]
    /\ next_handle st' = S (next_handle st + length burst).
Proof.
  induction burst as [| first burst IH]; intros st last Htidy.
  - simpl. rewrite (clearTimeout_tidy st Htidy), Nat.add_0_r. repeat split.
  - cbn zeta. cbn [app List.map debounce_v1_run fold_left].
    pose proof (debounce_v1_step_tidy st (Call first) Htidy) as Htidy'.
    destruct (IH (debounce_v1_step st (Call first)) last Htidy')
      as [Hinv [Ht [Hp Hn]]].
    unfold debounce_v1_run in *. rewrite Hinv, Ht, Hp, Hn. simpl.
    rewrite <- Nat.add_succ_r. repeat split.
Qed.

(** X6. A debounced function never calls [func] when it is called itself;
    a burst of calls leaves exactly one timer, and when the host runs it
    [func] is called once, with the arguments of the last call of the
    burst.  The timers of the earlier calls are gone: nothing happens
    when their handles expire. *)
Theorem debounce_fires_once_with_the_last_arguments
    (first : nat) (history : list (Event Args)) (burst : list Args) (last : Args) :
  let st := debounce_v1_run history (debounced first) in
  let st' := debounce_v1_run (List.map Call (burst ++ [last])) st in
  let handle := next_handle st + length burst in
  invoked st' = invoked st
  /\ pending st' = [(handle, last)]
  /\ invoked (debounce_v1_step st' (Expire handle)) = invoked st ++ [last]
  /\ pending (debounce_v1_step st' (Expire handle)) = []
  /\ (forall other, other <> handle -> debounce_v1_step st' (Expire other) = st').
Proof.
  cbn zeta.
  pose proof (debounce_v1_run_tidy history _ (debounced_tidy first)) as Htidy.
  destruct (debounce_v1_burst burst _ last Htidy) as [Hinv [Ht [Hp Hn]]].
  split; [exact Hinv |]. split; [exact Hp |].
  unfold debounce_v1_step, callback. rewrite Hp, Ht, Hinv. simpl.
  rewrite Nat.eqb_refl. simpl.
  split; [reflexivity |]. split; [reflexivity |].
  intros other Hother. destruct (Nat.eqb_spec (next_handle
    (debounce_v1_run history (debounced first)) + length burst) other);
    [congruence | reflexivity].
Qed.

(** X7. The two versions of [debounce] in the sources behave alike: on
    every course of calls and expiring timers the closure of 1.1.0, whose
    timer callback does not clear [timeout], is in the same state as the
    one of 1.0.0 and [performanceUtils], and has called [func] with the
    same arguments in the same order. *)
Theorem debounce_versions_agree (first : nat) (events : list (Event Args)) :
  debounce_run events (debounced first) = debounce_v1_run events (debounced first).
Proof.
  assert (H : forall st : Debounced Args,
             tidy st -> debounce_run events st = debounce_v1_run events st).
  { induction events as [| ev events IH]; intros st Htidy; [reflexivity |].
    simpl. rewrite (debounce_steps_agree st ev Htidy).
    apply IH, debounce_v1_step_tidy, Htidy. }
  apply H, debounced_tidy.
Qed.

Variable throws : Args -> bool.

Lemma throttle_step_paused (st : Throttled Args) ev :
  paused st -> paused (throttle_step throws st ev).
Proof.
  intros Hp. destruct ev as [args | handle]; simpl.
  - destruct Hp as [[Hoff Hnone] | [Hon Hsome]].
    + rewrite Hoff. destruct (throws args); simpl.
      * left. split; [reflexivity | exact Hnone].
      * right. split; [reflexivity |]. rewrite Hnone. eauto.
    + rewrite Hon. right. split; assumption.
  - destruct Hp as [[Hoff Hnone] | [Hon [h Hsome]]].
    + rewrite Hnone. simpl. left. split; assumption.
    + rewrite Hsome. simpl. destruct (Nat.eqb_spec handle h) as [-> | Hne]; simpl.
      * left. rewrite Nat.eqb_refl. split; reflexivity.
      * right. split; [exact Hon |]. rewrite Hsome. eauto.
Qed.

Lemma throttle_run_paused events :
  forall st : Throttled Args, paused st -> paused (throttle_run throws events st).
Proof.
  induction events as [| ev events IH]; intros st Hp; [exact Hp |].
  apply IH, throttle_step_paused, Hp.
Qed.

Lemma throttle_drops_while_paused burst :
  forall st : Throttled Args,
    inThrottle st = true ->
    throttle_run throws (List.map Call burst) st = st.
Proof.
  induction burst as [| args burst IH]; intros st Hon; [reflexivity |].
  simpl. rewrite Hon. apply IH, Hon.
Qed.

(** X8. After a call that went through, a throttled function drops every
    call until its timer expires, and the dropped calls are not made up
    for afterwards: when the pause ends [func] has been called once, with
    the arguments of the first call. *)
Theorem throttle_drops_the_calls_of_a_pause
    (first : nat) (history : list (Event Args)) (args : Args) (burst : list Args) :
  let st := throttle_run throws history (throttled first) in
  inThrottle st = false ->
  throws args = false ->
  let st' := throttle_run throws (Call args :: List.map Call burst) st in
  let st'' := throttle_step throws st' (Expire (next_reset st)) in
  passed st' = passed st ++ [args]
  /\ inThrottle st' = true
  /\ passed st'' = passed st ++ [args]
  /\ inThrottle st'' = false
  /\ resets st'' = [].
Proof.
  cbn zeta. intros Hoff Hreturns.
  pose proof (throttle_run_paused history (throttled first)
                (or_introl (conj eq_refl eq_refl))) as Hp.
  destruct Hp as [[_ Hnone] | [Hon _]]; [| congruence].
  cbn [throttle_run fold_left List.map]. cbn [throttle_step].
  rewrite Hoff, Hreturns, Hnone.
  change (fold_left (throttle_step throws) ?l ?s) with (throttle_run throws l s).
  rewrite throttle_drops_while_paused by reflexivity.
  simpl. rewrite !Nat.eqb_refl. simpl. rewrite ?Nat.eqb_refl. repeat split.
Qed.

End Closures.

(** Three calls in a row on a fresh throttled function, then its timer. *)
Lemma throttle_drops_the_calls_of_a_pause_witness :
  let st := throttle_run (fun _ : string => false) [] (throttled 7) in
  let st' := throttle_run (fun _ => false) [Call "a"; Call "b"; Call "c"] st in
  passed st' = ["a"]
  /\ inThrottle st' = true
  /\ passed (throttle_step (fun _ => false) st' (Expire 7)) = ["a"]
  /\ inThrottle (throttle_step (fun _ => false) st' (Expire 7)) = false
  /\ resets (throttle_step (fun _ => false) st' (Expire 7)) = [].
Proof.
  exact (throttle_drops_the_calls_of_a_pause string (fun _ => false) 7 [] "a" ["b"; "c"]
           eq_refl eq_refl).
Defined.

End TimersFacts.

(** ** The connection rating *)

Module ConnectionFacts.
Import Connection NumberOrder.
Local Open Scope float_scope.




End ConnectionFacts.

(** ** The statistics panel of the map *)

Module MapStatsFacts.
Import JS Backend MapStats.

Section Host.

Variable Number_toString : float -> string.
Variable Dashboard_formatNumber : float -> string.

Abbreviation updateMapStatsDisplay :=
  (MapStats.updateMapStatsDisplay Number_toString Dashboard_formatNumber).
Abbreviation updateTopZones := (MapStats.updateTopZones Dashboard_formatNumber).
Abbreviation statistics_try :=
  (MapStats.statistics_try Number_toString Dashboard_formatNumber).
Abbreviation updateMapStatistics :=
  (MapStats.updateMapStatistics Number_toString Dashboard_formatNumber).
Abbreviation loadMapData :=
  (MapStats.loadMapData Number_toString Dashboard_formatNumber).
Abbreviation card := (MapStats.card Dashboard_formatNumber).

(** The panel never touches the page of the map, and the statistics
    never touch the list of zones. *)
Lemma set_text_frame id text st :
  page (set_text id text st).1 = page st
  /\ top_zones (set_text id text st).1 = top_zones st.
Proof.
  unfold set_text. destruct (texts st !! id); [| split; reflexivity].
  destruct text; split; reflexivity.
Qed.

Lemma and_then_frame (r : Run) (k : State -> Run) (st : State) :
  (page r.1 = page st /\ top_zones r.1 = top_zones st) ->
  (forall st1, page st1 = page st /\ top_zones st1 = top_zones st ->
               page (k st1).1 = page st /\ top_zones (k st1).1 = top_zones st) ->
  page (and_then r k).1 = page st /\ top_zones (and_then r k).1 = top_zones st.
Proof.
  intros Hr Hk. destruct r as [st1 [e |]]; simpl in *; [exact Hr | apply Hk, Hr].
Qed.

Lemma set_text_frame_from id text st1 st :
  page st1 = page st /\ top_zones st1 = top_zones st ->
  page (set_text id text st1).1 = page st
  /\ top_zones (set_text id text st1).1 = top_zones st.
Proof.
  intros [Hp Hz]. destruct (set_text_frame id text st1) as [-> ->].
  split; assumption.
Qed.

Lemma updateMapStatsDisplay_frame stats st :
  page (updateMapStatsDisplay stats st).1 = page st
  /\ top_zones (updateMapStatsDisplay stats st).1 = top_zones st.
Proof.
  unfold MapStats.updateMapStatsDisplay.
  destruct stats as [s |]; [| split; reflexivity].
  apply and_then_frame; [apply set_text_frame |]. intros st1 H1.
  apply and_then_frame; [apply set_text_frame_from, H1 |]. intros st2 H2.
  destruct (geographic_coverage s) as [bounds |]; [| exact H2].
  apply and_then_frame; [apply set_text_frame_from, H2 |]. intros st3 H3.
  apply and_then_frame; [apply set_text_frame_from, H3 |]. intros st4 H4.
  apply and_then_frame; [apply set_text_frame_from, H4 |]. intros st5 H5.
  apply set_text_frame_from, H5.
Qed.

Lemma updateTopZones_page zones st :
  page (updateTopZones zones st).1 = page st.
Proof.
  unfold MapStats.updateTopZones. destruct (top_zones st); reflexivity.
Qed.

Lemma statistics_try_page stats zones zones_settle_first st :
  page (statistics_try stats zones zones_settle_first st).1 = page st.
Proof.
  unfold MapStats.statistics_try.
  destruct (all_settled stats zones zones_settle_first) as [[r1 r2] | e];
    [| reflexivity].
  destruct (json r1) as [statsResult | e]; [| reflexivity].
  destruct (json r2) as [zonesResult | e]; [| reflexivity].
  assert (H1 : forall r : Run,
             page r.1 = page st ->
             page (and_then r
                     (fun st1 =>
                        match zonesResult with
                        | None => (st1, Some TypeError)
                        | Some (success, zones_data) =>
                            if success_truthy success then
                              match zones_data with
                              | None => (st1, Some TypeError)
                              | Some zs => updateTopZones zs st1
                              end
                            else (st1, None)
                        end)).1 = page st).
  { intros [st1 [e |]] Hr; simpl in *; [exact Hr |].
    destruct zonesResult as [[success zones_data] |]; [| exact Hr].
    destruct (success_truthy success); [| exact Hr].
    destruct zones_data as [zs |]; [| exact Hr].
    rewrite updateTopZones_page. exact Hr. }
  apply H1. destruct statsResult as [[success statistics] |]; [| reflexivity].
  destruct (success_truthy success); [| reflexivity].
  apply updateMapStatsDisplay_frame.
Qed.

Lemma updateMapStatistics_requests stats zones zones_settle_first st :
  Maps.requests (page (updateMapStatistics stats zones zones_settle_first st))
  = Maps.requests (page st) ++ ["/api/map/statistics"; "/api/map/zones"].
Proof.
  unfold MapStats.updateMapStatistics.
  match goal with
  | |- context [statistics_try _ _ _ ?s] =>
      pose proof (statistics_try_page stats zones zones_settle_first s) as Hpage;
      destruct (statistics_try stats zones zones_settle_first s) as [st2 [e |]]
  end; simpl in *; rewrite Hpage; simpl; rewrite <- app_assoc; reflexivity.
Qed.

(** X10. [updateTopZones] shows the first five zones of the payload at
    most, in the order of the payload and numbered from 1; it replaces
    the list, so that rendering the same payload again changes nothing;
    an empty or missing list empties it. *)
Theorem updateTopZones_lists_the_first_five
    (zones : list Zone) (shown : list Card) (st : State) :
  top_zones st = Some shown ->
  let run := updateTopZones (Some zones) st in
  run.2 = None
  /\ (exists cards,
        top_zones run.1 = Some cards
        /\ length cards = Nat.min 5 (length zones)
        /\ forall i c, cards !! i = Some c ->
                       rank c = i + 1 /\ zones !! i = Some (zone c))
  /\ updateTopZones (Some zones) run.1 = run
  /\ top_zones (updateTopZones (Some []) st).1 = Some []
  /\ top_zones (updateTopZones None st).1 = Some [].
Proof.
  intros Hshown. cbn zeta. unfold MapStats.updateTopZones. rewrite Hshown.
  cbn [fst snd top_zones page texts].
  split; [reflexivity |]. split; [| repeat split].
  exists (imap card (take 5 zones)). split; [reflexivity |].
  split; [rewrite length_imap, length_take; reflexivity |].
  intros i c Hc. rewrite list_lookup_imap in Hc.
  destruct (take 5 zones !! i) as [z |] eqn:Hz; [| discriminate].
  injection Hc as <-. split; [reflexivity |].
  apply lookup_take_Some in Hz. exact (proj1 Hz).
Qed.

(** X11. [updateMapStatistics] sends both requests at once and shows
    nothing unless both answers become documents: when either request is
    rejected or either body is not JSON, the statistics and the list of
    zones stay as they were, whatever the other answer holds, and the
    failure is logged once. *)
Theorem updateMapStatistics_needs_both_answers
    (stats : FetchOutcome Statistics) (zones : FetchOutcome (option (list Zone)))
    (zones_settle_first : bool) (st : State) :
  no_document stats \/ no_document zones ->
  let st' := updateMapStatistics stats zones zones_settle_first st in
  texts st' = texts st
  /\ top_zones st' = top_zones st
  /\ Maps.requests (page st')
     = Maps.requests (page st) ++ ["/api/map/statistics"; "/api/map/zones"]
  /\ exists error,
       Maps.console (page st')
       = Maps.console (page st) ++ [ConsoleError "Erreur statistiques carte:" error].
Proof.
  intros Hfailed. cbn zeta.
  split; [| split; [| split; [apply updateMapStatistics_requests |]]];
    unfold MapStats.updateMapStatistics, MapStats.statistics_try, no_document in *;
    destruct stats as [m1 | r1], zones as [m2 | r2]; simpl;
    try (eexists; reflexivity); try reflexivity;
    unfold json;
    try (destruct (body r1) as [i1 | | s1 p1]; simpl; try (eexists; reflexivity);
         try reflexivity);
    try (destruct (body r2) as [i2 | | s2 p2]; simpl; try (eexists; reflexivity);
         try reflexivity);
    simpl in Hfailed; tauto.
Qed.

(** X12. [updateMapStatistics] fills the panel in source order and stops
    at the first statement that throws: when the element for the total is
    not in the document, a successful statistics answer changes no text,
    and the list of zones is left alone although its own answer is good. *)
Theorem statistics_failure_blocks_the_zones
    (s : Statistics) (zs : list Zone) (zones_settle_first : bool) (st : State) :
  texts st !! "map-total-buildings" = None ->
  let st' := updateMapStatistics (answers s) (answers (Some zs)) zones_settle_first st in
  texts st' = texts st
  /\ top_zones st' = top_zones st
  /\ Maps.console (page st')
     = Maps.console (page st) ++ [ConsoleError "Erreur statistiques carte:" TypeError].
Proof.
  intros Hmissing. cbn zeta.
  unfold MapStats.updateMapStatistics, MapStats.statistics_try, answers. simpl.
  unfold set_text. cbn [texts with_page]. rewrite Hmissing. simpl.
  repeat split.
Qed.

(** X13. [loadMapData] does nothing on a page without a map; with a map
    it sends three requests, for the buildings first and then for the
    statistics and the zones, whatever the first answer was. *)
Theorem loadMapData_requests
    (buildings : FetchOutcome Maps.MapData) (stats : FetchOutcome Statistics)
    (zones : FetchOutcome (option (list Zone))) (zones_settle_first : bool)
    (st : State) :
  let st' := loadMapData buildings stats zones zones_settle_first st in
  (Maps.map (page st) = None -> st' = st)
  /\ (is_Some (Maps.map (page st)) ->
      Maps.requests (page st')
      = Maps.requests (page st)
        ++ [Maps.buildings_url (page st); "/api/map/statistics"; "/api/map/zones"]).
Proof.
  cbn zeta. unfold MapStats.loadMapData. split.
  - intros ->. reflexivity.
  - intros [m Hm]. rewrite Hm. rewrite updateMapStatistics_requests.
    cbn [page with_page].
    rewrite (proj1 (MapsFacts.showBuildingsView_page buildings (page st))).
    rewrite <- app_assoc. reflexivity.
Qed.

End Host.

Lemma updateTopZones_lists_the_first_five_witness :
  let seven := List.repeat selangor 7 in
  let run := MapStats.updateTopZones (fun _ => "96.0") (Some seven) panel_page in
  run.2 = None
  /\ (exists cards,
        top_zones run.1 = Some cards
        /\ length cards = Nat.min 5 (length seven)
        /\ forall i c, cards !! i = Some c ->
                       rank c = i + 1 /\ seven !! i = Some (zone c))
  /\ MapStats.updateTopZones (fun _ => "96.0") (Some seven) run.1 = run
  /\ top_zones (MapStats.updateTopZones (fun _ => "96.0") (Some []) panel_page).1
     = Some []
  /\ top_zones (MapStats.updateTopZones (fun _ => "96.0") None panel_page).1 = Some [].
Proof.
  exact (updateTopZones_lists_the_first_five (fun _ => "96.0")
           (List.repeat selangor 7) [] panel_page eq_refl).
Defined.

(** The statistics answer, the request for the zones is rejected. *)
Lemma updateMapStatistics_needs_both_answers_witness :
  let st' := MapStats.updateMapStatistics (fun _ => "") (fun _ => "1.2k")
               (answers some_statistics) (Rejects "Failed to fetch") true panel_page in
  texts st' = texts panel_page
  /\ top_zones st' = top_zones panel_page
  /\ Maps.requests (page st')
     = Maps.requests (page panel_page) ++ ["/api/map/statistics"; "/api/map/zones"]
  /\ exists error,
       Maps.console (page st')
       = Maps.console (page panel_page)
         ++ [ConsoleError "Erreur statistiques carte:" error].
Proof.
  exact (updateMapStatistics_needs_both_answers (fun _ => "") (fun _ => "1.2k")
           (answers some_statistics) (Rejects "Failed to fetch") true panel_page
           (or_intror I)).
Defined.

(** A page whose panel lacks the element for the total. *)
Lemma statistics_failure_blocks_the_zones_witness :
  let st := {| page := Maps.initial_page; texts := ∅; top_zones := Some [] |} in
  let st' := MapStats.updateMapStatistics (fun _ => "") (fun _ => "1.2k")
               (answers some_statistics) (answers (Some [selangor])) false st in
  texts st' = texts st
  /\ top_zones st' = top_zones st
  /\ Maps.console (page st')
     = Maps.console (page st) ++ [ConsoleError "Erreur statistiques carte:" TypeError].
Proof.
  exact (statistics_failure_blocks_the_zones (fun _ => "") (fun _ => "1.2k")
           some_statistics [selangor] false
           {| page := Maps.initial_page; texts := ∅; top_zones := Some [] |}
           eq_refl).
Defined.

End MapStatsFacts.

(** ** Exporting the settings *)

Module SettingsExportFacts.
Import JS Backend Settings SettingsExport.

Lemma apply_mapping_at fields id key c v st :
  controls st !! id = Some c ->
  field fields key = Some v ->
  to_string_throws v = false ->
  controls (apply_mapping (JObj fields) (id, key) st).1 !! id = Some (assigned c v).
Proof.
  intros Hc Hv Hconverts. unfold apply_mapping. rewrite Hc. cbn [get]. rewrite Hv.
  rewrite Hconverts, andb_false_r.
  cbn [fst controls]. rewrite lookup_insert_eq. reflexivity.
Qed.

Lemma apply_mappings_at (fields : list (string * Json)) ms :
  (forall member, In member (List.map snd fields) -> to_string_throws member = false) ->
  forall st id key c v,
    NoDup ms.*1 ->
    (id, key) ∈ ms ->
    controls st !! id = Some c ->
    field fields key = Some v ->
    controls (apply_mappings (JObj fields) ms st).1 !! id = Some (assigned c v).
Proof.
  intros Hconverts.
  induction ms as [| [elementId settingKey] ms IH]; intros st id key c v Hnodup Hin Hc Hv.
  - apply elem_of_nil in Hin. destruct Hin.
  - cbn [fmap list_fmap fst] in Hnodup. apply NoDup_cons in Hnodup as [Hfresh Hnodup].
    cbn [apply_mappings].
    assert (Hm : (apply_mapping (JObj fields) (elementId, settingKey) st).2 = None).
    { apply SettingsFacts.apply_mapping_converts. intros v' Hv'.
      apply Hconverts, (SettingsFacts.field_member _ _ _ Hv'). }
    pose proof (SettingsFacts.apply_mapping_frame fields elementId settingKey st id)
      as Hframe.
    pose proof (apply_mapping_at fields elementId settingKey) as Hat.
    destruct (apply_mapping (JObj fields) (elementId, settingKey) st)
      as [st' [e |]] eqn:Hstep; [discriminate |].
    cbn [fst] in Hframe. apply elem_of_cons in Hin as [Hhead | Htail].
    + injection Hhead as -> ->.
      rewrite SettingsFacts.apply_mappings_frame.
      * specialize (Hat c v st Hc Hv
                      (Hconverts v (SettingsFacts.field_member _ _ _ Hv))).
        rewrite Hstep in Hat. exact Hat.
      * intros key' Hin'. exfalso. apply Hfresh.
        apply list_elem_of_fmap. exists (elementId, key'). split; [reflexivity | exact Hin'].
    + apply (IH st' id key c v Hnodup Htail); [| exact Hv].
      rewrite Hframe; [exact Hc |]. left. intros ->. apply Hfresh.
      apply list_elem_of_fmap. exists (elementId, key). split; [reflexivity | exact Htail].
Qed.

Lemma mappings_NoDup : NoDup mappings.*1.
Proof. apply (bool_decide_unpack _). vm_compute. reflexivity. Qed.

(** Strings, booleans and [null] convert to a string. *)
Lemma texts_convert (fields : list (string * Json)) :
  Forall (fun member => match member.2 with
                        | JStr _ | JBool _ | JNull => True
                        | _ => False
                        end) fields ->
  forall member, In member (List.map snd fields) -> to_string_throws member = false.
Proof.
  intros Hfields member Hin. apply in_map_iff in Hin as [[key v] [<- Hin]].
  rewrite Forall_forall in Hfields. apply list_elem_of_In in Hin.
  specialize (Hfields _ Hin). cbn [snd] in *.
  destruct v; try contradiction; reflexivity.
Qed.

Section Host.

Variable query_theme_radio : Json -> Completion (option string).
Variable control_value : Control -> string.
Variable control_checked : Control -> bool.
Variable attribute_text : Json -> string.
Variable now : string.

Abbreviation applySettings := (Settings.applySettings query_theme_radio).
Abbreviation exportSettings :=
  (SettingsExport.exportSettings control_value control_checked attribute_text now).

(** X14. Importing what [exportSettings] has just written restores the
    page it was written from, control by control, with two exceptions the
    export itself makes: [animations] is exported as [true] whatever the
    switch shows, so that the import switches the animations on, and a
    text setting whose control is empty is exported as its default.  The
    import completes whenever the lookup of the theme's radio button
    does. *)
Theorem export_then_import (st : State) :
  (forall t, data_theme st = Some t ->
             exists r, query_theme_radio (JStr (attribute_text t)) = Normal r) ->
  let settings := exportSettings st in
  let run := applySettings settings st in
  run.2 = None
  /\ (forall id key c,
        (id, key) ∈ mappings -> controls st !! id = Some c ->
        exists v, Settings.get settings key = Normal (Some v)
                  /\ controls run.1 !! id = Some (assigned c v))
  /\ (forall id, id ∉ mappings.*1 -> controls run.1 !! id = controls st !! id)
  /\ Settings.get settings "animations" = Normal (Some (JBool true))
  /\ (forall c, controls st !! "animations-toggle" = Some c ->
                type c = "checkbox" ->
                controls run.1 !! "animations-toggle"
                = Some {| type := type c; value := value c; checked := JBool true |})
  /\ (forall c, controls st !! "sounds-toggle" = Some c ->
                Settings.get settings "sounds"
                = Normal (Some (JBool (control_checked c))))
  /\ (forall c, controls st !! "language-select" = Some c ->
                control_value c <> "" ->
                Settings.get settings "language"
                = Normal (Some (JStr (control_value c)))).
Proof.
  intros Hquery. cbn zeta.
  assert (Htheme : (Settings.apply_theme query_theme_radio (exportSettings st) st).2
                   = None).
  { unfold Settings.apply_theme, SettingsExport.exportSettings. cbn.
    destruct (data_theme st) as [t |] eqn:Ht; cbn; [| reflexivity].
    destruct (negb _); [| reflexivity].
    destruct (Hquery t eq_refl) as [[radio |] ->]; reflexivity. }
  pose proof (SettingsFacts.apply_theme_controls query_theme_radio (exportSettings st) st)
    as Hcontrols.
  assert (Hrun : forall id,
             controls (applySettings (exportSettings st) st).1 !! id
             = controls (apply_mappings (exportSettings st) mappings
                           (Settings.apply_theme query_theme_radio
                              (exportSettings st) st).1).1 !! id).
  { intros id. unfold Settings.applySettings.
    destruct (Settings.apply_theme query_theme_radio (exportSettings st) st)
      as [st1 [e |]]; [discriminate | reflexivity]. }
  assert (Hexported : exists fields,
             exportSettings st = JObj fields
             /\ forall member, In member (List.map snd fields) ->
                               to_string_throws member = false).
  { eexists. split; [reflexivity |]. apply texts_convert.
    unfold value_setting, checked_setting.
    repeat constructor. cbn [snd]. destruct (data_theme st); exact I. }
  destruct Hexported as [fields [Hfields Hconverts]].
  assert (Hat : forall id key c,
             (id, key) ∈ mappings -> controls st !! id = Some c ->
             exists v, Settings.get (exportSettings st) key = Normal (Some v)
                       /\ controls (applySettings (exportSettings st) st).1 !! id
                          = Some (assigned c v)).
  { intros id key c Hin Hc. rewrite Hrun.
    assert (Hfield : exists v, Settings.get (exportSettings st) key = Normal (Some v)).
    { unfold mappings in Hin. rewrite !elem_of_cons, elem_of_nil in Hin.
      destruct Hin as [H | [H | [H | [H | [H | [H | [H | [H | [H | [H | [H | []]]]]]]]]]]];
        injection H as -> ->; eexists; reflexivity. }
    destruct Hfield as [v Hv]. exists v. split; [exact Hv |].
    rewrite Hfields in *.
    apply (apply_mappings_at fields mappings Hconverts _ id key c v mappings_NoDup Hin).
    - rewrite Hcontrols. exact Hc.
    - cbn [Settings.get] in Hv. injection Hv as Hv. exact Hv. }
  split; [| split; [exact Hat | split; [| split; [| split; [| split]]]]].
  - unfold Settings.applySettings.
    destruct (Settings.apply_theme query_theme_radio (exportSettings st) st)
      as [st1 [e |]]; [discriminate |].
    rewrite Hfields. apply SettingsFacts.apply_mappings_converts.
    intros id key v _ Hv. apply Hconverts, (SettingsFacts.field_member _ _ _ Hv).
  - intros id Hid. rewrite Hrun.
    rewrite Hfields in *.
    rewrite SettingsFacts.apply_mappings_frame; [rewrite Hcontrols; reflexivity |].
    intros key Hin. exfalso. apply Hid. apply list_elem_of_fmap.
    exists (id, key). split; [reflexivity | exact Hin].
  - cbn. unfold checked_setting.
    destruct (controls st !! "animations-toggle"); [rewrite orb_true_r |]; reflexivity.
  - intros c Hc Htype.
    destruct (Hat "animations-toggle" "animations" c) as [v [Hv Hafter]];
      [unfold mappings; rewrite !elem_of_cons; tauto | exact Hc |].
    rewrite Hafter. cbn in Hv. unfold checked_setting in Hv. rewrite Hc in Hv.
    rewrite orb_true_r in Hv. injection Hv as <-.
    unfold assigned. rewrite Htype. reflexivity.
  - intros c Hc. cbn. unfold checked_setting. rewrite Hc.
    rewrite orb_false_r. reflexivity.
  - intros c Hc Hvalue. cbn. unfold value_setting. rewrite Hc. cbn.
    apply String.eqb_neq in Hvalue. rewrite Hvalue. reflexivity.
Qed.

End Host.

(** A page whose animations are switched off and whose language is
    English. *)
Lemma export_then_import_witness :
  let settings :=
    SettingsExport.exportSettings reported_value reported_checked reported_attribute
      "2024-01-01T00:00:00.000Z" quiet_page in
  let run := Settings.applySettings page_query_theme_radio settings quiet_page in
  run.2 = None
  /\ Settings.get settings "animations" = Normal (Some (JBool true))
  /\ controls run.1 !! "animations-toggle"
     = Some {| type := "checkbox"; value := JStr "on"; checked := JBool true |}
  /\ Settings.get settings "language" = Normal (Some (JStr "en")).
Proof.
  pose proof (export_then_import page_query_theme_radio reported_value reported_checked
                reported_attribute "2024-01-01T00:00:00.000Z" quiet_page) as H.
  cbn zeta in H.
  destruct H as [Hrun [_ [_ [Hanimations [Htoggle [_ Hlanguage]]]]]].
  - intros t Ht. injection Ht as <-. eexists. reflexivity.
  - split; [exact Hrun |]. split; [exact Hanimations |].
    split; [exact (Htoggle _ eq_refl eq_refl) |].
    apply (Hlanguage {| type := "select-one"; value := JStr "en";
                        checked := JBool false |}); [reflexivity | discriminate].
Defined.

End SettingsExportFacts.

(** ** The chat transcript *)

Module ChatFacts.
Import JS Backend Chat.

Lemma append_empty (s : string) : s +:+ "" = s.
Proof.
  induction s as [| c s IH]; [reflexivity |].
  change (String c (s +:+ "") = String c s). f_equal. exact IH.
Qed.

(** Text that starts with a line break has no speaker to strip. *)
Lemma strip_speaker_after_break indent rest :
  strip_speaker (break indent +:+ rest) = break indent +:+ rest.
Proof. reflexivity. Qed.

(** A class attribute that ends in [message-thinking] has that token. *)
Lemma tokens_from_thinking s :
  forall started,
    existsb (String.eqb "message-thinking")
      (tokens_from started (s +:+ " message-thinking")) = true.
Proof.
  induction s as [| c s IH]; intros started.
  - change ("" +:+ " message-thinking") with " message-thinking".
    change (tokens_from started " message-thinking")
      with (if String.eqb started "" then tokens_from "" "message-thinking"
            else started :: tokens_from "" "message-thinking").
    change (tokens_from "" "message-thinking") with ["message-thinking"].
    destruct (String.eqb started ""); [reflexivity |].
    cbn [existsb]. apply orb_true_iff. right. reflexivity.
  - change (String c s +:+ " message-thinking")
      with (String c (s +:+ " message-thinking")).
    cbn [tokens_from].
    destruct (is_space c); [| apply IH].
    destruct (String.eqb started ""); [apply IH |].
    cbn [existsb]. rewrite IH. apply orb_true_r.
Qed.

Section Host.

Variable trim : string -> string.
Variable parsed_text : string -> string.
Variable locale_now : string.

Abbreviation message_element := (Chat.message_element parsed_text).
Abbreviation cleared_element := (Chat.cleared_element parsed_text).
Abbreviation addMessage := (Chat.addMessage parsed_text).
Abbreviation sendMessage := (Chat.sendMessage trim parsed_text).
Abbreviation on_analysis_started := (Chat.on_analysis_started parsed_text).
Abbreviation on_analysis_complete := (Chat.on_analysis_complete parsed_text).
Abbreviation on_analysis_error := (Chat.on_analysis_error parsed_text).
Abbreviation exported_section := (Chat.exported_section trim).
Abbreviation exportChat := (Chat.exportChat trim locale_now).
Abbreviation written_by_the_module := (Chat.written_by_the_module parsed_text).

Lemma thinking_message_has_the_class type content :
  classList_contains "message-thinking" (message_element type content true) = true.
Proof.
  unfold classList_contains, Chat.message_element. cbn [className].
  change (tokens_from "" ("chat-message message-" +:+ type +:+ " message-thinking"))
    with ("chat-message" :: tokens_from "message-" (type +:+ " message-thinking")).
  cbn [existsb]. rewrite tokens_from_thinking. apply orb_true_r.
Qed.

Lemma written_message_is_a_chat_message m :
  written_by_the_module m -> classList_contains "chat-message" m = true.
Proof. intros [-> | [type [content [isThinking ->]]]]; reflexivity. Qed.

Lemma written_message_starts_with_a_break m :
  written_by_the_module m -> strip_speaker (textContent m) = textContent m.
Proof.
  intros [-> | [type [content [isThinking ->]]]]; apply strip_speaker_after_break.
Qed.

(** X15. [sendMessage] sends nothing for an input that is blank after
    trimming and leaves the page as it is.  Otherwise it appends the
    trimmed question as a user message and empties the input; then it
    emits the question once when the socket is connected, and when it is
    not it appends a notice instead and emits nothing. *)
Theorem sendMessage_sends_or_explains (st : State) (text : string) (ms : list Element) :
  input st = Some text ->
  messages st = Some ms ->
  let question := trim text in
  let run := sendMessage st in
  run.2 = None
  /\ (question = "" -> run.1 = st)
  /\ (question <> "" ->
      input run.1 = Some ""
      /\ exists tail,
           messages run.1 = Some (ms ++ message_element "user" question false :: tail)
           /\ (isConnected st && socket st = true ->
               tail = [] /\ emitted run.1 = emitted st ++ [question])
           /\ (isConnected st && socket st = false ->
               length tail = 1 /\ emitted run.1 = emitted st
               /\ Forall (fun m => classList_contains "message-user" m = false) tail)).
Proof.
  intros Hinput Hmessages. cbn zeta. unfold Chat.sendMessage. rewrite Hinput.
  destruct (String.eqb_spec (trim text) "") as [Hblank | Hquestion].
  - split; [reflexivity |]. split; [reflexivity | intros H; destruct (H Hblank)].
  - unfold Chat.addMessage. rewrite Hmessages.
    cbn [and_then with_messages input messages isConnected socket emitted].
    destruct (isConnected st && socket st) eqn:Hlive.
    + split; [reflexivity |]. split; [intros H; destruct (Hquestion H) |].
      intros _. split; [reflexivity |]. exists []. split; [reflexivity |].
      split; [intros _; split; reflexivity | discriminate].
    + cbn [messages with_messages input emitted fst snd].
      split; [reflexivity |]. split; [intros H; destruct (Hquestion H) |].
      intros _. split; [reflexivity |].
      eexists. split; [rewrite <- app_assoc; reflexivity |].
      split; [discriminate |]. intros _. split; [reflexivity |].
      split; [reflexivity |]. constructor; [reflexivity | constructor].
Qed.

(** X16. When the answer or the error of an analysis arrives, the
    handlers of [Dashboard] take every thinking indicator out of the
    transcript and append one assistant message; the other messages keep
    their order.  In particular the indicator that [analysis_started]
    adds is gone after the answer.  Until [DashboardChat] has registered
    itself the three handlers do nothing. *)
Theorem thinking_indicator_is_removed
    (st : State) (ms : list Element) (analysis : Analysis) (error : option string) :
  messages st = Some ms ->
  let kept := List.filter (fun m => negb (classList_contains "message-thinking" m)) ms in
  let started := (on_analysis_started true st).1 in
  (forall run answer,
      (run = on_analysis_complete true analysis st
       /\ answer = message_element "assistant" (response_of analysis) false)
      \/ (run = on_analysis_complete true analysis started
          /\ answer = message_element "assistant" (response_of analysis) false)
      \/ (run = on_analysis_error true error started
          /\ answer = message_element "assistant"
                        ("❌ Erreur d'analyse: " +:+ default "undefined" error) false) ->
      run.2 = None
      /\ messages run.1 = Some (kept ++ [answer])
      /\ Forall (fun m => classList_contains "message-thinking" m = false)
           (kept ++ [answer]))
  /\ on_analysis_started false st = (st, None)
  /\ on_analysis_complete false analysis st = (st, None)
  /\ on_analysis_error false error st = (st, None).
Proof.
  intros Hmessages. cbn zeta. split; [| repeat split].
  assert (Hkept : Forall (fun m => classList_contains "message-thinking" m = false)
                    (List.filter
                       (fun m => negb (classList_contains "message-thinking" m)) ms)).
  { apply Forall_forall. intros m Hm. apply list_elem_of_In, filter_In in Hm.
    apply negb_true_iff, Hm. }
  assert (Hstarted : messages (on_analysis_started true st).1
                     = Some (ms ++ [message_element "thinking"
                                      "Analyse en cours avec l'IA..." true])).
  { unfold Chat.on_analysis_started, Chat.addMessage. rewrite Hmessages. reflexivity. }
  assert (Hfilter : List.filter (fun m => negb (classList_contains "message-thinking" m))
                      (ms ++ [message_element "thinking"
                                "Analyse en cours avec l'IA..." true])
                    = List.filter
                        (fun m => negb (classList_contains "message-thinking" m)) ms).
  { rewrite List.filter_app. cbn [List.filter].
    rewrite thinking_message_has_the_class. cbn [negb]. apply app_nil_r. }
  intros run answer [[-> ->] | [[-> ->] | [-> ->]]];
    unfold Chat.on_analysis_complete, Chat.on_analysis_error, Chat.addMessage,
      Chat.removeThinkingMessages;
    cbn [messages with_messages]; rewrite ?Hstarted, ?Hmessages;
    cbn [fmap option_fmap option_map fst snd messages with_messages];
    rewrite ?Hfilter;
    (split; [reflexivity |]); (split; [reflexivity |]);
    (apply Forall_app; split; [exact Hkept |]);
    (constructor; [reflexivity | constructor]).
Qed.

Lemma exported_fold (elements : list Element) :
  Forall written_by_the_module elements ->
  forall chatContent,
    fold_left (fun chatContent message => chatContent +:+ exported_section message)
      (List.filter (classList_contains "chat-message") elements) chatContent
    = fold_left
        (fun chatContent message =>
           chatContent +:+ "## "
           +:+ (if classList_contains "message-user" message
                then "Utilisateur" else "Assistant IA")
           +:+ newline +:+ newline +:+ trim (textContent message)
           +:+ newline +:+ newline)
        (List.filter (fun m => negb (classList_contains "message-thinking" m)) elements)
        chatContent.
Proof.
  induction 1 as [| m elements Hm Hrest IH]; intros chatContent; [reflexivity |].
  cbn [List.filter]. rewrite (written_message_is_a_chat_message m Hm).
  cbn [fold_left]. rewrite IH. unfold Chat.exported_section.
  destruct (classList_contains "message-thinking" m); cbn [negb fold_left].
  - rewrite append_empty. reflexivity.
  - rewrite (written_message_starts_with_a_break m Hm). reflexivity.
Qed.

(** X17. In the text [exportChat] offers, the thinking indicators are
    left out and every other message of the module has its section; the
    speaker label is not taken off the message, because the text of a
    message starts with the line break of its template and the pattern
    only matches at the start: each section holds the trimmed text of the
    element as it is. *)
Theorem exportChat_keeps_the_speaker_labels (elements : list Element) :
  Forall written_by_the_module elements ->
  exportChat elements
  = fold_left
      (fun chatContent message =>
         chatContent +:+ "## "
         +:+ (if classList_contains "message-user" message
              then "Utilisateur" else "Assistant IA")
         +:+ newline +:+ newline +:+ trim (textContent message)
         +:+ newline +:+ newline)
      (List.filter (fun m => negb (classList_contains "message-thinking" m)) elements)
      ("# Conversation Dashboard Malaysia" +:+ newline +:+ newline
       +:+ "Date: " +:+ locale_now +:+ newline +:+ newline).
Proof. intros Hwritten. apply exported_fold, Hwritten. Qed.

End Host.

(** A question typed on a connected page. *)
Lemma sendMessage_sends_or_explains_witness :
  let run := Chat.sendMessage (fun s => s) (fun s => s) chat_page in
  run.2 = None
  /\ input run.1 = Some ""
  /\ emitted run.1 = ["Quelle est la consommation ?"].
Proof.
  destruct (sendMessage_sends_or_explains (fun s => s) (fun s => s) chat_page
              "Quelle est la consommation ?" [] eq_refl eq_refl)
    as [Hrun [_ Hsent]].
  destruct Hsent as [Hinput [tail [_ [Hlive _]]]]; [discriminate |].
  split; [exact Hrun |]. split; [exact Hinput |].
  exact (proj2 (Hlive eq_refl)).
Defined.

(** An analysis that starts and completes on a page with an empty
    transcript. *)
Lemma thinking_indicator_is_removed_witness :
  let started := (Chat.on_analysis_started (fun s => s) true chat_page).1 in
  let run := Chat.on_analysis_complete (fun s => s) true
               (AnalysisText "La consommation baisse.") started in
  run.2 = None
  /\ messages run.1
     = Some [Chat.message_element (fun s => s) "assistant" "La consommation baisse."
               false].
Proof.
  destruct (thinking_indicator_is_removed (fun s => s) chat_page []
              (AnalysisText "La consommation baisse.") None eq_refl) as [Hrun _].
  destruct (Hrun _ _ (or_intror (or_introl (conj eq_refl eq_refl)))) as [H1 [H2 _]].
  split; [exact H1 | exact H2].
Defined.

(** A question, a thinking indicator and the message of [clearChat]. *)
Lemma exportChat_keeps_the_speaker_labels_witness :
  Chat.exportChat (fun s => s) "01/01/2024 00:00:00"
    [Chat.message_element (fun s => s) "user" "Bonjour" false;
     Chat.message_element (fun s => s) "thinking" "Analyse" true;
     Chat.cleared_element (fun s => s)]
  = fold_left
      (fun chatContent message =>
         chatContent +:+ "## "
         +:+ (if classList_contains "message-user" message
              then "Utilisateur" else "Assistant IA")
         +:+ newline +:+ newline +:+ textContent message +:+ newline +:+ newline)
      [Chat.message_element (fun s => s) "user" "Bonjour" false;
       Chat.cleared_element (fun s => s)]
      ("# Conversation Dashboard Malaysia" +:+ newline +:+ newline
       +:+ "Date: 01/01/2024 00:00:00" +:+ newline +:+ newline).
Proof.
  apply (exportChat_keeps_the_speaker_labels (fun s => s) (fun s => s)
           "01/01/2024 00:00:00").
  constructor; [right; eexists _, _, _; reflexivity |].
  constructor; [right; eexists _, _, _; reflexivity |].
  constructor; [left; reflexivity | constructor].
Defined.

End ChatFacts.

(** ** The stored configuration of the chat *)

Module ChatConfigFacts.
Import JS Backend ChatConfig.

Lemma value_or_truthy control fallback :
  fallback <> "" -> json_truthy (JStr (value_or control fallback)) = true.
Proof.
  intros Hfallback. unfold value_or. cbn [json_truthy truthy].
  destruct control as [v |].
  - destruct (String.eqb_spec v "") as [_ | Hv]; apply negb_true_iff, String.eqb_neq;
      assumption.
  - apply negb_true_iff, String.eqb_neq. exact Hfallback.
Qed.

Section Host.

Variable JSON_stringify : Json -> string.
Variable JSON_parse : string -> Completion Json.
Variable now : string.
Variable value_after : string -> Json -> string.
Variable text_after : Json -> string.

Abbreviation config_of := (ChatConfig.config_of now).
Abbreviation saveConfiguration := (ChatConfig.saveConfiguration JSON_stringify now).
Abbreviation set_value := (ChatConfig.set_value value_after).
Abbreviation set_temp_value := (ChatConfig.set_temp_value text_after).
Abbreviation load_try := (ChatConfig.load_try JSON_parse value_after text_after).
Abbreviation loadConfiguration :=
  (ChatConfig.loadConfiguration JSON_parse value_after text_after).

Lemma set_value_lookup id v st id' :
  values (set_value id v st) !! id'
  = if decide (id' = id)
    then match values st !! id with
         | Some _ => Some (value_after id v)
         | None => None
         end
    else values st !! id'.
Proof.
  unfold ChatConfig.set_value.
  destruct (values st !! id) as [old |] eqn:Hold; cbn [values].
  - destruct (decide (id' = id)) as [-> | Hne];
      [apply lookup_insert_eq | apply lookup_insert_ne; congruence].
  - destruct (decide (id' = id)) as [-> | Hne]; [exact Hold | reflexivity].
Qed.

Lemma set_value_frame id v st :
  temp_value (set_value id v st) = temp_value st
  /\ storage (set_value id v st) = storage st
  /\ warnings (set_value id v st) = warnings st.
Proof.
  unfold ChatConfig.set_value. destruct (values st !! id); repeat split.
Qed.

Lemma set_temp_value_frame v st :
  values (set_temp_value v st) = values st
  /\ storage (set_temp_value v st) = storage st
  /\ warnings (set_temp_value v st) = warnings st.
Proof.
  unfold ChatConfig.set_temp_value. destruct (temp_value st); repeat split.
Qed.

(** What [loadConfiguration] does with a configuration it has just
    saved. *)
Lemma load_after_save (st : State) :
  JSON_stringify (config_of st) <> "" ->
  JSON_parse (JSON_stringify (config_of st)) = Normal (config_of st) ->
  loadConfiguration (saveConfiguration st)
  = set_value "ollama-url"
      (JStr (value_or (values st !! "ollama-url") "http://localhost:11434"))
      (set_temp_value (JStr (value_or (values st !! "temperature-range") "0.1"))
         (set_value "temperature-range"
            (JStr (value_or (values st !! "temperature-range") "0.1"))
            (set_value "model-select"
               (JStr (value_or (values st !! "model-select") "mistral:latest"))
               (saveConfiguration st)))).
Proof.
  intros Htext Hparse.
  unfold ChatConfig.loadConfiguration, ChatConfig.load_try.
  cbn [storage ChatConfig.saveConfiguration]. rewrite lookup_insert_eq.
  unfold value_or at 1. apply String.eqb_neq in Htext. rewrite Htext, Hparse.
  unfold ChatConfig.when_truthy, ChatConfig.config_of.
  cbn [bind Settings.get].
  change (Settings.field _ "model")
    with (Some (JStr (value_or (values st !! "model-select") "mistral:latest"))).
  change (Settings.field _ "temperature")
    with (Some (JStr (value_or (values st !! "temperature-range") "0.1"))).
  change (Settings.field _ "ollamaUrl")
    with (Some (JStr (value_or (values st !! "ollama-url") "http://localhost:11434"))).
  cbn [bind]. rewrite !value_or_truthy by discriminate. reflexivity.
Qed.

(** X18. A configuration that was saved is the one that is loaded:
    after [saveConfiguration] and [loadConfiguration] every control that
    held a value holds it again, the temperature display shows the value
    of the slider, and nothing is logged.  A control that was empty gets
    the default that was saved in its place. *)
Theorem saved_configuration_is_restored (st : State) :
  JSON_stringify (config_of st) <> "" ->
  JSON_parse (JSON_stringify (config_of st)) = Normal (config_of st) ->
  (forall id v, values st !! id = Some v -> v <> "" -> value_after id (JStr v) = v) ->
  let st' := loadConfiguration (saveConfiguration st) in
  (forall id v, values st !! id = Some v -> v <> "" -> values st' !! id = Some v)
  /\ (forall id, is_Some (values st' !! id) <-> is_Some (values st !! id))
  /\ (forall id, id ∉ fallbacks.*1 -> values st' !! id = values st !! id)
  /\ (forall id fallback,
        (id, fallback) ∈ fallbacks -> values st !! id = Some "" ->
        values st' !! id = Some (value_after id (JStr fallback)))
  /\ (is_Some (temp_value st) ->
      temp_value st'
      = Some (text_after (JStr (value_or (values st !! "temperature-range") "0.1"))))
  /\ warnings st' = warnings st.
Proof.
  intros Htext Hparse Hkeeps. cbn zeta.
  rewrite (load_after_save st Htext Hparse).
  assert (Hlookup : forall id,
             values (set_value "ollama-url"
                       (JStr (value_or (values st !! "ollama-url")
                                "http://localhost:11434"))
                       (set_temp_value
                          (JStr (value_or (values st !! "temperature-range") "0.1"))
                          (set_value "temperature-range"
                             (JStr (value_or (values st !! "temperature-range") "0.1"))
                             (set_value "model-select"
                                (JStr (value_or (values st !! "model-select")
                                         "mistral:latest"))
                                (saveConfiguration st))))) !! id
             = match values st !! id with
               | Some v =>
                   Some (if decide (id = "ollama-url")
                         then value_after id (JStr (value_or (Some v)
                                                      "http://localhost:11434"))
                         else if decide (id = "temperature-range")
                         then value_after id (JStr (value_or (Some v) "0.1"))
                         else if decide (id = "model-select")
                         then value_after id (JStr (value_or (Some v) "mistral:latest"))
                         else v)
               | None => None
               end).
  { intros id. rewrite set_value_lookup.
    rewrite (proj1 (set_temp_value_frame _ _)).
    rewrite !set_value_lookup. cbn [values ChatConfig.saveConfiguration].
    repeat match goal with
           | |- context [decide (?a = ?b)] =>
               lazymatch a with
               | id => fail
               | _ => destruct (decide (a = b)) as [Heq | _]; [discriminate Heq |]
               end
           end.
    destruct (decide (id = "ollama-url")) as [-> | ?].
    { destruct (values st !! "ollama-url"); reflexivity. }
    destruct (decide (id = "temperature-range")) as [-> | ?].
    { destruct (values st !! "temperature-range"); reflexivity. }
    destruct (decide (id = "model-select")) as [-> | ?].
    { destruct (values st !! "model-select"); reflexivity. }
    destruct (values st !! id); reflexivity. }
  split; [| split; [| split; [| split; [| split]]]].
  - intros id v Hv Hne. rewrite Hlookup, Hv. f_equal.
    assert (Hor : forall fallback, value_or (Some v) fallback = v).
    { intros fallback. unfold value_or. apply String.eqb_neq in Hne.
      rewrite Hne. reflexivity. }
    rewrite !Hor, (Hkeeps id v Hv Hne).
    repeat destruct (decide _); reflexivity.
  - intros id. rewrite Hlookup. destruct (values st !! id); split; intros [? H];
      first [discriminate H | eauto].
  - intros id Hid. rewrite Hlookup.
    unfold fallbacks in Hid. cbn [fmap list_fmap fst] in Hid.
    rewrite !not_elem_of_cons in Hid. destruct Hid as [H1 [H2 [H3 _]]].
    destruct (values st !! id); [| reflexivity].
    repeat (destruct (decide _); [congruence |]). reflexivity.
  - intros id fallback Hin Hempty. rewrite Hlookup, Hempty.
    unfold fallbacks in Hin. rewrite !elem_of_cons, elem_of_nil in Hin.
    destruct Hin as [H | [H | [H | []]]]; injection H as -> ->; reflexivity.
  - intros [shown Hshown].
    rewrite (proj1 (set_value_frame _ _ _)).
    unfold ChatConfig.set_temp_value.
    rewrite !(proj1 (set_value_frame _ _ _)).
    cbn [temp_value ChatConfig.saveConfiguration]. rewrite Hshown. reflexivity.
  - rewrite (proj2 (proj2 (set_value_frame _ _ _))).
    rewrite (proj2 (proj2 (set_temp_value_frame _ _))).
    rewrite !(proj2 (proj2 (set_value_frame _ _ _))). reflexivity.
Qed.

Lemma framed_refl st : framed st st.
Proof. repeat split; auto. Qed.

Lemma framed_trans st1 st2 st3 : framed st1 st2 -> framed st2 st3 -> framed st1 st3.
Proof.
  intros [Hs [Hw [Hv Hd]]] [Hs' [Hw' [Hv' Hd']]]. repeat split; try congruence.
  - intros id Hid. rewrite Hv', Hv by exact Hid. reflexivity.
  - intros H. apply Hd, Hd', H.
  - intros H. apply Hd', Hd, H.
Qed.

Lemma set_value_framed id v st : id ∈ fallbacks.*1 -> framed st (set_value id v st).
Proof.
  intros Hid. destruct (set_value_frame id v st) as [_ [Hs Hw]].
  split; [exact Hs |]. split; [exact Hw |]. split.
  - intros id' Hid'. rewrite set_value_lookup.
    destruct (decide (id' = id)) as [-> | _]; [destruct (Hid' Hid) | reflexivity].
  - intros id'. rewrite set_value_lookup.
    destruct (decide (id' = id)) as [-> | _]; [| reflexivity].
    destruct (values st !! id); split; intros [? H]; first [discriminate H | eauto].
Qed.

Lemma set_temp_value_framed v st : framed st (set_temp_value v st).
Proof.
  destruct (set_temp_value_frame v st) as [Hv [Hs Hw]].
  split; [exact Hs |]. split; [exact Hw |]. rewrite Hv. split; auto.
Qed.

Lemma when_truthy_framed config key k st st' :
  (forall j s, framed s (k j s)) ->
  when_truthy config key k st = Normal st' -> framed st st'.
Proof.
  intros Hk. unfold when_truthy.
  destruct (Settings.get config key) as [[j |] | e]; cbn [bind];
    [| intros H; injection H as <-; apply framed_refl | discriminate].
  intros H. injection H as <-.
  destruct (json_truthy j); [apply Hk | apply framed_refl].
Qed.

Lemma load_try_framed st st' : load_try st = Normal st' -> framed st st'.
Proof.
  unfold ChatConfig.load_try.
  destruct (JSON_parse _) as [config | e]; cbn [bind]; [| discriminate].
  destruct (when_truthy config "model" _ st) as [st1 | e] eqn:H1; cbn [bind];
    [| discriminate].
  destruct (when_truthy config "temperature" _ st1) as [st2 | e] eqn:H2; cbn [bind];
    [| discriminate].
  intros H3.
  assert (Hin : forall id, id ∈ ["model-select"; "temperature-range"; "ollama-url"] ->
                           id ∈ fallbacks.*1) by (intros id H; exact H).
  apply when_truthy_framed in H1, H2, H3.
  - exact (framed_trans _ _ _ (framed_trans _ _ _ H1 H2) H3).
  - intros j s. apply set_value_framed, Hin. rewrite !elem_of_cons. tauto.
  - intros j s. eapply framed_trans; [| apply set_temp_value_framed].
    apply set_value_framed, Hin. rewrite !elem_of_cons. tauto.
  - intros j s. apply set_value_framed, Hin. rewrite !elem_of_cons. tauto.
Qed.

(** Only an object has a configuration to apply. *)
Lemma load_try_without_object st :
  match JSON_parse (value_or (storage st !! "dashboard-chat-config") "{}") with
  | Throw e => load_try st = Throw e
  | Normal JNull => load_try st = Throw TypeError
  | Normal (JObj []) => load_try st = Normal st
  | Normal (JObj (_ :: _)) => True
  | Normal _ => load_try st = Normal st
  end.
Proof.
  unfold ChatConfig.load_try.
  destruct (JSON_parse _) as [[| b | x | text | items | [| member fields]] | e];
    try reflexivity; exact I.
Qed.

(** X19. [loadConfiguration] never throws and never touches the store or
    any control outside the configuration, and no control appears or
    disappears.  When nothing is stored it reads the empty object and
    leaves the page as it is; stored text that is not JSON, or the text
    of [null], costs one warning and changes nothing else; any other
    document that is not an object is ignored without a warning. *)
Theorem loadConfiguration_needs_a_stored_object (st : State) :
  let st' := loadConfiguration st in
  let stored := JSON_parse (value_or (storage st !! "dashboard-chat-config") "{}") in
  storage st' = storage st
  /\ (forall id, id ∉ fallbacks.*1 -> values st' !! id = values st !! id)
  /\ (forall id, is_Some (values st' !! id) <-> is_Some (values st !! id))
  /\ (storage st !! "dashboard-chat-config" = None ->
      JSON_parse "{}" = Normal (JObj []) -> st' = st)
  /\ (forall error,
        stored = Throw error \/ (stored = Normal JNull /\ error = TypeError) ->
        st' = {| values := values st; temp_value := temp_value st;
                 storage := storage st;
                 warnings := warnings st
                             ++ [("Erreur chargement configuration chat:", error)] |})
  /\ (forall j, stored = Normal j -> j <> JNull ->
                (forall fields, j <> JObj fields) -> st' = st).
Proof.
  cbn zeta. pose proof (load_try_framed st) as Hframed.
  pose proof (load_try_without_object st) as Hcases.
  unfold ChatConfig.loadConfiguration.
  split; [| split; [| split; [| split; [| split]]]].
  - destruct (load_try st) as [st' | e]; [apply (Hframed st' eq_refl) | reflexivity].
  - destruct (load_try st) as [st' | e]; [apply (Hframed st' eq_refl) | reflexivity].
  - destruct (load_try st) as [st' | e]; [apply (Hframed st' eq_refl) | reflexivity].
  - intros Hnone Hempty. rewrite Hnone in Hcases. cbn [value_or] in Hcases.
    rewrite Hempty in Hcases. rewrite Hcases. reflexivity.
  - intros error [Hthrown | [Hnull ->]]; rewrite ?Hthrown, ?Hnull in Hcases;
      rewrite Hcases; reflexivity.
  - intros j Hj Hnull Hobject. rewrite Hj in Hcases.
    destruct j as [| b | x | text | items | fields];
      try (rewrite Hcases; reflexivity);
      [destruct (Hnull eq_refl) | destruct (Hobject fields eq_refl)].
Qed.

End Host.

(** The page [config_page], saved and loaded with a host that parses
    what it printed. *)
Lemma saved_configuration_is_restored_witness :
  let now := "2024-01-01T00:00:00.000Z" in
  let parse := page_parse (ChatConfig.config_of now config_page) in
  let st' := ChatConfig.loadConfiguration parse page_value_after page_text_after
               (ChatConfig.saveConfiguration page_stringify now config_page) in
  values st' !! "model-select" = Some "llama2"
  /\ values st' !! "temperature-range" = Some "0.7"
  /\ temp_value st' = Some "0.7"
  /\ warnings st' = [].
Proof.
  destruct (saved_configuration_is_restored page_stringify
              (page_parse (ChatConfig.config_of "2024-01-01T00:00:00.000Z" config_page))
              "2024-01-01T00:00:00.000Z" page_value_after page_text_after config_page)
    as [Hkept [_ [_ [_ [Htemp Hwarnings]]]]].
  - discriminate.
  - reflexivity.
  - intros id v _ _. reflexivity.
  - split; [apply Hkept; [reflexivity | discriminate] |].
    split; [apply Hkept; [reflexivity | discriminate] |].
    split; [apply Htemp; eexists; reflexivity | exact Hwarnings].
Defined.

End ChatConfigFacts.

(** ** Form validation *)

Module FormsFacts.
Import Forms.

Lemma classList_add_has token tokens :
  existsb (String.eqb token) (classList_add token tokens) = true.
Proof.
  unfold classList_add.
  destruct (existsb (String.eqb token) tokens) eqn:H; [exact H |].
  rewrite existsb_app. cbn. rewrite String.eqb_refl. apply orb_true_r.
Qed.

Lemma classList_remove_has token tokens :
  existsb (String.eqb token) (classList_remove token tokens) = false.
Proof.
  unfold classList_remove. induction tokens as [| t tokens IH]; [reflexivity |].
  cbn [List.filter]. destruct (String.eqb_spec t token) as [-> | Hne]; cbn [negb].
  - exact IH.
  - cbn [existsb]. rewrite IH. rewrite orb_false_r.
    apply String.eqb_neq. congruence.
Qed.

Lemma classList_remove_twice token tokens :
  classList_remove token (classList_remove token tokens) = classList_remove token tokens.
Proof.
  unfold classList_remove. induction tokens as [| t tokens IH]; [reflexivity |].
  cbn [List.filter]. destruct (negb (String.eqb t token)) eqn:H; [| exact IH].
  cbn [List.filter]. rewrite H, IH. reflexivity.
Qed.

Lemma classList_remove_add token tokens :
  classList_remove token (classList_add token tokens) = classList_remove token tokens.
Proof.
  unfold classList_add. destruct (existsb (String.eqb token) tokens); [reflexivity |].
  unfold classList_remove. rewrite List.filter_app. cbn [List.filter].
  rewrite String.eqb_refl. cbn [negb]. apply app_nil_r.
Qed.

Lemma classList_add_twice token tokens :
  classList_add token (classList_add token tokens) = classList_add token tokens.
Proof.
  unfold classList_add at 1. rewrite classList_add_has. reflexivity.
Qed.

Section Host.

Variable trim : string -> string.

Abbreviation blank := (Forms.blank trim).
Abbreviation marked := (Forms.marked trim).
Abbreviation validateForm := (Forms.validateForm trim).

Lemma validateForm_fold requiredFields :
  forall isValid done,
    fold_left
      (fun state field =>
         if blank field
         then (false, state.2 ++ [{| value := value field;
                                     classList := classList_add "is-invalid"
                                                    (classList field) |}])
         else (state.1, state.2 ++ [{| value := value field;
                                       classList := classList_remove "is-invalid"
                                                      (classList field) |}]))
      requiredFields (isValid, done)
    = (isValid && forallb (fun field => negb (blank field)) requiredFields,
       done ++ List.map marked requiredFields).
Proof.
  induction requiredFields as [| field fields IH]; intros isValid done.
  - cbn. rewrite andb_true_r, app_nil_r. reflexivity.
  - cbn [fold_left forallb List.map].
    assert (Hmarked : marked field
                      = if blank field
                        then {| value := value field;
                                classList := classList_add "is-invalid"
                                               (classList field) |}
                        else {| value := value field;
                                classList := classList_remove "is-invalid"
                                               (classList field) |}).
    { unfold Forms.marked. destruct (blank field); reflexivity. }
    rewrite Hmarked.
    destruct (blank field); cbn [fst snd negb andb]; rewrite IH, <- app_assoc;
      destruct isValid; reflexivity.
Qed.

Lemma validateForm_marks requiredFields :
  validateForm requiredFields
  = (forallb (fun field => negb (blank field)) requiredFields,
     List.map marked requiredFields).
Proof. unfold Forms.validateForm. rewrite validateForm_fold. reflexivity. Qed.

Lemma marked_twice field : marked (marked field) = marked field.
Proof.
  unfold Forms.marked, Forms.blank. cbn [value classList].
  destruct (String.eqb (trim (value field)) "");
    [rewrite classList_add_twice | rewrite classList_remove_twice]; reflexivity.
Qed.

(** X20. [validateForm] looks at every required field, not only up to the
    first empty one: afterwards a field has the class [is-invalid]
    exactly when its value is blank after trimming, its other classes
    and its value are as before, and the form is valid exactly when no
    field is blank.  Validating again changes nothing. *)
Theorem validateForm_marks_every_blank_field (requiredFields : list Field) :
  let result := validateForm requiredFields in
  (result.1 = true <-> Forall (fun field => blank field = false) requiredFields)
  /\ length result.2 = length requiredFields
  /\ (forall i field,
        requiredFields !! i = Some field ->
        exists field',
          result.2 !! i = Some field'
          /\ value field' = value field
          /\ existsb (String.eqb "is-invalid") (classList field') = blank field
          /\ classList_remove "is-invalid" (classList field')
             = classList_remove "is-invalid" (classList field))
  /\ validateForm result.2 = result.
Proof.
  cbn zeta. rewrite validateForm_marks. cbn [fst snd].
  split; [| split; [| split]].
  - rewrite forallb_forall, Forall_forall. split; intros H field Hin.
    + apply negb_true_iff, H, list_elem_of_In, Hin.
    + apply negb_true_iff, H, list_elem_of_In, Hin.
  - apply length_map.
  - intros i field Hfield. exists (marked field).
    split; [change (List.map marked requiredFields) with (marked <$> requiredFields);
            rewrite list_lookup_fmap, Hfield; reflexivity |].
    split; [reflexivity |]. unfold Forms.marked. cbn [classList].
    destruct (blank field).
    + split; [apply classList_add_has | apply classList_remove_add].
    + split; [apply classList_remove_has | apply classList_remove_twice].
  - rewrite validateForm_marks. f_equal.
    + apply Bool.eq_iff_eq_true. rewrite !forallb_forall. split; intros H field Hin.
      * specialize (H (marked field) (in_map marked _ _ Hin)). exact H.
      * apply in_map_iff in Hin as [field0 [<- Hin]]. exact (H field0 Hin).
    + rewrite List.map_map. apply List.map_ext. intros field. apply marked_twice.
Qed.

End Host.

End FormsFacts.

(** ** The retrying request helper, on every course of answers *)

Module RequestFacts.
Import JS ApiClient.

Section Request.

Variable config : Config.
Variable fetch_attempt : nat -> FetchOutcome.

Abbreviation request_loop := (ApiClient.request_loop config fetch_attempt).
Abbreviation request := (ApiClient.request config fetch_attempt).

(** From any iteration the loop settles, after some more failures. *)
Lemma request_loop_settles remaining :
  forall k st,
    k + remaining = maxRetries config ->
    exists n,
      n <= remaining
      /\ delays (request_loop k st).2
         = delays st ++ List.map backoff (seq (S k) n)
      /\ ((exists data,
              attempt (fetch_attempt (k + n)) = inl data
              /\ (request_loop k st).1 = Resolved data
              /\ retryCount (request_loop k st).2 = 0)
          \/ (exists message,
                n = remaining
                /\ attempt (fetch_attempt (maxRetries config)) = inr message
                /\ (request_loop k st).1
                   = Rejected (Error ("Échec après "
                                      +:+ digits_of_nat (maxRetries config)
                                      +:+ " tentatives: " +:+ message))
                /\ retryCount (request_loop k st).2 = S (maxRetries config))).
Proof.
  induction remaining as [| remaining IH]; intros k st Hk.
  - exists 0. rewrite Nat.add_0_r in *. subst k.
    split; [lia |]. cbn [seq List.map]. rewrite app_nil_r.
    destruct (attempt (fetch_attempt (maxRetries config))) as [data | message] eqn:Ha.
    + rewrite (ApiClientFacts.request_loop_success config fetch_attempt _ st data)
        by (lia || exact Ha).
      split; [reflexivity |]. left. exists data. repeat split; try exact Ha.
    + rewrite (ApiClientFacts.request_loop_give_up config fetch_attempt st message Ha).
      split; [reflexivity |]. right. exists message. repeat split.
  - destruct (attempt (fetch_attempt k)) as [data | message] eqn:Ha.
    + exists 0. rewrite Nat.add_0_r.
      rewrite (ApiClientFacts.request_loop_success config fetch_attempt k st data)
        by (lia || exact Ha).
      split; [lia |]. cbn [seq List.map snd fst delays]. rewrite app_nil_r.
      split; [reflexivity |]. left. exists data. repeat split; try exact Ha.
    + rewrite (ApiClientFacts.request_loop_retry config fetch_attempt k st message)
        by (lia || exact Ha).
      destruct (IH (S k) {| retryCount := S k;
                            delays := delays st ++ [backoff (S k)] |})
        as [n [Hn [Hdelays Hsettled]]]; [lia |].
      exists (S n). split; [lia |]. split.
      * rewrite Hdelays. cbn [delays seq List.map]. rewrite <- app_assoc. reflexivity.
      * replace (k + S n) with (S k + n) by lia.
        destruct Hsettled as [[data H] | [message' [-> H]]]; [left | right].
        -- exists data. exact H.
        -- exists message'. split; [reflexivity | exact H].
Qed.

(** X21. [apiClient.request] settles on every course of answers: it never
    falls out of its loop without a result.  It resolves with the data of
    the first attempt that succeeds, having reset the retry counter, or
    rejects after [maxRetries + 1] failed attempts; the delays it has
    waited are the first [n] of the doubling schedule, for the number
    [n <= maxRetries] of failures that a further attempt followed. *)
Theorem request_always_settles (st : State) :
  exists n,
    n <= maxRetries config
    /\ (forall k, k < n -> is_failure (fetch_attempt k) = true)
    /\ delays (request st).2 = delays st ++ backoff_schedule n
    /\ ((exists data,
            attempt (fetch_attempt n) = inl data
            /\ (request st).1 = Resolved data
            /\ retryCount (request st).2 = 0)
        \/ (exists message,
              n = maxRetries config
              /\ attempt (fetch_attempt n) = inr message
              /\ (request st).1
                 = Rejected (Error ("Échec après " +:+ digits_of_nat (maxRetries config)
                                    +:+ " tentatives: " +:+ message))
              /\ retryCount (request st).2 = S (maxRetries config))).
Proof.
  unfold ApiClient.request.
  assert (Hfailures : forall remaining k st0,
             k + remaining = maxRetries config ->
             forall n, n <= remaining ->
               delays (request_loop k st0).2
               = delays st0 ++ List.map backoff (seq (S k) n) ->
               forall j, k <= j < k + n -> is_failure (fetch_attempt j) = true).
  { induction remaining as [| remaining IH]; intros k st0 Hk n Hn Hdelays j Hj;
      [lia |].
    destruct (attempt (fetch_attempt k)) as [data | message] eqn:Ha.
    - rewrite (ApiClientFacts.request_loop_success config fetch_attempt k st0 data)
        in Hdelays by (lia || exact Ha).
      cbn [snd delays] in Hdelays.
      apply (f_equal (@length Z)) in Hdelays.
      rewrite length_app, length_map, length_seq in Hdelays. lia.
    - destruct (decide (j = k)) as [-> | Hne].
      { unfold is_failure. rewrite Ha. reflexivity. }
      destruct n as [| n]; [lia |].
      rewrite (ApiClientFacts.request_loop_retry config fetch_attempt k st0 message)
        in Hdelays by (lia || exact Ha).
      apply (IH (S k) {| retryCount := S k; delays := delays st0 ++ [backoff (S k)] |}
               ltac:(lia) n ltac:(lia)); [| lia].
      rewrite Hdelays. cbn [delays seq List.map]. rewrite <- app_assoc. reflexivity. }
  destruct (request_loop_settles (maxRetries config) 0 st eq_refl)
    as [n [Hn [Hdelays Hsettled]]].
  exists n. split; [exact Hn |]. split.
  - intros k Hk.
    apply (Hfailures (maxRetries config) 0 st eq_refl n Hn Hdelays). lia.
  - split; [exact Hdelays |]. cbn [Nat.add] in Hsettled.
    destruct Hsettled as [H | [message [-> H]]]; [left; exact H |].
    right. exists message. split; [reflexivity | exact H].
Qed.

End Request.

End RequestFacts.

(** ** The requests of the charts *)

Module ChartsFacts.
Import JS Backend Charts ChartsPage.

Lemma render_if_present_page elementId chartData st :
  same_page st (render_if_present elementId chartData st).
Proof.
  unfold render_if_present, renderPlotlyChart.
  destruct chartData as [c |]; [| repeat split].
  destruct (bool_decide (elementId ∈ elements st)); repeat split.
Qed.

Lemma same_page_trans st1 st2 st3 :
  same_page st1 st2 -> same_page st2 st3 -> same_page st1 st3.
Proof.
  intros [H1 [H2 [H3 [H4 H5]]]] [H1' [H2' [H3' [H4' H5']]]].
  repeat split; congruence.
Qed.

Lemma renderConsumptionCharts_page payload st st' :
  renderConsumptionCharts payload st = Normal st' -> same_page st st'.
Proof.
  unfold renderConsumptionCharts. destruct payload as [c |]; [| discriminate].
  intros H. injection H as <-.
  eapply same_page_trans; [| apply render_if_present_page].
  eapply same_page_trans; [| apply render_if_present_page].
  apply render_if_present_page.
Qed.

Lemma renderCharts_page payload st st' :
  renderCharts payload st = Normal st' -> same_page st st'.
Proof.
  unfold renderCharts. destruct payload as [[timeline types] |]; [| discriminate].
  intros H. injection H as <-.
  eapply same_page_trans; [| apply render_if_present_page].
  apply render_if_present_page.
Qed.

(** X22. Whatever the backend answers, [updateConsumptionCharts] sends
    exactly one request, to the address built from the two selects as
    they are at that moment, with [7d] and [all] in place of a select
    that is missing or empty, and [loadCharts] sends exactly one request
    for the overview; neither changes the selects or the set of chart
    elements. *)
Theorem charts_send_one_request
    (consumption : FetchOutcome ConsumptionCharts)
    (overview : FetchOutcome (option ChartData * option ChartData)) (st : State) :
  let range := value_or (time_range_select st) "7d" in
  let type := value_or (building_type_select st) "all" in
  let st1 := updateConsumptionCharts consumption st in
  let st2 := loadCharts overview st in
  requests st1
  = requests st ++ ["/api/charts/consumption?range=" +:+ range +:+ "&type=" +:+ type]
  /\ requests st2 = requests st ++ ["/api/charts/overview"]
  /\ elements st1 = elements st /\ elements st2 = elements st
  /\ time_range_select st1 = time_range_select st
  /\ building_type_select st1 = building_type_select st
  /\ (forall v, time_range_select st = Some v -> v <> "" -> range = v)
  /\ (time_range_select st = None \/ time_range_select st = Some "" -> range = "7d").
Proof.
  cbn zeta.
  assert (H1 : same_page (request (consumption_url st) st)
                 (updateConsumptionCharts consumption st)
               \/ exists error,
                   updateConsumptionCharts consumption st
                   = log (ConsoleError "Erreur mise à jour graphiques:" error)
                       (request (consumption_url st) st)).
  { unfold updateConsumptionCharts.
    destruct (update_consumption_try consumption (request (consumption_url st) st))
      as [st' | error] eqn:Htry; [left | right; eauto].
    unfold update_consumption_try in Htry.
    destruct consumption as [message | r]; [discriminate |].
    destruct (body r) as [message | | success payload]; try discriminate.
    destruct (success_truthy success).
    - apply (renderConsumptionCharts_page _ _ _ Htry).
    - injection Htry as <-. repeat split. }
  assert (H2 : elements (loadCharts overview st) = elements st
               /\ requests (loadCharts overview st)
                  = requests st ++ ["/api/charts/overview"]).
  { unfold loadCharts.
    destruct overview as [message | r]; [split; reflexivity |].
    destruct (body r) as [message | | success payload]; try (split; reflexivity).
    destruct (success_truthy success); [| split; reflexivity].
    destruct (renderCharts payload (request "/api/charts/overview" st))
      as [st' | error] eqn:Hrender; [| split; reflexivity].
    destruct (renderCharts_page _ _ _ Hrender) as [He [_ [_ [_ Hr]]]].
    rewrite He, Hr. split; reflexivity. }
  destruct H2 as [He2 Hr2].
  assert (Hpage1 : requests (updateConsumptionCharts consumption st)
                   = requests st ++ [consumption_url st]
                   /\ elements (updateConsumptionCharts consumption st) = elements st
                   /\ time_range_select (updateConsumptionCharts consumption st)
                      = time_range_select st
                   /\ building_type_select (updateConsumptionCharts consumption st)
                      = building_type_select st).
  { destruct H1 as [[He [Ht [Hb [_ Hr]]]] | [error ->]];
      [rewrite He, Ht, Hb, Hr |]; repeat split. }
  destruct Hpage1 as [Hr1 [He1 [Ht1 Hb1]]].
  split; [exact Hr1 |]. split; [exact Hr2 |].
  split; [exact He1 |]. split; [exact He2 |].
  split; [exact Ht1 |]. split; [exact Hb1 |]. split.
  - intros v -> Hv. unfold value_or. apply String.eqb_neq in Hv. rewrite Hv. reflexivity.
  - intros [-> | ->]; reflexivity.
Qed.

End ChartsFacts.

(** ** Loading the real data *)

Module RealDataFacts.
Import JS Backend RealData.

Lemma steady_refl st : steady st st.
Proof. repeat split. Qed.

Lemma steady_trans st1 st2 st3 : steady st1 st2 -> steady st2 st3 -> steady st1 st3.
Proof.
  intros [H1 [H2 [H3 [H4 [H5 H6]]]]] [H1' [H2' [H3' [H4' [H5' H6']]]]].
  repeat split; congruence.
Qed.

Lemma log_steady l st : steady st (log l st).
Proof. repeat split. Qed.

Lemma draw_steady id p st : steady st (draw id p st).
Proof. unfold draw. destruct (plots st !! id); repeat split. Qed.

Lemma set_text_steady id text st : steady st (set_text id text st).1.
Proof.
  unfold set_text. destruct (texts st !! id); [| apply steady_refl].
  destruct text; repeat split.
Qed.

Lemma and_then_steady (r : Run) (k : State -> Run) st :
  steady st r.1 -> (forall st1, steady st st1 -> steady st (k st1).1) ->
  steady st (and_then r k).1.
Proof.
  intros Hr Hk. destruct r as [st1 [e |]]; cbn in *; [exact Hr | apply Hk, Hr].
Qed.

Lemma createFallbackCharts_steady st : steady st (createFallbackCharts st).
Proof.
  unfold createFallbackCharts. destruct (plotly st); [| apply log_steady].
  eapply steady_trans; [| apply log_steady].
  eapply steady_trans; apply draw_steady.
Qed.

Lemma renderRealCharts_steady charts st : steady st (renderRealCharts charts st).
Proof.
  unfold renderRealCharts. destruct (plotly st); [| apply log_steady].
  set (st1 := match plots st !! "consumption-timeline", timeline charts with
              | Some _, Some c => _
              | _, _ => st
              end).
  assert (H1 : steady st st1).
  { subst st1. destruct (plots st !! "consumption-timeline"), (timeline charts);
      try apply steady_refl.
    eapply steady_trans; [apply draw_steady | apply log_steady]. }
  destruct (plots st1 !! "building-types-pie"), (pie charts); try exact H1.
  eapply steady_trans; [exact H1 |].
  eapply steady_trans; [apply draw_steady | apply log_steady].
Qed.

Lemma loadRealCharts_steady answer st :
  dataLoaded (loadRealCharts answer st) = dataLoaded st
  /\ realData (loadRealCharts answer st) = realData st
  /\ status_indicator (loadRealCharts answer st) = status_indicator st
  /\ status_text (loadRealCharts answer st) = status_text st
  /\ toasts (loadRealCharts answer st) = toasts st
  /\ requests (loadRealCharts answer st) = requests st ++ ["/api/charts/overview"].
Proof.
  assert (H : steady (request "/api/charts/overview"
                        (log (Log "📊 Chargement des graphiques Malaysia...") st))
                (loadRealCharts answer st)).
  { unfold loadRealCharts.
    destruct answer as [message | r].
    { eapply steady_trans; [apply log_steady | apply createFallbackCharts_steady]. }
    destruct (Backend.ok r);
      [| eapply steady_trans; [apply log_steady | apply createFallbackCharts_steady]].
    destruct (Backend.body r) as [message | | success [c |]].
    - eapply steady_trans; [apply log_steady | apply createFallbackCharts_steady].
    - eapply steady_trans; [apply log_steady |].
      eapply steady_trans; [apply log_steady | apply createFallbackCharts_steady].
    - destruct (success_truthy success).
      + eapply steady_trans; [apply log_steady | apply renderRealCharts_steady].
      + eapply steady_trans; [apply log_steady |].
        eapply steady_trans; [apply log_steady | apply createFallbackCharts_steady].
    - eapply steady_trans; [apply log_steady |].
      eapply steady_trans; [apply log_steady | apply createFallbackCharts_steady]. }
  destruct H as [H1 [H2 [H3 [H4 [H5 H6]]]]]. repeat split; assumption.
Qed.

Section Host.

Variable Number_toString : float -> string.

Abbreviation updateStatistics := (RealData.updateStatistics Number_toString).
Abbreviation loadDataSummary := (RealData.loadDataSummary Number_toString).
Abbreviation loadRealData := (RealData.loadRealData Number_toString).

Lemma updateStatistics_steady summary st : steady st (updateStatistics summary st).1.
Proof.
  unfold RealData.updateStatistics.
  apply and_then_steady; [apply set_text_steady |]. intros st1 H1.
  apply and_then_steady; [eapply steady_trans; [exact H1 | apply set_text_steady] |].
  intros st2 H2.
  apply and_then_steady; [eapply steady_trans; [exact H2 | apply set_text_steady] |].
  intros st3 H3.
  apply and_then_steady; [eapply steady_trans; [exact H3 | apply set_text_steady] |].
  intros st4 H4. cbn [fst]. eapply steady_trans; [exact H4 | apply log_steady].
Qed.

Lemma loadDataSummary_steady answer st :
  dataLoaded (loadDataSummary answer st) = dataLoaded st
  /\ realData (loadDataSummary answer st) = realData st
  /\ status_indicator (loadDataSummary answer st) = status_indicator st
  /\ status_text (loadDataSummary answer st) = status_text st
  /\ toasts (loadDataSummary answer st) = toasts st
  /\ requests (loadDataSummary answer st) = requests st ++ ["/api/data/summary"].
Proof.
  assert (H : steady (request "/api/data/summary" st) (loadDataSummary answer st)).
  { unfold RealData.loadDataSummary. cbv zeta beta.
    destruct answer as [message | r]; [apply log_steady |].
    destruct (Backend.ok r); [| apply log_steady].
    destruct (Backend.body r) as [message | | success [s |]].
    - apply log_steady.
    - eapply steady_trans; apply log_steady.
    - destruct (success_truthy success); [| apply log_steady].
      pose proof (updateStatistics_steady s
                    (log (Log "📊 Résumé des données Malaysia:")
                       (request "/api/data/summary" st))) as Hs.
      destruct (updateStatistics s _) as [st3 [e |]]; cbn [fst] in Hs.
      + eapply steady_trans; [apply log_steady |].
        eapply steady_trans; [exact Hs | apply log_steady].
      + eapply steady_trans; [apply log_steady | exact Hs].
    - apply log_steady. }
  destruct H as [H1 [H2 [H3 [H4 [H5 H6]]]]]. repeat split; assumption.
Qed.

Lemma load_try_cases load st :
  let st1 := (RealData.load_try load st).1 in
  texts st1 = texts st /\ plotly st1 = plotly st /\ plots st1 = plots st
  /\ status_indicator st1 = status_indicator st /\ status_text st1 = status_text st
  /\ toasts st1 = toasts st ++ [Shown "Chargement des données Malaysia..." "info"]
  /\ requests st1 = requests st ++ ["/api/data/load"]
  /\ dataLoaded st1 = dataLoaded st /\ realData st1 = realData st
  /\ (load_succeeds load = true -> exists info, (load_try load st).2 = Normal info)
  /\ (load_succeeds load = false -> exists e, (load_try load st).2 = Throw e).
Proof.
  cbn zeta.
  assert (Hgoal : forall (st1 : State) (outcome : Completion (option Json)) (good : bool),
             texts st1 = texts st -> plotly st1 = plotly st -> plots st1 = plots st ->
             status_indicator st1 = status_indicator st ->
             status_text st1 = status_text st ->
             toasts st1 = toasts st ++ [Shown "Chargement des données Malaysia..." "info"] ->
             requests st1 = requests st ++ ["/api/data/load"] ->
             dataLoaded st1 = dataLoaded st -> realData st1 = realData st ->
             (good = true -> exists info, outcome = Normal info) ->
             (good = false -> exists e, outcome = Throw e) ->
             texts (st1, outcome).1 = texts st /\ plotly (st1, outcome).1 = plotly st
             /\ plots (st1, outcome).1 = plots st
             /\ status_indicator (st1, outcome).1 = status_indicator st
             /\ status_text (st1, outcome).1 = status_text st
             /\ toasts (st1, outcome).1
                = toasts st ++ [Shown "Chargement des données Malaysia..." "info"]
             /\ requests (st1, outcome).1 = requests st ++ ["/api/data/load"]
             /\ dataLoaded (st1, outcome).1 = dataLoaded st
             /\ realData (st1, outcome).1 = realData st
             /\ (good = true -> exists info, (st1, outcome).2 = Normal info)
             /\ (good = false -> exists e, (st1, outcome).2 = Throw e)).
  { intros st1 outcome good H1 H2 H3 H4 H5 H6 H7 H8 H9 H10 H11. cbn [fst snd].
    split; [exact H1 |]. split; [exact H2 |]. split; [exact H3 |]. split; [exact H4 |].
    split; [exact H5 |]. split; [exact H6 |]. split; [exact H7 |]. split; [exact H8 |].
    split; [exact H9 |]. split; [exact H10 | exact H11]. }
  unfold load_try, load_succeeds.
  destruct load as [message | r].
  { apply Hgoal; try reflexivity; [discriminate | intros _; eexists; reflexivity]. }
  destruct (ok r); cbn [negb andb].
  2:{ apply Hgoal; try reflexivity; [discriminate | intros _; eexists; reflexivity]. }
  destruct (body r) as [| | result].
  - apply Hgoal; try reflexivity; [discriminate | intros _; eexists; reflexivity].
  - apply Hgoal; try reflexivity; [discriminate | intros _; eexists; reflexivity].
  - destruct (success_truthy (success result)); apply Hgoal; try reflexivity.
    + intros _; eexists; reflexivity.
    + discriminate.
    + discriminate.
    + intros _; eexists; reflexivity.
Qed.

(** X23. Once the load request is answered with a usable document,
    [loadRealData] asks for the summary and then for the charts and marks
    the data as loaded whatever those two answer: their failures are
    caught where they happen.  The status says that the data are loaded
    and the last toast reports success. *)
Theorem loadRealData_marks_the_data_loaded
    (load : LoadOutcome) (summary : FetchOutcome Summary)
    (charts : FetchOutcome ChartsPayload) (st : State) :
  load_succeeds load = true ->
  let run := loadRealData load summary charts st in
  run.2 = None
  /\ dataLoaded run.1 = true
  /\ requests run.1
     = requests st ++ ["/api/data/load"; "/api/data/summary"; "/api/charts/overview"]
  /\ toasts run.1
     = toasts st ++ [Shown "Chargement des données Malaysia..." "info";
                     Shown "✅ Données Malaysia chargées avec succès" "success"]
  /\ (is_Some (status_indicator st) -> is_Some (status_text st) ->
      status_indicator run.1 = Some "status-indicator status-connected"
      /\ status_text run.1 = Some "Données Malaysia chargées").
Proof.
  intros Hload. cbn zeta. unfold RealData.loadRealData.
  destruct (load_try_cases load st)
    as [_ [_ [_ [Hi [Ht [Hto [Hr [_ [_ [Hgood _]]]]]]]]]].
  destruct (Hgood Hload) as [info Hinfo].
  destruct (load_try load st) as [st1 outcome]. cbn [fst snd] in *. subst outcome.
  destruct (loadDataSummary_steady summary st1) as [_ [_ [Hi1 [Ht1 [Hto1 Hr1]]]]].
  destruct (loadRealCharts_steady charts (loadDataSummary summary st1))
    as [_ [_ [Hi2 [Ht2 [Hto2 Hr2]]]]].
  unfold updateConnectionStatus, showToast.
  cbn [status_indicator status_text toasts requests dataLoaded fst snd].
  rewrite Hi2, Hi1, Hi, Ht2, Ht1, Ht.
  split; [reflexivity |]. split.
  { destruct (status_indicator st), (status_text st); reflexivity. }
  split.
  { transitivity (requests (loadRealCharts charts (loadDataSummary summary st1))).
    - destruct (status_indicator st), (status_text st); reflexivity.
    - rewrite Hr2, Hr1, Hr, <- !app_assoc. reflexivity. }
  split.
  { transitivity (toasts (loadRealCharts charts (loadDataSummary summary st1))
                  ++ [Shown "✅ Données Malaysia chargées avec succès" "success"]).
    - destruct (status_indicator st), (status_text st); reflexivity.
    - rewrite Hto2, Hto1, Hto, <- app_assoc. reflexivity. }
  intros [i ->] [t ->]. split; reflexivity.
Qed.

Lemma draw_texts id p st : texts (draw id p st) = texts st.
Proof. unfold draw. destruct (plots st !! id); reflexivity. Qed.

Lemma createFallbackCharts_texts st : texts (createFallbackCharts st) = texts st.
Proof.
  unfold createFallbackCharts. destruct (plotly st); [| reflexivity].
  change (texts (log ?l ?s)) with (texts s). rewrite !draw_texts. reflexivity.
Qed.

Lemma updateConnectionStatus_frame status text st :
  texts (updateConnectionStatus status text st) = texts st
  /\ requests (updateConnectionStatus status text st) = requests st
  /\ dataLoaded (updateConnectionStatus status text st) = dataLoaded st
  /\ toasts (updateConnectionStatus status text st) = toasts st.
Proof.
  unfold updateConnectionStatus.
  destruct (status_indicator st), (status_text st); repeat split.
Qed.

Lemma updateConnectionStatus_shown status text st :
  is_Some (status_indicator st) -> is_Some (status_text st) ->
  status_indicator (updateConnectionStatus status text st)
  = Some ("status-indicator status-" +:+ status)
  /\ status_text (updateConnectionStatus status text st) = Some text.
Proof.
  intros [i Hi] [t Ht]. unfold updateConnectionStatus. rewrite Hi, Ht.
  split; reflexivity.
Qed.

Lemma set_text_present id t old st :
  texts st !! id = Some old ->
  set_text id (Normal t) st
  = ({| texts := <[id := t]> (texts st); plotly := plotly st; plots := plots st;
        status_indicator := status_indicator st; status_text := status_text st;
        toasts := toasts st; console := console st; requests := requests st;
        dataLoaded := dataLoaded st; realData := realData st |}, None).
Proof. intros H. unfold set_text. rewrite H. reflexivity. Qed.

Lemma set_text_missing id text st :
  texts st !! id = None -> set_text id text st = (st, Some TypeError).
Proof. intros H. unfold set_text. rewrite H. reflexivity. Qed.

Lemma set_text_outcome id t st :
  (set_text id (Normal t) st).2 = None
  \/ (set_text id (Normal t) st = (st, Some TypeError) /\ texts st !! id = None).
Proof.
  unfold set_text. destruct (texts st !! id); [left | right; split]; reflexivity.
Qed.

Lemma set_text_others id t st id' :
  is_Some (texts st !! id') -> is_Some (texts (set_text id (Normal t) st).1 !! id').
Proof.
  intros H. unfold set_text. destruct (texts st !! id) eqn:Hid; [| exact H].
  cbn [fst texts]. destruct (decide (id' = id)) as [-> | Hne].
  - rewrite lookup_insert_eq. eauto.
  - rewrite lookup_insert_ne by congruence. exact H.
Qed.

(** The fallback keeps everything but the texts, the charts and the
    status, and needs the four statistics. *)
Lemma loadFallbackData_steady st :
  requests (loadFallbackData st).1 = requests st
  /\ dataLoaded (loadFallbackData st).1 = dataLoaded st
  /\ toasts (loadFallbackData st).1 = toasts st.
Proof.
  unfold loadFallbackData.
  set (s0 := log (Log "🔄 Chargement des données de secours...") st).
  assert (H0 : steady st s0) by apply log_steady. clearbody s0.
  pose proof (set_text_steady "total-buildings" (Normal "1,247") s0) as H1.
  destruct (set_text "total-buildings" (Normal "1,247") s0) as [s1 [e1 |]];
    cbn [and_then fst] in *.
  { destruct (steady_trans _ _ _ H0 H1) as [Hd [_ [_ [_ [Ht Hr]]]]]. auto. }
  pose proof (set_text_steady "total-consumption" (Normal "2.4M kWh") s1) as H2.
  destruct (set_text "total-consumption" (Normal "2.4M kWh") s1) as [s2 [e2 |]];
    cbn [and_then fst] in *.
  { destruct (steady_trans _ _ _ (steady_trans _ _ _ H0 H1) H2)
      as [Hd [_ [_ [_ [Ht Hr]]]]]. auto. }
  pose proof (set_text_steady "total-water" (Normal "356K L") s2) as H3.
  destruct (set_text "total-water" (Normal "356K L") s2) as [s3 [e3 |]];
    cbn [and_then fst] in *.
  { destruct (steady_trans _ _ _ (steady_trans _ _ _ (steady_trans _ _ _ H0 H1) H2) H3)
      as [Hd [_ [_ [_ [Ht Hr]]]]]. auto. }
  pose proof (set_text_steady "avg-temperature" (Normal "28.5°C") s3) as H4.
  destruct (set_text "avg-temperature" (Normal "28.5°C") s3) as [s4 [e4 |]];
    cbn [and_then fst] in *.
  { destruct (steady_trans _ _ _
                (steady_trans _ _ _ (steady_trans _ _ _ (steady_trans _ _ _ H0 H1) H2) H3)
                H4) as [Hd [_ [_ [_ [Ht Hr]]]]]. auto. }
  destruct (updateConnectionStatus_frame "connected" "Mode démo" (createFallbackCharts s4))
    as [_ [Hr [Hd Ht]]].
  destruct (createFallbackCharts_steady s4) as [Hd' [_ [_ [_ [Ht' Hr']]]]].
  destruct (steady_trans _ _ _
              (steady_trans _ _ _ (steady_trans _ _ _ (steady_trans _ _ _ H0 H1) H2) H3)
              H4) as [Hd4 [_ [_ [_ [Ht4 Hr4]]]]].
  rewrite Hr, Hd, Ht, Hr', Hd', Ht'. auto.
Qed.

Lemma loadFallbackData_samples st :
  (forall id, id ∈ statistics -> is_Some (texts st !! id)) ->
  (loadFallbackData st).2 = None
  /\ texts (loadFallbackData st).1 !! "total-buildings" = Some "1,247"
  /\ texts (loadFallbackData st).1 !! "total-consumption" = Some "2.4M kWh"
  /\ texts (loadFallbackData st).1 !! "total-water" = Some "356K L"
  /\ texts (loadFallbackData st).1 !! "avg-temperature" = Some "28.5°C"
  /\ (is_Some (status_indicator st) -> is_Some (status_text st) ->
      status_indicator (loadFallbackData st).1 = Some "status-indicator status-connected"
      /\ status_text (loadFallbackData st).1 = Some "Mode démo").
Proof.
  intros Hall.
  destruct (Hall "total-buildings") as [b Hb];
    [unfold statistics; rewrite !elem_of_cons; tauto |].
  destruct (Hall "total-consumption") as [c Hc];
    [unfold statistics; rewrite !elem_of_cons; tauto |].
  destruct (Hall "total-water") as [w Hw];
    [unfold statistics; rewrite !elem_of_cons; tauto |].
  destruct (Hall "avg-temperature") as [a Ha];
    [unfold statistics; rewrite !elem_of_cons; tauto |].
  unfold loadFallbackData.
  set (s0 := log (Log "🔄 Chargement des données de secours...") st).
  assert (Hs0 : texts s0 = texts st /\ status_indicator s0 = status_indicator st
                /\ status_text s0 = status_text st) by (repeat split).
  destruct Hs0 as [Htexts [Hi0 Ht0]]. clearbody s0. rewrite <- Htexts in Hb, Hc, Hw, Ha.
  rewrite (set_text_present "total-buildings" "1,247" b s0 Hb). cbn [and_then].
  set (s1 := {| texts := <["total-buildings" := "1,247"]> (texts s0) |}).
  assert (Hc1 : texts s1 !! "total-consumption" = Some c)
    by (subst s1; cbn [texts]; rewrite lookup_insert_ne by discriminate; exact Hc).
  rewrite (set_text_present "total-consumption" "2.4M kWh" c s1 Hc1). cbn [and_then].
  set (s2 := {| texts := <["total-consumption" := "2.4M kWh"]> (texts s1) |}).
  assert (Hw2 : texts s2 !! "total-water" = Some w)
    by (subst s2 s1; cbn [texts]; rewrite !lookup_insert_ne by discriminate; exact Hw).
  rewrite (set_text_present "total-water" "356K L" w s2 Hw2). cbn [and_then].
  set (s3 := {| texts := <["total-water" := "356K L"]> (texts s2) |}).
  assert (Ha3 : texts s3 !! "avg-temperature" = Some a)
    by (subst s3 s2 s1; cbn [texts]; rewrite !lookup_insert_ne by discriminate;
        exact Ha).
  rewrite (set_text_present "avg-temperature" "28.5°C" a s3 Ha3). cbn [and_then fst snd].
  set (s4 := {| texts := <["avg-temperature" := "28.5°C"]> (texts s3) |}).
  split; [reflexivity |].
  rewrite (proj1 (updateConnectionStatus_frame _ _ _)), createFallbackCharts_texts.
  assert (Hi4 : status_indicator s4 = status_indicator st) by (subst s4 s3 s2 s1; exact Hi0).
  assert (Ht4 : status_text s4 = status_text st) by (subst s4 s3 s2 s1; exact Ht0).
  split; [subst s4 s3 s2 s1; cbn [texts];
          rewrite !lookup_insert_ne by discriminate; apply lookup_insert_eq |].
  split; [subst s4 s3 s2; cbn [texts];
          rewrite !lookup_insert_ne by discriminate; apply lookup_insert_eq |].
  split; [subst s4 s3; cbn [texts];
          rewrite !lookup_insert_ne by discriminate; apply lookup_insert_eq |].
  split; [subst s4; cbn [texts]; apply lookup_insert_eq |].
  intros Hi Ht. apply updateConnectionStatus_shown.
  - destruct (createFallbackCharts_steady s4) as [_ [_ [H3 _]]]. rewrite H3, Hi4. exact Hi.
  - destruct (createFallbackCharts_steady s4) as [_ [_ [_ [H4 _]]]]. rewrite H4, Ht4.
    exact Ht.
Qed.

Lemma loadFallbackData_needs_the_statistics st :
  (exists id, id ∈ statistics /\ texts st !! id = None) ->
  (loadFallbackData st).2 = Some TypeError.
Proof.
  intros [id [Hin Hmissing]].
  unfold statistics in Hin. rewrite !elem_of_cons, elem_of_nil in Hin.
  unfold loadFallbackData.
  set (s0 := log (Log "🔄 Chargement des données de secours...") st).
  assert (Htexts : texts s0 = texts st) by reflexivity. clearbody s0.
  rewrite <- Htexts in Hmissing. clear Htexts.
  destruct (texts s0 !! "total-buildings") as [b |] eqn:Hb;
    [| rewrite (set_text_missing _ _ _ Hb); reflexivity].
  rewrite (set_text_present "total-buildings" "1,247" b s0 Hb). cbn [and_then].
  set (s1 := {| texts := <["total-buildings" := "1,247"]> (texts s0) |}).
  destruct (texts s0 !! "total-consumption") as [c |] eqn:Hc.
  2:{ rewrite (set_text_missing "total-consumption" _ s1); [reflexivity |].
      subst s1; cbn [texts]. rewrite lookup_insert_ne by discriminate. exact Hc. }
  rewrite (set_text_present "total-consumption" "2.4M kWh" c s1);
    [| subst s1; cbn [texts]; rewrite lookup_insert_ne by discriminate; exact Hc].
  cbn [and_then].
  set (s2 := {| texts := <["total-consumption" := "2.4M kWh"]> (texts s1) |}).
  destruct (texts s0 !! "total-water") as [w |] eqn:Hw.
  2:{ rewrite (set_text_missing "total-water" _ s2); [reflexivity |].
      subst s2 s1; cbn [texts]. rewrite !lookup_insert_ne by discriminate. exact Hw. }
  rewrite (set_text_present "total-water" "356K L" w s2);
    [| subst s2 s1; cbn [texts]; rewrite !lookup_insert_ne by discriminate; exact Hw].
  cbn [and_then].
  set (s3 := {| texts := <["total-water" := "356K L"]> (texts s2) |}).
  destruct (texts s0 !! "avg-temperature") as [a |] eqn:Ha.
  2:{ rewrite (set_text_missing "avg-temperature" _ s3); [reflexivity |].
      subst s3 s2 s1; cbn [texts]. rewrite !lookup_insert_ne by discriminate. exact Ha. }
  exfalso. destruct Hin as [-> | [-> | [-> | [-> | []]]]]; congruence.
Qed.

(** X24. When the load request fails in any way (it is rejected, the
    status is not a success, the body is not JSON or is [null], or
    [success] is falsy), [loadRealData] sends nothing further and does
    not mark the data as loaded; it shows the toast of the error and
    falls back on the sample figures, under a status that reads
    connected, demo mode.  The fallback itself throws when one of the
    four statistics is not in the document. *)
Theorem loadRealData_falls_back_on_samples
    (load : LoadOutcome) (summary : FetchOutcome Summary)
    (charts : FetchOutcome ChartsPayload) (st : State) :
  load_succeeds load = false ->
  let run := loadRealData load summary charts st in
  requests run.1 = requests st ++ ["/api/data/load"]
  /\ dataLoaded run.1 = dataLoaded st
  /\ (exists e,
        toasts run.1
        = toasts st ++ [Shown "Chargement des données Malaysia..." "info"; ShownError e])
  /\ ((forall id, id ∈ statistics -> is_Some (texts st !! id)) ->
      run.2 = None
      /\ texts run.1 !! "total-buildings" = Some "1,247"
      /\ texts run.1 !! "total-consumption" = Some "2.4M kWh"
      /\ texts run.1 !! "total-water" = Some "356K L"
      /\ texts run.1 !! "avg-temperature" = Some "28.5°C"
      /\ (is_Some (status_indicator st) -> is_Some (status_text st) ->
          status_indicator run.1 = Some "status-indicator status-connected"
          /\ status_text run.1 = Some "Mode démo"))
  /\ ((exists id, id ∈ statistics /\ texts st !! id = None) ->
      run.2 = Some TypeError).
Proof.
  intros Hload. cbn zeta. unfold RealData.loadRealData.
  destruct (load_try_cases load st)
    as [Htexts [_ [_ [Hi [Ht [Hto [Hr [Hd [_ [_ Hbad]]]]]]]]]].
  destruct (Hbad Hload) as [e He].
  destruct (load_try load st) as [st1 outcome]. cbn [fst snd] in *. subst outcome.
  set (st2 := showToast (ShownError e)
                (log (Failure "❌ Erreur chargement données Malaysia:" (Some e)) st1)).
  assert (Hst2 : texts st2 = texts st1 /\ status_indicator st2 = status_indicator st1
                 /\ status_text st2 = status_text st1
                 /\ toasts st2 = toasts st1 ++ [ShownError e]
                 /\ requests st2 = requests st1 /\ dataLoaded st2 = dataLoaded st1)
    by (repeat split).
  destruct Hst2 as [Htx2 [Hi2 [Ht2 [Hto2 [Hr2 Hd2]]]]]. clearbody st2.
  destruct (loadFallbackData_steady st2) as [Hfr [Hfd Hft]].
  split; [rewrite Hfr, Hr2; exact Hr |]. split; [rewrite Hfd, Hd2; exact Hd |].
  split; [exists e; rewrite Hft, Hto2, Hto, <- app_assoc; reflexivity |].
  split.
  - intros Hall.
    destruct (loadFallbackData_samples st2) as [H1 [H2 [H3 [H4 [H5 H6]]]]].
    { intros id Hid. rewrite Htx2, Htexts. apply Hall, Hid. }
    repeat (split; [assumption |]).
    intros Hsi Hst. apply H6; [rewrite Hi2, Hi | rewrite Ht2, Ht]; assumption.
  - intros [id [Hin Hmissing]]. apply loadFallbackData_needs_the_statistics.
    exists id. split; [exact Hin |]. rewrite Htx2, Htexts. exact Hmissing.
Qed.

End Host.

(** The overview page, a good load answer, and the two other requests
    rejected. *)
Lemma loadRealData_marks_the_data_loaded_witness :
  let run := RealData.loadRealData (fun _ => "") loaded (Rejects "Failed to fetch")
               (Rejects "Failed to fetch") overview_page in
  run.2 = None
  /\ dataLoaded run.1 = true
  /\ requests run.1 = ["/api/data/load"; "/api/data/summary"; "/api/charts/overview"]
  /\ status_text run.1 = Some "Données Malaysia chargées".
Proof.
  destruct (loadRealData_marks_the_data_loaded (fun _ => "") loaded
              (Rejects "Failed to fetch") (Rejects "Failed to fetch") overview_page
              eq_refl) as [Hrun [Hloaded [Hrequests [_ Hstatus]]]].
  split; [exact Hrun |]. split; [exact Hloaded |]. split; [exact Hrequests |].
  apply Hstatus; eexists; reflexivity.
Defined.

(** The overview page and a backend that answers 503 to the load. *)
Lemma loadRealData_falls_back_on_samples_witness :
  let run := RealData.loadRealData (fun _ => "") unavailable (Rejects "Failed to fetch")
               (Rejects "Failed to fetch") overview_page in
  run.2 = None
  /\ requests run.1 = ["/api/data/load"]
  /\ dataLoaded run.1 = false
  /\ texts run.1 !! "total-buildings" = Some "1,247"
  /\ status_text run.1 = Some "Mode démo".
Proof.
  destruct (loadRealData_falls_back_on_samples (fun _ => "") unavailable
              (Rejects "Failed to fetch") (Rejects "Failed to fetch") overview_page
              eq_refl) as [Hrequests [Hloaded [_ [Hsamples _]]]].
  destruct Hsamples as [Hrun [Hbuildings [_ [_ [_ Hstatus]]]]].
  - intros id Hid. unfold statistics in Hid. rewrite !elem_of_cons, elem_of_nil in Hid.
    destruct Hid as [-> | [-> | [-> | [-> | []]]]]; eexists; reflexivity.
  - split; [exact Hrun |]. split; [exact Hrequests |]. split; [exact Hloaded |].
    split; [exact Hbuildings |]. apply Hstatus; eexists; reflexivity.
Defined.

End RealDataFacts.

(** ** Negative Numbers in the number formatters *)

Module FormatSignFacts.
Import JS Format NumberOrder.
Local Open Scope float_scope.

(** A Number below zero is a Number, and is below 1000. *)
Lemma SF_negative_is_a_number x :
  SFltb x (S754_zero false) = true -> SFeqb x x = true.
Proof.
  destruct x as [[] | [] | | [] m e]; try (cbn; intros; (discriminate || reflexivity));
    intros _; unfold SFeqb, SFcompare;
    change (Pos.compare_cont Eq) with Pos.compare;
    destruct (Z.compare_spec e e); try lia;
    destruct (Pos.compare_spec m m); try lia; reflexivity.
Qed.

Lemma SF_negative_is_small x :
  SFltb x (S754_zero false) = true ->
  SFltb x (S754_finite false 8796093022208000 (-43)) = true.
Proof.
  destruct x as [[] | [] | | [] m e]; intros H;
    first [reflexivity | discriminate H].
Qed.

Lemma negative_is_a_number x : (x <? 0) = true -> is_nan x = false.
Proof.
  intros H. unfold is_nan. rewrite FloatAxioms.ltb_spec in H.
  rewrite FloatAxioms.eqb_spec, (SF_negative_is_a_number _ H). reflexivity.
Qed.

Section Host.

Variable Number_toString : float -> string.

Abbreviation toFixed := (JS.toFixed Number_toString).
Abbreviation formatUtils_number := (Format.formatUtils_number Number_toString).
Abbreviation formatNumber_v1 := (Format.formatNumber_v1 Number_toString).
Abbreviation formatNumber := (Format.formatNumber Number_toString).

(** X25. The number formatters disagree below zero.  [formatUtils.number]
    and [formatNumber] of 1.1.0 compare the Number itself with their
    thresholds, so that a negative Number is never abbreviated, however
    large its magnitude; [formatNumber] of 1.0.0 compares the magnitude,
    and abbreviates a negative Number like the positive one. *)
Theorem negative_numbers_are_abbreviated_in_1_0_0_only (x : float) (decimals : Z) :
  (x <? 0) = true ->
  formatUtils_number x decimals = toFixed x decimals
  /\ formatNumber (VNum x) decimals = as_value (toFixed x decimals)
  /\ ((1000 <=? PrimFloat.abs x) = true -> (PrimFloat.abs x <? 1000000) = true ->
      formatNumber_v1 (Some x) = with_suffix (toFixed (x / 1000) 1) "k")
  /\ ((1000000 <=? PrimFloat.abs x) = true ->
      formatNumber_v1 (Some x)
      = with_suffix (toFixed (x / 1000000) 1) "M").
Proof.
  intros Hneg.
  assert (Hsmall : (x <? 1000) = true).
  { rewrite FloatAxioms.ltb_spec. rewrite FloatAxioms.ltb_spec in Hneg.
    exact (SF_negative_is_small _ Hneg). }
  pose proof (negative_is_a_number x Hneg) as Hnumber.
  split; [apply FormatFacts.formatUtils_number_plain, Hsmall |].
  split; [apply FormatFacts.formatNumber_plain, Hsmall |].
  split.
  - intros Hk Hm. apply FormatFacts.formatNumber_v1_kilo; assumption.
  - intros Hm. apply FormatFacts.formatNumber_v1_mega; assumption.
Qed.

End Host.

(** The Number -1500. *)
Lemma negative_numbers_are_abbreviated_in_1_0_0_only_witness :
  Format.formatUtils_number (fun _ => "") (-1500) 1
  = JS.toFixed (fun _ => "") (-1500) 1
  /\ Format.formatNumber_v1 (fun _ => "") (Some (-1500))
     = with_suffix (JS.toFixed (fun _ => "") (-1500 / 1000) 1) "k".
Proof.
  destruct (negative_numbers_are_abbreviated_in_1_0_0_only (fun _ => "") (-1500) 1
              eq_refl) as [Hutils [_ [Hkilo _]]].
  split; [exact Hutils | apply Hkilo; reflexivity].
Defined.

End FormatSignFacts.

(** ** Switching between the two views of the map *)

Module MapViewsFacts.
Import JS Backend Maps.

Lemma no_overlay_beside_overlays ls :
  List.filter is_circle_marker
    (List.filter (fun l => negb (is_circle_marker l || is_heat_layer l)) ls) = []
  /\ List.filter is_heat_layer
       (List.filter (fun l => negb (is_circle_marker l || is_heat_layer l)) ls) = [].
Proof.
  induction ls as [| [url | a b c p | points |] ls [IH1 IH2]]; cbn;
    rewrite ?IH1, ?IH2; split; reflexivity.
Qed.

(** X26. The two renderers do not clear the same layers.  A buildings
    render takes the circle markers off the map and nothing else, so that
    the heat layers that were on the map are still there under the new
    markers; a heatmap render takes off both kinds, and leaves no circle
    marker and exactly the heat layer of its payload. *)
Theorem buildings_render_keeps_the_heat_layers
    (st : State) (m : MapWidget) (d : MapData) (ms : list MarkerData)
    (h : HeatmapData) (ps : list HeatPoint) :
  map st = Some m ->
  markers d = Some ms ->
  heatmap_points h = Some ps ->
  (exists st' m',
      renderBuildingsOnMap (Some d) st = Normal st' /\ map st' = Some m'
      /\ List.filter is_heat_layer (layers m') = List.filter is_heat_layer (layers m)
      /\ circle_markers m' = List.map circleMarker ms)
  /\ (exists st' m',
        renderConsumptionHeatmap (Some h) st = Normal st' /\ map st' = Some m'
        /\ circle_markers m' = []
        /\ List.filter is_heat_layer (layers m') = heat_layers ps).
Proof.
  intros Hmap Hmarkers Hpoints. split.
  - destruct (MapsFacts.renderBuildingsOnMap_draws st m d ms Hmap Hmarkers)
      as [st' [m' [Hrun [Hmap' Hlayers]]]].
    destruct (MapsFacts.renderBuildingsOnMap_layers m' m ms Hlayers)
      as [Hdrawn [Hheat _]].
    exists st', m'. repeat split; assumption.
  - unfold renderConsumptionHeatmap. rewrite Hmap, Hpoints.
    destruct (no_overlay_beside_overlays (layers m)) as [Hc Hh].
    destruct ps as [| p ps].
    + eexists _, _. split; [reflexivity |]. cbn [map with_map].
      split; [reflexivity |]. unfold circle_markers. cbn [layers].
      split; [exact Hc | exact Hh].
    + eexists _, _. split; [reflexivity |]. cbn [map log with_map].
      split; [reflexivity |].
      assert (Hlayers : forall m',
                 layers m'
                 = List.filter (fun l => negb (is_circle_marker l || is_heat_layer l))
                     (layers m) ++ [HeatLayer (List.map heat_triple (p :: ps))] ->
                 circle_markers m' = []
                 /\ List.filter is_heat_layer (layers m') = heat_layers (p :: ps)).
      { intros m' Hm'. unfold circle_markers. rewrite Hm', !List.filter_app, Hc, Hh.
        split; reflexivity. }
      apply Hlayers. destruct (heat_center h); reflexivity.
Qed.

(** The map after a heatmap render, then a payload with one building. *)
Lemma buildings_render_keeps_the_heat_layers_witness :
  let heat := HeatLayer [(3.139, 101.6869, 0.8)]%float in
  let m := {| layers := [tiles; heat]; view_center := (4.2105, 101.9758)%float;
              view_zoom := 6%float |} in
  exists st' m',
    renderBuildingsOnMap (Some one_building) (with_map initial_page m) = Normal st'
    /\ map st' = Some m'
    /\ List.filter is_heat_layer (layers m') = [heat]
    /\ circle_markers m' = [circleMarker kuala_lumpur].
Proof.
  exact (proj1 (buildings_render_keeps_the_heat_layers
                  (with_map initial_page
                     {| layers := [tiles; HeatLayer [(3.139, 101.6869, 0.8)]%float];
                        view_center := (4.2105, 101.9758)%float;
                        view_zoom := 6%float |})
                  _ one_building [kuala_lumpur]
                  {| heatmap_points := Some []; heat_center := None; heat_zoom := None |}
                  [] eq_refl eq_refl eq_refl)).
Defined.

End MapViewsFacts.

(** ** The automatic refresh of [Dashboard] 1.0.0 *)

Module AutoRefreshFacts.

Import AutoRefresh.

Lemma showToast_frame message st :
  autoRefreshInterval (showToast message st) = autoRefreshInterval st /\
  live (showToast message st) = live st /\
  next_handle (showToast message st) = next_handle st.
Proof. unfold showToast. destruct (toast_container st); auto. Qed.

Lemma step_fresh st ev : fresh st -> fresh (step st ev).
Proof.
  unfold fresh. intros H. destruct ev as [[|]|handle time]; cbn [step].
  - destruct (showToast_frame "🔄 Actualisation automatique activée"
      {| autoRefreshInterval := Some (next_handle st);
         live := live st ++ [next_handle st];
         next_handle := S (next_handle st); dataLoaded := dataLoaded st;
         quick_update := quick_update st; toast_container := toast_container st;
         toasts := toasts st |}) as (_ & -> & ->).
    cbn. apply Forall_app. split.
    + eapply Forall_impl; [exact H|]. cbn. lia.
    + constructor; [lia|constructor].
  - match goal with |- context [showToast ?m ?s] =>
      destruct (showToast_frame m s) as (_ & -> & ->) end.
    destruct (autoRefreshInterval st) as [[|h]|]; cbn; auto.
    rewrite Forall_forall in *. intros x Hx.
    apply list_elem_of_In, List.filter_In in Hx. destruct Hx as [Hx _].
    apply H, list_elem_of_In, Hx.
  - destruct (existsb _ _ && dataLoaded st); [|exact H].
    destruct (quick_update st); exact H.
Qed.

Lemma run_fresh events : forall st, fresh st -> fresh (run events st).
Proof.
  unfold run. induction events as [|ev events IH]; intros st H; cbn [fold_left]; auto.
  apply IH, step_fresh, H.
Qed.

(** One step never clears an interval other than the one whose handle
    [this.autoRefreshInterval] holds, and the handle it holds afterwards
    is the old one or a new one. *)
Lemma step_keeps st ev h :
  In h (live st) -> h < next_handle st -> autoRefreshInterval st <> Some h ->
  In h (live (step st ev)) /\ h < next_handle (step st ev) /\
  autoRefreshInterval (step st ev) <> Some h.
Proof.
  intros Hin Hlt Hne. destruct ev as [[|]|handle time]; cbn [step].
  - match goal with |- context [showToast ?m ?s] =>
      destruct (showToast_frame m s) as (-> & -> & ->) end.
    cbn. repeat split.
    + apply in_or_app. left. exact Hin.
    + lia.
    + intros [= E]. lia.
  - match goal with |- context [showToast ?m ?s] =>
      destruct (showToast_frame m s) as (-> & -> & ->) end.
    destruct (autoRefreshInterval st) as [[|k]|] eqn:E;
      cbn [autoRefreshInterval live next_handle]; rewrite ?E.
    + auto.
    + repeat split; [|exact Hlt|discriminate].
      apply List.filter_In. split; [exact Hin|].
      apply negb_true_iff, Nat.eqb_neq. intros ->. apply Hne. reflexivity.
    + auto.
  - destruct (existsb _ _ && dataLoaded st); [|auto].
    destruct (quick_update st); auto.
Qed.

Lemma run_keeps events : forall st h,
  In h (live st) -> h < next_handle st -> autoRefreshInterval st <> Some h ->
  In h (live (run events st)).
Proof.
  unfold run. induction events as [|ev events IH]; intros st h Hin Hlt Hne;
    cbn [fold_left]; auto.
  destruct (step_keeps st ev h Hin Hlt Hne) as (H1 & H2 & H3).
  apply IH; assumption.
Qed.

Lemma run_app events more st : run (events ++ more) st = run more (run events st).
Proof. unfold run. apply fold_left_app. Qed.

(** Switching on stores a new handle and adds its interval. *)
Lemma step_on st :
  autoRefreshInterval (step st (Change true)) = Some (next_handle st) /\
  live (step st (Change true)) = live st ++ [next_handle st] /\
  next_handle (step st (Change true)) = S (next_handle st).
Proof.
  cbn [step].
  match goal with |- context [showToast ?m ?s] =>
    destruct (showToast_frame m s) as (-> & -> & ->) end.
  auto.
Qed.

(** Switching off clears the interval of the stored handle. *)
Lemma step_off st h :
  autoRefreshInterval st = Some (S h) ->
  autoRefreshInterval (step st (Change false)) = None /\
  live (step st (Change false)) =
    List.filter (fun k => negb (k =? S h)%nat) (live st) /\
  next_handle (step st (Change false)) = next_handle st.
Proof.
  intros E. cbn [step].
  match goal with |- context [showToast ?m ?s] =>
    destruct (showToast_frame m s) as (-> & -> & ->) end.
  rewrite E. auto.
Qed.

(** X27. Switching the automatic refresh on twice without switching it
    off in between (the [change] listener of [setupAutoRefresh] called
    with a checked box while an interval is already running) loses the
    first interval: after any history, two such events store the handle
    of the second interval only, switching off clears that one and
    resets the stored handle, and the first interval stays with the host
    through every later event, whatever the switch does. *)
Theorem setupAutoRefresh_loses_an_interval first loaded clock container history later :
  let before := run history (idle first loaded clock container) in
  let lost := next_handle before in
  let off := run [Change true; Change true; Change false] before in
  autoRefreshInterval off = None /\
  In lost (live off) /\
  ~ In (S lost) (live off) /\
  In lost (live (run later off)).
Proof.
  intros before lost off.
  assert (Hfresh : fresh before).
  { apply run_fresh. constructor. }
  assert (Hoff : autoRefreshInterval off = None /\
                 live off = List.filter (fun h => negb (h =? S lost)%nat)
                              ((live before ++ [lost]) ++ [S lost]) /\
                 next_handle off = S (S lost)).
  { unfold off, run. cbn [fold_left].
    destruct (step_on before) as (_ & Hlive1 & Hnext1).
    destruct (step_on (step before (Change true))) as (Hhandle2 & Hlive2 & Hnext2).
    rewrite Hnext1 in Hhandle2.
    destruct (step_off _ _ Hhandle2) as (-> & -> & ->).
    rewrite Hlive2, Hlive1, Hnext2, Hnext1. auto. }
  destruct Hoff as (Hhandle & Hlive & Hnext).
  assert (Hlost : In lost (live off)).
  { rewrite Hlive. apply List.filter_In. split.
    - apply in_or_app. left. apply in_or_app. right. left. reflexivity.
    - apply negb_true_iff, Nat.eqb_neq. lia. }
  repeat split; auto.
  - rewrite Hlive. intros H. apply List.filter_In in H. destruct H as [_ H].
    rewrite Nat.eqb_refl in H. discriminate.
  - apply run_keeps; auto.
    + rewrite Hnext. lia.
    + rewrite Hhandle. discriminate.
Qed.

End AutoRefreshFacts.
